(** * Notes-to-mind-map browser client: a model of its scripts and their properties

    The development embeds the three browser scripts of the repository:

    - [App]    : [frontend/app.js], the upload form controller and the bridge
                 to the graph library (current revision);
    - [Legacy] : the earlier revision of the same script that the repository
                 still carries (no content-type inspection, no container
                 guard, flowchart drawn like the mind map);
    - [Auth]   : [frontend/auth.js], the login overlay and the session gate.

    [JS] holds what the scripts take from the language and the browser:
    strings as sequences of UTF-16 code units, JSON values, exceptions,
    regular expressions, and the [fetch] response with its one-shot body.

    An [async] function is modelled by its effect from the state in which it
    starts to the state in which it settles, the outcome of each request it
    awaits being an argument. *)

From Stdlib Require Import List NArith ZArith String Ascii Bool Lia DecimalString.
From Stdlib Require QArith.
Import ListNotations.

Set Warnings "-register-all".

Module JS.

Local Open Scope N_scope.

(** ** Strings *)

(** A JavaScript string is a sequence of 16-bit code units. *)
Definition jsstring := list N.

(** The code units of an ASCII literal. *)
Definition units (s : string) : jsstring :=
  map N_of_ascii (list_ascii_of_string s).

Definition str_eqb (a b : jsstring) : bool :=
  if list_eq_dec N.eq_dec a b then true else false.

(** Template-literal rendering of a non-negative integer such as
    [res.status]. *)
Definition decimal (n : N) : jsstring :=
  units (NilZero.string_of_uint (N.to_uint n)).

Fixpoint starts_with (p s : jsstring) : bool :=
  match p, s with
  | [], _ => true
  | _ :: _, [] => false
  | a :: p', b :: s' => (a =? b) && starts_with p' s'
  end.

(** [String.prototype.includes]. *)
Fixpoint includes (s p : jsstring) : bool :=
  starts_with p s ||
  match s with
  | [] => false
  | _ :: s' => includes s' p
  end.

(** [s.substring(0, n)]. *)
Definition substring0 (n : nat) (s : jsstring) : jsstring := firstn n s.

(** WhiteSpace and LineTerminator code units: what [\s] matches and what
    [String.prototype.trim] strips. *)
Definition is_space (c : N) : bool :=
  ((9 <=? c) && (c <=? 13)) || (c =? 32) || (c =? 160) || (c =? 5760) ||
  ((8192 <=? c) && (c <=? 8202)) || (c =? 8232) || (c =? 8233) ||
  (c =? 8239) || (c =? 8287) || (c =? 12288) || (c =? 65279).

Fixpoint trim_start (s : jsstring) : jsstring :=
  match s with
  | [] => []
  | c :: s' => if is_space c then trim_start s' else s
  end.

Definition trim (s : jsstring) : jsstring :=
  rev (trim_start (rev (trim_start s))).

(** ** Regular expressions

    The patterns of the scripts use character classes, concatenation and [+]
    only; they are matched by derivatives. *)
Inductive regex : Type :=
| Void : regex
| Eps : regex
| Class : (N -> bool) -> regex
| Seq : regex -> regex -> regex
| Alt : regex -> regex -> regex
| Star : regex -> regex.

Definition Plus (r : regex) : regex := Seq r (Star r).

Fixpoint nullable (r : regex) : bool :=
  match r with
  | Void => false
  | Eps => true
  | Class _ => false
  | Seq a b => nullable a && nullable b
  | Alt a b => nullable a || nullable b
  | Star _ => true
  end.

Fixpoint deriv (c : N) (r : regex) : regex :=
  match r with
  | Void => Void
  | Eps => Void
  | Class p => if p c then Eps else Void
  | Seq a b =>
      if nullable a then Alt (Seq (deriv c a) b) (deriv c b)
      else Seq (deriv c a) b
  | Alt a b => Alt (deriv c a) (deriv c b)
  | Star a => Seq (deriv c a) (Star a)
  end.

(** [/^r$/.test(s)]. *)
Fixpoint matches (r : regex) (s : jsstring) : bool :=
  match s with
  | [] => nullable r
  | c :: s' => matches (deriv c r) s'
  end.

(** [/[class]/.test(s)], an unanchored one-character pattern. *)
Definition test_class (p : N -> bool) (s : jsstring) : bool := existsb p s.

(** The language of a pattern, for stating what [matches] decides. *)
Inductive lang : regex -> jsstring -> Prop :=
| L_eps : lang Eps []
| L_class p c : p c = true -> lang (Class p) [c]
| L_seq a b s t : lang a s -> lang b t -> lang (Seq a b) (s ++ t)
| L_alt_l a b s : lang a s -> lang (Alt a b) s
| L_alt_r a b s : lang b s -> lang (Alt a b) s
| L_star_nil a : lang (Star a) []
| L_star_cons a s t : lang a s -> lang (Star a) t -> lang (Star a) (s ++ t).

(** ** JSON values *)

Section Values.

Variable number : Type.

Inductive value : Type :=
| VUndef : value
| VNull : value
| VBool : bool -> value
| VNum : number -> value
| VStr : jsstring -> value
| VArr : list value -> value
| VObj : list (jsstring * value) -> value.

Definition is_nullish (v : value) : bool :=
  match v with
  | VUndef | VNull => true
  | _ => false
  end.

(** [Array.isArray]. *)
Definition is_array (v : value) : bool :=
  match v with
  | VArr _ => true
  | _ => false
  end.

Fixpoint lookup (k : jsstring) (fields : list (jsstring * value)) : value :=
  match fields with
  | [] => VUndef
  | (k', v) :: rest => if str_eqb k k' then v else lookup k rest
  end.

(** [v.k] for a value that is neither [null] nor [undefined], and for a
    property name that no prototype defines (every name the scripts read is
    such a name): an own property of an object, [undefined] otherwise. *)
Definition field (v : value) (k : jsstring) : value :=
  match v with
  | VObj fields => lookup k fields
  | _ => VUndef
  end.

(** [v?.k]. *)
Definition opt_field (v : value) (k : jsstring) : value :=
  if is_nullish v then VUndef else field v k.

(** The object has an own property [k], whatever its value. *)
Definition has_own (k : jsstring) (fields : list (jsstring * value)) : bool :=
  existsb (fun kv => str_eqb k (fst kv)) fields.

(** ToPrimitive succeeds on [v]. A value that came out of [JSON.parse]
    holds no function, so an object with an own [toString] has no callable
    [toString] left, while the inherited [valueOf] returns the object
    itself: the conversion raises a TypeError, with either hint. An array
    converts by joining its elements, each converted in turn unless it is
    [null] or [undefined]. *)
Fixpoint convertible (v : value) : bool :=
  match v with
  | VObj fields => negb (has_own (units "toString") fields)
  | VArr xs =>
      (fix all (l : list value) : bool :=
         match l with
         | [] => true
         | x :: rest => convertible x && all rest
         end) xs
  | _ => true
  end.

End Values.

Arguments VUndef {number}.
Arguments VNull {number}.
Arguments VBool {number} _.
Arguments VNum {number} _.
Arguments VStr {number} _.
Arguments VArr {number} _.
Arguments VObj {number} _.
Arguments is_nullish {number} _.
Arguments is_array {number} _.
Arguments lookup {number} _ _.
Arguments field {number} _ _.
Arguments opt_field {number} _ _.
Arguments has_own {number} _ _.
Arguments convertible {number} _.

(** ** What the engine supplies

    Numbers are IEEE doubles; the scripts only test them for truth, print
    them and format them, so the type and these three operations are taken
    from the engine, together with the literal [1] and the messages of the
    exceptions that the engine itself raises. *)
Record Engine : Type := {
  number : Type;
  num_truthy : number -> bool;
  num_to_string : number -> jsstring;
  num_one : number;
  (** [Number(v).toFixed(2)], for a [v] that converts *)
  Number_toFixed2 : value number -> jsstring;
  (** converting to a primitive a value that does not convert *)
  msg_not_primitive : value number -> jsstring;
  (** reading a body that was already read *)
  msg_body_used : jsstring;
  (** [JSON.parse] failing on the given text *)
  msg_json_syntax : jsstring -> jsstring;
  (** reading the named property of [null] or [undefined] *)
  msg_nullish_read : value number -> jsstring -> jsstring;
  (** assigning to the named property of [null] or [undefined] *)
  msg_nullish_write : value number -> jsstring -> jsstring
}.

Section Semantics.

Variable E : Engine.

Definition val : Type := value (number E).

(** ToBoolean. *)
Definition truthy (v : val) : bool :=
  match v with
  | VUndef | VNull => false
  | VBool b => b
  | VNum n => num_truthy E n
  | VStr s => match s with [] => false | _ => true end
  | VArr _ | VObj _ => true
  end.

(** [a || b]. *)
Definition or_else (a b : val) : val := if truthy a then a else b.

(** The string that ToString gives for a value that converts; an array
    joins its elements with commas, [null] and [undefined] elements
    printing as nothing. *)
Fixpoint printed (v : val) : jsstring :=
  match v with
  | VUndef => units "undefined"
  | VNull => units "null"
  | VBool true => units "true"
  | VBool false => units "false"
  | VNum n => num_to_string E n
  | VStr s => s
  | VArr xs =>
      (fix join (l : list val) : jsstring :=
         match l with
         | [] => []
         | x :: rest =>
             (if is_nullish x then [] else printed x) ++
             match rest with
             | [] => []
             | _ :: _ => units "," ++ join rest
             end
         end) xs
  | VObj _ => units "[object Object]"
  end.

(** ** Exceptions and completions *)

Inductive error_name : Type := Error | TypeError | SyntaxError.

Record exn : Type := { exn_name : error_name; message : jsstring }.

Inductive completion (A : Type) : Type :=
| Normal : A -> completion A
| Throw : exn -> completion A.

Arguments Normal {A} _.
Arguments Throw {A} _.

Definition throws {A : Type} (c : completion A) : bool :=
  match c with
  | Normal _ => false
  | Throw _ => true
  end.

(** ToString, as a template literal, [new Error(v)] and the string
    properties of an element apply it: the engine's TypeError for a value
    that does not convert. *)
Definition to_string (v : val) : completion jsstring :=
  if convertible v then Normal (printed v)
  else Throw {| exn_name := TypeError; message := msg_not_primitive E v |}.

(** [Number(v).toFixed(2)]: ToNumber converts [v] to a primitive first. *)
Definition Number_toFixed (v : val) : completion jsstring :=
  if convertible v then Normal (Number_toFixed2 E v)
  else Throw {| exn_name := TypeError; message := msg_not_primitive E v |}.

(** [v.k], raising the engine's TypeError when [v] is [null] or
    [undefined]. *)
Definition get (v : val) (k : jsstring) : completion val :=
  if is_nullish v
  then Throw {| exn_name := TypeError; message := msg_nullish_read E v k |}
  else Normal (field v k).

(** Statements run on a state, may change it, and complete normally or
    abruptly; the state reached is kept in both cases. *)
Definition M (S A : Type) : Type := S -> completion A * S.

Definition ret {S A : Type} (a : A) : M S A := fun s => (Normal a, s).

Definition bind {S A B : Type} (m : M S A) (k : A -> M S B) : M S B :=
  fun s =>
    match m s with
    | (Normal a, s') => k a s'
    | (Throw e, s') => (Throw e, s')
    end.

Definition throw {S A : Type} (e : exn) : M S A := fun s => (Throw e, s).

(** [throw new Error(m)]. *)
Definition throw_Error {S A : Type} (m : jsstring) : M S A :=
  throw {| exn_name := Error; message := m |}.

Definition lift {S A : Type} (c : completion A) : M S A := fun s => (c, s).

Definition modify {S : Type} (f : S -> S) : M S unit :=
  fun s => (Normal tt, f s).

Definition gets {S A : Type} (f : S -> A) : M S A := fun s => (Normal (f s), s).

(** [try { m } catch (e) { h e }]. *)
Definition try_catch {S A : Type} (m : M S A) (h : exn -> M S A) : M S A :=
  fun s =>
    match m s with
    | (Normal a, s') => (Normal a, s')
    | (Throw e, s') => h e s'
    end.

(** [try { m } finally { f }], for an [f] that completes normally. *)
Definition try_finally {S A : Type} (m : M S A) (f : S -> S) : M S A :=
  fun s => let (c, s') := m s in (c, f s').

(** [m] relates every state to the state it leaves, whether it completes
    normally or abruptly. *)
Definition keeps {S A : Type} (R : S -> S -> Prop) (m : M S A) : Prop :=
  forall s, R s (snd (m s)).

(** ** [fetch] *)

(** A response: its status, its [Content-Type] header if any, and its body
    ([None] for a null body), given as the text it decodes to together with
    what [JSON.parse] makes of that text ([None] when it is not JSON). *)
Record Body : Type := { body_text : jsstring; body_json : option val }.

Record Response : Type := {
  status : N;
  content_type : option jsstring;
  body : option Body
}.

(** [res.ok]. *)
Definition ok (res : Response) : bool :=
  (200 <=? status res) && (status res <=? 299).

(** The outcome of a [fetch]: the promise rejects (transport failure) or
    resolves with a response, whatever its status. *)
Inductive fetch_outcome : Type :=
| Rejected : exn -> fetch_outcome
| Responded : Response -> fetch_outcome.

(** What the body of a response parses to, if it has a body and the body is
    JSON. *)
Definition parsed (res : Response) : option val :=
  match body res with
  | Some b => body_json b
  | None => None
  end.

(** Reading a body: a non-null body can be read once; a second read raises
    the engine's TypeError. [used] is the response's [bodyUsed] flag before
    the read; the result carries the flag after it. *)
Definition read_json (res : Response) (used : bool) : completion val * bool :=
  match body res with
  | None =>
      (Throw {| exn_name := SyntaxError; message := msg_json_syntax E [] |}, used)
  | Some b =>
      if used
      then (Throw {| exn_name := TypeError; message := msg_body_used E |}, true)
      else
        match body_json b with
        | Some v => (Normal v, true)
        | None =>
            (Throw {| exn_name := SyntaxError;
                      message := msg_json_syntax E (body_text b) |}, true)
        end
  end.

Definition read_text (res : Response) (used : bool) : completion jsstring * bool :=
  match body res with
  | None => (Normal [], used)
  | Some b =>
      if used
      then (Throw {| exn_name := TypeError; message := msg_body_used E |}, true)
      else (Normal (body_text b), true)
  end.

End Semantics.

Arguments Normal {A} _.
Arguments Throw {A} _.
Arguments body_text {E} _.
Arguments body_json {E} _.
Arguments status {E} _.
Arguments content_type {E} _.
Arguments body {E} _.
Arguments ok {E} _.
Arguments Rejected {E} _.
Arguments Responded {E} _.
Arguments parsed {E} _.
Arguments read_json {E} _ _.
Arguments read_text {E} _ _.

End JS.

Declare Scope js_scope.
Delimit Scope js_scope with js.
Notation "x <- m ;; k" := (JS.bind m (fun x => k))
  (at level 61, m at next level, right associativity) : js_scope.
Notation "m ;; k" := (JS.bind m (fun _ => k))
  (at level 61, right associativity) : js_scope.

(** * The graph library, as the scripts use it

    [vis.Network] is a collaborator outside the repository. The scripts
    create instances on a container and destroy them; the model keeps the
    chronicle of these two operations, newest first. Constructors are taken
    to succeed. *)
Module Vis.

Import JS.
Local Open Scope N_scope.

(** The two graph regions of the page, [#mindmap] and [#flowchart]. *)
Inductive container : Type := Mindmap | Flowchart.

Definition container_eqb (a b : container) : bool :=
  match a, b with
  | Mindmap, Mindmap | Flowchart, Flowchart => true
  | _, _ => false
  end.

(** A handle names an instance by the length of the chronicle at the moment
    of its creation, so no two instances share one. *)
Definition handle : Type := nat.

Record Stabilization : Type := { iterations : N; fit : bool }.
Record Physics : Type := {
  enabled : bool; solver : jsstring; stabilization : Stabilization }.
Record NodeFont : Type := { nf_face : jsstring; nf_size : N; nf_color : jsstring }.
Record Highlight : Type := { hl_background : jsstring; hl_border : jsstring }.
Record NodeColor : Type := {
  nc_background : jsstring; nc_border : jsstring; nc_highlight : Highlight }.
Record Nodes : Type := {
  shape : jsstring; size : N; n_font : NodeFont; n_color : NodeColor }.
Record EdgeColor : Type := { ec_color : jsstring; ec_highlight : jsstring }.
Record ArrowTo : Type := { to_enabled : bool; scaleFactor : QArith_base.Q }.
Record EdgeFont : Type := { ef_color : jsstring; ef_size : N; ef_align : jsstring }.
Record Edges : Type := {
  e_color : EdgeColor; arrows_to : ArrowTo; smooth_enabled : bool; e_font : EdgeFont }.
Record Interaction : Type := { hover : bool; tooltipDelay : N }.
Record Hierarchical : Type := {
  direction : jsstring; levelSeparation : N; nodeSpacing : N }.
Record Layout : Type := { hierarchical : Hierarchical }.

Record Options : Type := {
  physics : Physics;
  nodes : Nodes;
  edges : Edges;
  interaction : Interaction;
  layout : option Layout
}.

(** The instance that a variable of the script refers to, if any. *)
Definition listed (o : option handle) : list handle :=
  match o with
  | Some h => [h]
  | None => []
  end.

Section Chronicle.

Variable E : Engine.

(** [Created h c nodes edges opts]: [new vis.Network(c, {nodes, edges}, opts)]
    returned [h]. [Destroyed h]: [h.destroy()] was called. *)
Inductive event : Type :=
| Created : handle -> container -> val E -> val E -> Options -> event
| Destroyed : handle -> event.

(** The instances alive on [c] once the chronicle [log] has happened. *)
Fixpoint live_on (c : container) (log : list event) : list handle :=
  match log with
  | [] => []
  | Created h c' _ _ _ :: older =>
      if container_eqb c c' then h :: live_on c older else live_on c older
  | Destroyed h :: older => remove Nat.eq_dec h (live_on c older)
  end.

Definition fresh (log : list event) : handle := List.length log.

(** The chronicle once the previous owner of a container, if any, has been
    destroyed. *)
Definition vacated (previous : option handle) (log : list event) : list event :=
  match previous with
  | Some p => Destroyed p :: log
  | None => log
  end.

End Chronicle.

Arguments live_on {E} _ _.
Arguments fresh {E} _.
Arguments vacated {E} _ _.

End Vis.

(** * [frontend/app.js] *)
Module App.

Import JS Vis.
Local Open Scope js_scope.

(** ** The page *)

Record Button : Type := { disabled : bool; textContent : jsstring }.

(** A file picked by the user. *)
Record File : Type := { file_name : jsstring }.

(** A form control as [submitForm] reads it: [value] ([None] when the element
    has no such property), [checked], and [files] ([None] when the element
    is not a file input). *)
Record Element : Type := {
  value : option jsstring;
  checked : bool;
  files : option (list File)
}.

(** [document.getElementById] on the form controls, looked up at each
    submission. *)
Definition Document : Type := jsstring -> option Element.

(** An entry of a [FormData]: a file or a string. *)
Inductive entry : Type :=
| FileEntry : File -> entry
| TextEntry : jsstring -> entry.

Definition FormData : Type := list (jsstring * entry).

Record Request : Type := {
  url : jsstring;
  method : jsstring;
  req_body : FormData;
  credentials : jsstring
}.

Section Script.

Variable E : Engine.

Abbreviation val := (JS.val E).
Abbreviation event := (Vis.event E).

(** The state of the script: the elements it captured when it loaded ([None]
    or [false] for one that the page does not have), its two variables
    [mindmapNetwork] and [flowchartNetwork], and around it the chronicle of
    the graph library, the requests sent, the console, and the [bodyUsed]
    flag of the response that the running submission holds. *)
Record State : Type := {
  statusEl : option jsstring;
  processBtn : option Button;
  textEl : option jsstring;
  conceptsEl : option (list jsstring);
  mindmapEl : bool;
  flowchartEl : bool;
  mindmapNetwork : option handle;
  flowchartNetwork : option handle;
  vis : list event;
  requests : list Request;
  console : list exn;
  bodyUsed : bool
}.

Definition set_statusEl (x : option jsstring) (s : State) : State :=
  {| statusEl := x; processBtn := processBtn s; textEl := textEl s;
     conceptsEl := conceptsEl s; mindmapEl := mindmapEl s;
     flowchartEl := flowchartEl s; mindmapNetwork := mindmapNetwork s;
     flowchartNetwork := flowchartNetwork s; vis := vis s;
     requests := requests s; console := console s; bodyUsed := bodyUsed s |}.

Definition set_processBtn (x : option Button) (s : State) : State :=
  {| statusEl := statusEl s; processBtn := x; textEl := textEl s;
     conceptsEl := conceptsEl s; mindmapEl := mindmapEl s;
     flowchartEl := flowchartEl s; mindmapNetwork := mindmapNetwork s;
     flowchartNetwork := flowchartNetwork s; vis := vis s;
     requests := requests s; console := console s; bodyUsed := bodyUsed s |}.

Definition set_textEl (x : option jsstring) (s : State) : State :=
  {| statusEl := statusEl s; processBtn := processBtn s; textEl := x;
     conceptsEl := conceptsEl s; mindmapEl := mindmapEl s;
     flowchartEl := flowchartEl s; mindmapNetwork := mindmapNetwork s;
     flowchartNetwork := flowchartNetwork s; vis := vis s;
     requests := requests s; console := console s; bodyUsed := bodyUsed s |}.

Definition set_conceptsEl (x : option (list jsstring)) (s : State) : State :=
  {| statusEl := statusEl s; processBtn := processBtn s; textEl := textEl s;
     conceptsEl := x; mindmapEl := mindmapEl s;
     flowchartEl := flowchartEl s; mindmapNetwork := mindmapNetwork s;
     flowchartNetwork := flowchartNetwork s; vis := vis s;
     requests := requests s; console := console s; bodyUsed := bodyUsed s |}.

Definition set_mindmapNetwork (x : option handle) (s : State) : State :=
  {| statusEl := statusEl s; processBtn := processBtn s; textEl := textEl s;
     conceptsEl := conceptsEl s; mindmapEl := mindmapEl s;
     flowchartEl := flowchartEl s; mindmapNetwork := x;
     flowchartNetwork := flowchartNetwork s; vis := vis s;
     requests := requests s; console := console s; bodyUsed := bodyUsed s |}.

Definition set_flowchartNetwork (x : option handle) (s : State) : State :=
  {| statusEl := statusEl s; processBtn := processBtn s; textEl := textEl s;
     conceptsEl := conceptsEl s; mindmapEl := mindmapEl s;
     flowchartEl := flowchartEl s; mindmapNetwork := mindmapNetwork s;
     flowchartNetwork := x; vis := vis s;
     requests := requests s; console := console s; bodyUsed := bodyUsed s |}.

Definition set_vis (x : list event) (s : State) : State :=
  {| statusEl := statusEl s; processBtn := processBtn s; textEl := textEl s;
     conceptsEl := conceptsEl s; mindmapEl := mindmapEl s;
     flowchartEl := flowchartEl s; mindmapNetwork := mindmapNetwork s;
     flowchartNetwork := flowchartNetwork s; vis := x;
     requests := requests s; console := console s; bodyUsed := bodyUsed s |}.

Definition set_requests (x : list Request) (s : State) : State :=
  {| statusEl := statusEl s; processBtn := processBtn s; textEl := textEl s;
     conceptsEl := conceptsEl s; mindmapEl := mindmapEl s;
     flowchartEl := flowchartEl s; mindmapNetwork := mindmapNetwork s;
     flowchartNetwork := flowchartNetwork s; vis := vis s;
     requests := x; console := console s; bodyUsed := bodyUsed s |}.

Definition set_console (x : list exn) (s : State) : State :=
  {| statusEl := statusEl s; processBtn := processBtn s; textEl := textEl s;
     conceptsEl := conceptsEl s; mindmapEl := mindmapEl s;
     flowchartEl := flowchartEl s; mindmapNetwork := mindmapNetwork s;
     flowchartNetwork := flowchartNetwork s; vis := vis s;
     requests := requests s; console := x; bodyUsed := bodyUsed s |}.

Definition set_bodyUsed (x : bool) (s : State) : State :=
  {| statusEl := statusEl s; processBtn := processBtn s; textEl := textEl s;
     conceptsEl := conceptsEl s; mindmapEl := mindmapEl s;
     flowchartEl := flowchartEl s; mindmapNetwork := mindmapNetwork s;
     flowchartNetwork := flowchartNetwork s; vis := vis s;
     requests := requests s; console := console s; bodyUsed := x |}.

(** The state in which the script starts: no graph drawn yet. *)
Definition loaded (s : State) : Prop :=
  mindmapNetwork s = None /\ flowchartNetwork s = None /\ vis s = [].

(** ** The functions of the script *)

(** [if (statusEl) statusEl.textContent = msg || '']. *)
Definition setStatus (msg : jsstring) (s : State) : State :=
  match statusEl s with
  | Some _ => set_statusEl (Some msg) s
  | None => s
  end.

(** The label of the idle button, the default of [setBusy]'s second
    parameter. *)
Definition Process : jsstring := units "Process".

(** ['Processing…'], the ellipsis being U+2026. *)
Definition Processing : jsstring := units "Processing" ++ [8230%N].

Definition setBusy (busy : bool) (label : jsstring) (s : State) : State :=
  match processBtn s with
  | None => s
  | Some _ =>
      set_processBtn
        (Some {| disabled := busy;
                 textContent := if busy then Processing else label |}) s
  end.

(** The text of the list item that [renderConcepts] builds for [item]. *)
Definition li_textContent (item : val) : completion jsstring :=
  match item with
  | VStr s => Normal s
  | _ =>
      match get E item (units "phrase") with
      | Throw e => Throw e
      | Normal phrase =>
          match to_string E (or_else E phrase (VStr [])) with
          | Throw e => Throw e
          | Normal name =>
              let score := field item (units "score") in
              if is_nullish score then Normal name
              else
                match Number_toFixed E score with
                | Throw e => Throw e
                | Normal fixed =>
                    Normal (name ++ units " (" ++ fixed ++ units ")")
                end
          end
      end
  end.

(** [list.forEach(item => { ...; conceptsEl.appendChild(li) })]. *)
Fixpoint appendItems (list : list val) : M State unit :=
  match list with
  | [] => ret tt
  | item :: rest =>
      text <- lift (li_textContent item) ;;
      modify (fun s =>
                match conceptsEl s with
                | Some lis => set_conceptsEl (Some (lis ++ [text])) s
                | None => s
                end) ;;
      appendItems rest
  end.

Definition renderConcepts (list : list val) : M State unit :=
  fun s =>
    match conceptsEl s with
    | None => (Normal tt, s)
    | Some _ => appendItems list (set_conceptsEl (Some []) s)
    end.

Definition visOptions : Options :=
  {| physics :=
       {| enabled := true;
          solver := units "forceAtlas2Based";
          stabilization := {| iterations := 200; fit := true |} |};
     nodes :=
       {| shape := units "dot";
          size := 14;
          n_font := {| nf_face := units "Inter, system-ui, sans-serif";
                       nf_size := 14; nf_color := units "#0f172a" |};
          n_color := {| nc_background := units "#93c5fd";
                        nc_border := units "#2563eb";
                        nc_highlight :=
                          {| hl_background := units "#60a5fa";
                             hl_border := units "#1d4ed8" |} |} |};
     edges :=
       {| e_color := {| ec_color := units "#64748b";
                        ec_highlight := units "#334155" |};
          arrows_to := {| to_enabled := true; scaleFactor := QArith_base.Qmake 7 10 |};
          smooth_enabled := false;
          e_font := {| ef_color := units "#475569"; ef_size := 12;
                       ef_align := units "horizontal" |} |};
     interaction := {| hover := true; tooltipDelay := 120 |};
     layout := None |}.

(** [opts.layout = {...}; opts.physics.enabled = false]. *)
Definition make_hierarchical (opts : Options) : Options :=
  {| physics := {| enabled := false;
                   solver := solver (physics opts);
                   stabilization := stabilization (physics opts) |};
     nodes := nodes opts;
     edges := edges opts;
     interaction := interaction opts;
     layout := Some {| hierarchical :=
                         {| direction := units "LR";
                            levelSeparation := 160;
                            nodeSpacing := 80 |} |} |}.

(** [previous.destroy()]. *)
Definition destroy (h : handle) : M State unit :=
  modify (fun s => set_vis (Destroyed E h :: vis s) s).

(** [new vis.Network(container, data, opts)]. *)
Definition new_Network (c : container) (nodes edges : val) (opts : Options)
  : M State handle :=
  fun s =>
    let h := fresh (vis s) in
    (Normal h, set_vis (Created E h c nodes edges opts :: vis s) s).

(** The descriptor handed to [renderNetwork]. *)
Record Graph : Type := { g_nodes : val; g_edges : val }.

Definition renderNetwork (container : option container)
  (previous : option handle) (graph : Graph) (hierarchical : bool)
  : M State (option handle) :=
  match container with
  | None => ret None
  | Some c =>
      let data_nodes := or_else E (g_nodes graph) (VArr []) in
      let data_edges := or_else E (g_edges graph) (VArr []) in
      let opts := visOptions in
      let opts := if hierarchical then make_hierarchical opts else opts in
      match previous with
      | Some p => destroy p
      | None => ret tt
      end ;;
      h <- new_Network c data_nodes data_edges opts ;;
      ret (Some h)
  end.

(** [a || b] on two looked-up elements. *)
Definition or_element (a b : option Element) : option Element :=
  match a with
  | Some _ => a
  | None => b
  end.

(** [input?.value || dflt]. *)
Definition value_or (input : option Element) (dflt : jsstring) : jsstring :=
  match input with
  | Some el =>
      match value el with
      | Some (c :: v) => c :: v
      | Some [] | None => dflt
      end
  | None => dflt
  end.

(** [input?.checked]. *)
Definition is_checked (input : option Element) : bool :=
  match input with
  | Some el => checked el
  | None => false
  end.

(** [!filesInput || !filesInput.files || filesInput.files.length === 0]
    decides between [None] and the files to send. *)
Definition selected (filesInput : option Element) : option (list File) :=
  match filesInput with
  | None => None
  | Some el =>
      match files el with
      | None | Some [] => None
      | Some (f :: fs) => Some (f :: fs)
      end
  end.

(** The [FormData] that [submitForm] assembles for the given files. *)
Definition assemble (document : Document) (files : list File) : FormData :=
  let langInput := or_element (document (units "lang")) (document (units "ocrLang")) in
  let topKInput := or_element (document (units "top_k")) (document (units "topConcepts")) in
  let ocrEngineInput := document (units "ocrEngine") in
  let messyInput := or_element (document (units "messy")) (document (units "messyMode")) in
  map (fun f => (units "files", FileEntry f)) files ++
  [ (units "lang", TextEntry (value_or langInput (units "en")));
    (units "top_k", TextEntry (value_or topKInput (units "15")));
    (units "ocr_engine", TextEntry (value_or ocrEngineInput (units "gcv"))) ] ++
  (if is_checked messyInput then [(units "messy", TextEntry (units "true"))] else []).

(** [await fetch(url, init)]: the request leaves; the promise settles as
    [net] says. *)
Definition fetch (rq : Request) (net : fetch_outcome E) : M State (Response E) :=
  fun s =>
    let s := set_requests (rq :: requests s) s in
    match net with
    | Rejected e => (Throw e, s)
    | Responded res => (Normal res, set_bodyUsed false s)
    end.

(** [await res.json()] and [await res.text()]. *)
Definition res_json (res : Response E) : M State val :=
  fun s => let (c, u) := read_json res (bodyUsed s) in (c, set_bodyUsed u s).

Definition res_text (res : Response E) : M State jsstring :=
  fun s => let (c, u) := read_text res (bodyUsed s) in (c, set_bodyUsed u s).

(** [contentType && contentType.includes('application/json')]. *)
Definition is_json (contentType : option jsstring) : bool :=
  match contentType with
  | Some ct => includes ct (units "application/json")
  | None => false
  end.

(** [`HTTP ${res.status}`]. *)
Definition HTTP_status (res : Response E) : jsstring :=
  units "HTTP " ++ decimal (status res).

(** [`HTTP ${res.status}: ${errorText.substring(0, 200)}`]. *)
Definition HTTP_status_text (res : Response E) (errorText : jsstring) : jsstring :=
  HTTP_status res ++ units ": " ++ substring0 200 errorText.

(** The block [if (!res.ok) { ... }] of [submitForm]. The [throw] of the
    decoded message stands inside the [try] and is caught by its own
    [catch]. *)
Definition check_status (res : Response E) : M State unit :=
  if negb (ok res) then
    let contentType := content_type res in
    if is_json contentType then
      try_catch
        (errorData <- res_json res ;;
         error <- lift (get E errorData (units "error")) ;;
         m <- lift (to_string E (or_else E error (VStr (HTTP_status res)))) ;;
         throw_Error m)
        (fun jsonErr =>
           errorText <- res_text res ;;
           throw_Error (HTTP_status_text res errorText))
    else
      errorText <- res_text res ;;
      throw_Error (HTTP_status_text res errorText)
  else ret tt.

(** [if (!contentType || !contentType.includes('application/json')) ...]. *)
Definition check_content_type (res : Response E) : M State unit :=
  let contentType := content_type res in
  if negb (is_json contentType) then
    text <- res_text res ;;
    throw_Error (units "Expected JSON response, got: " ++ substring0 100 text)
  else ret tt.

(** The container argument of a call [renderNetwork(mindmapEl, ...)]: the
    captured element, or [null]. *)
Definition element_of (present : bool) (c : container) : option container :=
  if present then Some c else None.

(** [{ nodes: d.nodes, edges: d.edges }] for a truthy descriptor [d]. *)
Definition graph_of (d : val) : Graph :=
  {| g_nodes := field d (units "nodes"); g_edges := field d (units "edges") |}.

(** [v || dflt] inside a template literal. *)
Definition string_or (v : val) (dflt : jsstring) : completion jsstring :=
  if truthy E v then to_string E v else Normal dflt.

(** [({ phrase: c, score: 1 })]. *)
Definition as_concept (c : val) : val :=
  VObj [(units "phrase", c); (units "score", VNum (num_one E))].

(** [data.text || data.llm?.clean_text || '']. *)
Definition text_of_data (data : val) : val :=
  or_else E (field data (units "text"))
    (or_else E (opt_field (field data (units "llm")) (units "clean_text"))
       (VStr [])).

(** "Display extracted text": the [value] of the text area is a string
    property, so the assignment converts. *)
Definition display_text (data : val) : M State unit :=
  present <- gets textEl ;;
  match present with
  | Some _ =>
      text <- lift (to_string E (text_of_data data)) ;;
      modify (set_textEl (Some text))
  | None => ret tt
  end.

(** "Display concepts". *)
Definition display_concepts (data : val) : M State unit :=
  match field data (units "keyphrases") with
  | VArr keyphrases => renderConcepts keyphrases
  | _ =>
      match opt_field (field data (units "llm")) (units "concepts") with
      | VArr concepts => renderConcepts (map as_concept concepts)
      | _ => ret tt
      end
  end.

(** "Render mindmap". *)
Definition render_mindmap (data : val) : M State unit :=
  present <- gets mindmapEl ;;
  if truthy E (field data (units "mindmap")) && present then
    previous <- gets mindmapNetwork ;;
    h <- renderNetwork (element_of present Mindmap) previous
           (graph_of (field data (units "mindmap"))) false ;;
    modify (set_mindmapNetwork h)
  else ret tt.

(** "Render flowchart". *)
Definition render_flowchart (data : val) : M State unit :=
  present <- gets flowchartEl ;;
  if truthy E (field data (units "flowchart")) && present then
    previous <- gets flowchartNetwork ;;
    h <- renderNetwork (element_of present Flowchart) previous
           (graph_of (field data (units "flowchart"))) true ;;
    modify (set_flowchartNetwork h)
  else ret tt.

(** The final [setStatus]. *)
Definition done (data : val) : M State unit :=
  let meta := or_else E (field data (units "meta")) (VObj []) in
  pages <- lift (string_or (field meta (units "images_processed")) (units "0")) ;;
  engine <- lift (string_or (field meta (units "ocr_engine")) (units "n/a")) ;;
  modify (setStatus
            (units "Done (" ++ pages ++ units " page(s), engine: " ++
             engine ++ units ")")).

(** The success path of [submitForm], from [if (textEl)] to the final
    [setStatus]; [data] is not [null] there. *)
Definition show (data : val) : M State unit :=
  display_text data ;;
  display_concepts data ;;
  render_mindmap data ;;
  render_flowchart data ;;
  done data.

(** What [submitForm] does with the response, once [fetch] has resolved. *)
Definition respond (res : Response E) : M State unit :=
  check_status res ;;
  check_content_type res ;;
  data <- res_json res ;;
  error <- lift (get E data (units "error")) ;;
  (if truthy E error
   then m <- lift (to_string E error) ;; throw_Error m
   else ret tt) ;;
  show data.

(** The body of the [try] block. *)
Definition attempt (document : Document) (net : fetch_outcome E) : M State unit :=
  let filesInput :=
    or_element (document (units "files")) (document (units "fileInput")) in
  match selected filesInput with
  | None =>
      modify (setStatus (units "Please select at least one file.")) ;;
      modify (setBusy false Process)
  | Some files =>
      let fd := assemble document files in
      res <- fetch {| url := units "/api/process";
                      method := units "POST";
                      req_body := fd;
                      credentials := units "same-origin" |} net ;;
      respond res
  end.

(** [err.message || 'Failed to process']. *)
Definition message_or (err : exn) (dflt : jsstring) : jsstring :=
  match message err with
  | [] => dflt
  | c :: m => c :: m
  end.

(** The [catch] block: [console.error] and [setStatus]. *)
Definition report (err : exn) : M State unit :=
  modify (fun s => set_console (err :: console s) s) ;;
  modify (setStatus (message_or err (units "Failed to process"))).

(** [submitForm], run on the controls that [document] holds when the form is
    submitted and on the outcome [net] of the request, from the state [s] to
    the state in which the handler has settled. *)
Definition submitForm (document : Document) (net : fetch_outcome E) (s : State)
  : State :=
  snd ((modify (setStatus []) ;;
        modify (setBusy true Process) ;;
        try_finally
          (try_catch (attempt document net) report)
          (setBusy false Process)) s).

(** A sequence of submissions, each with its controls and its outcome. *)
Fixpoint submissions (l : list (Document * fetch_outcome E)) (s : State) : State :=
  match l with
  | [] => s
  | (document, net) :: rest => submissions rest (submitForm document net s)
  end.

End Script.

Arguments statusEl {E} _.
Arguments processBtn {E} _.
Arguments textEl {E} _.
Arguments conceptsEl {E} _.
Arguments mindmapEl {E} _.
Arguments flowchartEl {E} _.
Arguments mindmapNetwork {E} _.
Arguments flowchartNetwork {E} _.
Arguments vis {E} _.
Arguments requests {E} _.
Arguments console {E} _.
Arguments bodyUsed {E} _.
Arguments loaded {E} _.
Arguments set_statusEl {E} _ _.
Arguments set_processBtn {E} _ _.
Arguments set_textEl {E} _ _.
Arguments set_conceptsEl {E} _ _.
Arguments set_mindmapNetwork {E} _ _.
Arguments set_flowchartNetwork {E} _ _.
Arguments set_vis {E} _ _.
Arguments set_requests {E} _ _.
Arguments set_console {E} _ _.
Arguments set_bodyUsed {E} _ _.
Arguments setStatus {E} _ _.
Arguments setBusy {E} _ _ _.
Arguments g_nodes {E} _.
Arguments g_edges {E} _.
Arguments renderNetwork {E} _ _ _ _ _.
Arguments renderConcepts {E} _ _.
Arguments submitForm {E} _ _ _.
Arguments submissions {E} _ _.

End App.

(** * The earlier revision of [frontend/app.js]

    The repository carries a second copy of the script, older than the one
    above: it reads the response as JSON whatever its status and content
    type, looks the form controls up without a fallback, has no guard on the
    elements it writes to, and draws the flowchart like the mind map. It
    shares the state, [setStatus], [setBusy] and [visOptions] with the
    current revision. *)
Module Legacy.

Import JS Vis.
Local Open Scope js_scope.

Section Script.

Variable E : Engine.

Abbreviation val := (JS.val E).
Abbreviation State := (App.State E).

(** [document.getElementById(id)], about to be read at [property]. *)
Definition element (document : App.Document) (id property : jsstring)
  : completion App.Element :=
  match document id with
  | Some el => Normal el
  | None =>
      Throw {| exn_name := TypeError;
               message := msg_nullish_read E VNull property |}
  end.

(** [conceptsEl.innerHTML = ''] has no guard here. *)
Definition renderConcepts (list : list val) : M State unit :=
  fun s =>
    match App.conceptsEl s with
    | None =>
        (Throw {| exn_name := TypeError;
                  message := msg_nullish_write E VNull (units "innerHTML") |}, s)
    | Some _ => App.appendItems E list (App.set_conceptsEl (Some []) s)
    end.

(** [renderNetwork] without the container guard; its two call sites pass an
    element that exists. *)
Definition renderNetwork (container : container) (previous : option handle)
  (graph : App.Graph E) (hierarchical : bool) : M State handle :=
  let data_nodes := or_else E (App.g_nodes graph) (VArr []) in
  let data_edges := or_else E (App.g_edges graph) (VArr []) in
  let opts := App.visOptions in
  let opts := if hierarchical then App.make_hierarchical opts else opts in
  match previous with
  | Some p => App.destroy E p
  | None => ret tt
  end ;;
  App.new_Network E container data_nodes data_edges opts.

(** [el.value || dflt]. *)
Definition value_or (el : App.Element) (dflt : jsstring) : jsstring :=
  match App.value el with
  | Some (c :: v) => c :: v
  | Some [] | None => dflt
  end.

(** The parameters appended after the files. *)
Definition parameters (document : App.Document) : completion App.FormData :=
  match element document (units "lang") (units "value") with
  | Throw e => Throw e
  | Normal lang =>
  match element document (units "top_k") (units "value") with
  | Throw e => Throw e
  | Normal top_k =>
  match element document (units "ocrEngine") (units "value") with
  | Throw e => Throw e
  | Normal ocrEngine =>
  match element document (units "messy") (units "checked") with
  | Throw e => Throw e
  | Normal messy =>
      Normal
        ([ (units "lang", App.TextEntry (value_or lang (units "en")));
           (units "top_k", App.TextEntry (value_or top_k (units "15")));
           (units "ocr_engine", App.TextEntry (value_or ocrEngine (units "gcv"))) ] ++
         (if App.checked messy
          then [(units "messy", App.TextEntry (units "true"))] else []))
  end end end end.

(** "Text": [textEl.value = ...] has no guard here. *)
Definition display_text (data : val) : M State unit :=
  present <- gets App.textEl ;;
  match present with
  | Some _ =>
      text <- lift (to_string E (App.text_of_data E data)) ;;
      modify (App.set_textEl (Some text))
  | None =>
      throw {| exn_name := TypeError;
               message := msg_nullish_write E VNull (units "value") |}
  end.

(** "Concepts". *)
Definition display_concepts (data : val) : M State unit :=
  match field data (units "keyphrases") with
  | VArr keyphrases => renderConcepts keyphrases
  | _ =>
      match opt_field (field data (units "llm")) (units "concepts") with
      | VArr concepts => renderConcepts (map (App.as_concept E) concepts)
      | _ => ret tt
      end
  end.

(** "Mindmap". *)
Definition render_mindmap (data : val) : M State unit :=
  present <- gets App.mindmapEl ;;
  if truthy E (field data (units "mindmap")) && present then
    previous <- gets App.mindmapNetwork ;;
    h <- renderNetwork Mindmap previous
           (App.graph_of E (field data (units "mindmap"))) false ;;
    modify (App.set_mindmapNetwork (Some h))
  else ret tt.

(** "Flowchart": the last argument is [false] in this revision. *)
Definition render_flowchart (data : val) : M State unit :=
  present <- gets App.flowchartEl ;;
  if truthy E (field data (units "flowchart")) && present then
    previous <- gets App.flowchartNetwork ;;
    h <- renderNetwork Flowchart previous
           (App.graph_of E (field data (units "flowchart"))) false ;;
    modify (App.set_flowchartNetwork (Some h))
  else ret tt.

(** From [textEl.value = ...] to the final [setStatus]. *)
Definition show (data : val) : M State unit :=
  display_text data ;;
  display_concepts data ;;
  render_mindmap data ;;
  render_flowchart data ;;
  App.done E data.

(** What [submitForm] does with the response: it is read as JSON whatever
    its status and content type;
    [if (!res.ok || data.error) throw new Error(data.error || ...)]. *)
Definition respond (res : Response E) : M State unit :=
  data <- App.res_json E res ;;
  (if negb (ok res) then
     error <- lift (get E data (units "error")) ;;
     m <- lift (to_string E (or_else E error (VStr (App.HTTP_status E res)))) ;;
     throw_Error m
   else
     error <- lift (get E data (units "error")) ;;
     if truthy E error
     then m <- lift (to_string E
                       (or_else E error (VStr (App.HTTP_status E res)))) ;;
          throw_Error m
     else ret tt) ;;
  show data.

(** The body of the [try] block. *)
Definition attempt (document : App.Document) (net : fetch_outcome E)
  : M State unit :=
  input <- lift (element document (units "files") (units "files")) ;;
  match App.files input with
  | None | Some [] =>
      modify (App.setStatus (units "Please select at least one file.")) ;;
      modify (App.setBusy false App.Process)
  | Some (f :: fs) =>
      let files := f :: fs in
      params <- lift (parameters document) ;;
      let fd := map (fun f => (units "files", App.FileEntry f)) files ++ params in
      res <- App.fetch E {| App.url := units "/api/process";
                          App.method := units "POST";
                          App.req_body := fd;
                          App.credentials := units "same-origin" |} net ;;
      respond res
  end.

(** The [catch] block. *)
Definition report (err : exn) : M State unit :=
  modify (fun s => App.set_console (err :: App.console s) s) ;;
  modify (App.setStatus (App.message_or err (units "Failed to process"))).

Definition submitForm (document : App.Document) (net : fetch_outcome E)
  (s : State) : State :=
  snd ((modify (App.setStatus []) ;;
        modify (App.setBusy true App.Process) ;;
        try_finally
          (try_catch (attempt document net) report)
          (App.setBusy false App.Process)) s).

Fixpoint submissions (l : list (App.Document * fetch_outcome E)) (s : State)
  : State :=
  match l with
  | [] => s
  | (document, net) :: rest => submissions rest (submitForm document net s)
  end.

End Script.

Arguments renderNetwork {E} _ _ _ _ _.
Arguments submitForm {E} _ _ _.
Arguments submissions {E} _ _.

End Legacy.

(** * [frontend/auth.js] *)
Module Auth.

Import JS.
Local Open Scope js_scope.

Definition REQUIRE_LOGIN : bool := true.

(** ** The page *)

(** An alert region: its text and its class. *)
Record Alert : Type := { alert_textContent : jsstring; alert_className : jsstring }.

Record Button : Type := { disabled : bool }.

(** A form, as [findProcessBtn] looks into it:
    [form.querySelector('button[type="submit"], input[type="submit"]')]. *)
Record Form : Type := { submit : option Button }.

(** What the selectors of [findProcessBtn] and [findUploadForm] find in the
    page: [#processBtn], [#uploadForm], [#ocrForm],
    [form[action="/api/process"]] and [form]. *)
Record Controls : Type := {
  q_processBtn : option Button;
  q_uploadForm : option Form;
  q_ocrForm : option Form;
  q_action : option Form;
  q_form : option Form
}.

(** What the user has typed in the overlay when a handler runs. *)
Record Fields : Type := {
  loginIdentifier : jsstring;
  loginPassword : jsstring;
  signupEmail : jsstring;
  signupUsername : jsstring;
  signupPassword : jsstring
}.

(** A callback handed to [setTimeout]. *)
Inductive timer : Type := focusFirstField_later.

Record Request : Type := {
  url : jsstring;
  method : option jsstring;
  req_body : option jsstring
}.

(** The state of the script and of the elements it writes to; the overlay,
    the alerts, the two submit buttons, the chip and the logout button are
    mounted by the script itself and so are always there.
    [overlay_display] is the display of [#authOverlay]; [pwBar] is the score
    that the strength bar shows, [None] when the page has no bar. *)
Record State : Type := {
  loggedIn : bool;
  overlay_display : jsstring;
  body_auth_locked : bool;
  authError : Alert;
  authSuccess : Alert;
  loginForm_active : bool;
  loginBtn_disabled : bool;
  signupBtn_disabled : bool;
  pwBar : option nat;
  userChipName : jsstring;
  userChip_show : bool;
  logoutBtn_display : jsstring;
  controls : Controls;
  focused : option jsstring;
  timers : list timer;
  requests : list Request
}.

Definition set_loggedIn (x : bool) (s : State) : State :=
  {| loggedIn := x; overlay_display := overlay_display s;
     body_auth_locked := body_auth_locked s; authError := authError s;
     authSuccess := authSuccess s; loginForm_active := loginForm_active s;
     loginBtn_disabled := loginBtn_disabled s;
     signupBtn_disabled := signupBtn_disabled s; pwBar := pwBar s;
     userChipName := userChipName s; userChip_show := userChip_show s;
     logoutBtn_display := logoutBtn_display s; controls := controls s;
     focused := focused s; timers := timers s; requests := requests s |}.

Definition set_overlay_display (x : jsstring) (s : State) : State :=
  {| loggedIn := loggedIn s; overlay_display := x;
     body_auth_locked := body_auth_locked s; authError := authError s;
     authSuccess := authSuccess s; loginForm_active := loginForm_active s;
     loginBtn_disabled := loginBtn_disabled s;
     signupBtn_disabled := signupBtn_disabled s; pwBar := pwBar s;
     userChipName := userChipName s; userChip_show := userChip_show s;
     logoutBtn_display := logoutBtn_display s; controls := controls s;
     focused := focused s; timers := timers s; requests := requests s |}.

Definition set_body_auth_locked (x : bool) (s : State) : State :=
  {| loggedIn := loggedIn s; overlay_display := overlay_display s;
     body_auth_locked := x; authError := authError s;
     authSuccess := authSuccess s; loginForm_active := loginForm_active s;
     loginBtn_disabled := loginBtn_disabled s;
     signupBtn_disabled := signupBtn_disabled s; pwBar := pwBar s;
     userChipName := userChipName s; userChip_show := userChip_show s;
     logoutBtn_display := logoutBtn_display s; controls := controls s;
     focused := focused s; timers := timers s; requests := requests s |}.

Definition set_authError (x : Alert) (s : State) : State :=
  {| loggedIn := loggedIn s; overlay_display := overlay_display s;
     body_auth_locked := body_auth_locked s; authError := x;
     authSuccess := authSuccess s; loginForm_active := loginForm_active s;
     loginBtn_disabled := loginBtn_disabled s;
     signupBtn_disabled := signupBtn_disabled s; pwBar := pwBar s;
     userChipName := userChipName s; userChip_show := userChip_show s;
     logoutBtn_display := logoutBtn_display s; controls := controls s;
     focused := focused s; timers := timers s; requests := requests s |}.

Definition set_authSuccess (x : Alert) (s : State) : State :=
  {| loggedIn := loggedIn s; overlay_display := overlay_display s;
     body_auth_locked := body_auth_locked s; authError := authError s;
     authSuccess := x; loginForm_active := loginForm_active s;
     loginBtn_disabled := loginBtn_disabled s;
     signupBtn_disabled := signupBtn_disabled s; pwBar := pwBar s;
     userChipName := userChipName s; userChip_show := userChip_show s;
     logoutBtn_display := logoutBtn_display s; controls := controls s;
     focused := focused s; timers := timers s; requests := requests s |}.

Definition set_loginBtn_disabled (x : bool) (s : State) : State :=
  {| loggedIn := loggedIn s; overlay_display := overlay_display s;
     body_auth_locked := body_auth_locked s; authError := authError s;
     authSuccess := authSuccess s; loginForm_active := loginForm_active s;
     loginBtn_disabled := x; signupBtn_disabled := signupBtn_disabled s;
     pwBar := pwBar s; userChipName := userChipName s;
     userChip_show := userChip_show s;
     logoutBtn_display := logoutBtn_display s; controls := controls s;
     focused := focused s; timers := timers s; requests := requests s |}.

Definition set_signupBtn_disabled (x : bool) (s : State) : State :=
  {| loggedIn := loggedIn s; overlay_display := overlay_display s;
     body_auth_locked := body_auth_locked s; authError := authError s;
     authSuccess := authSuccess s; loginForm_active := loginForm_active s;
     loginBtn_disabled := loginBtn_disabled s; signupBtn_disabled := x;
     pwBar := pwBar s; userChipName := userChipName s;
     userChip_show := userChip_show s;
     logoutBtn_display := logoutBtn_display s; controls := controls s;
     focused := focused s; timers := timers s; requests := requests s |}.

Definition set_pwBar (x : option nat) (s : State) : State :=
  {| loggedIn := loggedIn s; overlay_display := overlay_display s;
     body_auth_locked := body_auth_locked s; authError := authError s;
     authSuccess := authSuccess s; loginForm_active := loginForm_active s;
     loginBtn_disabled := loginBtn_disabled s;
     signupBtn_disabled := signupBtn_disabled s; pwBar := x;
     userChipName := userChipName s; userChip_show := userChip_show s;
     logoutBtn_display := logoutBtn_display s; controls := controls s;
     focused := focused s; timers := timers s; requests := requests s |}.

Definition set_userChipName (x : jsstring) (s : State) : State :=
  {| loggedIn := loggedIn s; overlay_display := overlay_display s;
     body_auth_locked := body_auth_locked s; authError := authError s;
     authSuccess := authSuccess s; loginForm_active := loginForm_active s;
     loginBtn_disabled := loginBtn_disabled s;
     signupBtn_disabled := signupBtn_disabled s; pwBar := pwBar s;
     userChipName := x; userChip_show := userChip_show s;
     logoutBtn_display := logoutBtn_display s; controls := controls s;
     focused := focused s; timers := timers s; requests := requests s |}.

Definition set_userChip_show (x : bool) (s : State) : State :=
  {| loggedIn := loggedIn s; overlay_display := overlay_display s;
     body_auth_locked := body_auth_locked s; authError := authError s;
     authSuccess := authSuccess s; loginForm_active := loginForm_active s;
     loginBtn_disabled := loginBtn_disabled s;
     signupBtn_disabled := signupBtn_disabled s; pwBar := pwBar s;
     userChipName := userChipName s; userChip_show := x;
     logoutBtn_display := logoutBtn_display s; controls := controls s;
     focused := focused s; timers := timers s; requests := requests s |}.

Definition set_logoutBtn_display (x : jsstring) (s : State) : State :=
  {| loggedIn := loggedIn s; overlay_display := overlay_display s;
     body_auth_locked := body_auth_locked s; authError := authError s;
     authSuccess := authSuccess s; loginForm_active := loginForm_active s;
     loginBtn_disabled := loginBtn_disabled s;
     signupBtn_disabled := signupBtn_disabled s; pwBar := pwBar s;
     userChipName := userChipName s; userChip_show := userChip_show s;
     logoutBtn_display := x; controls := controls s; focused := focused s;
     timers := timers s; requests := requests s |}.

Definition set_controls (x : Controls) (s : State) : State :=
  {| loggedIn := loggedIn s; overlay_display := overlay_display s;
     body_auth_locked := body_auth_locked s; authError := authError s;
     authSuccess := authSuccess s; loginForm_active := loginForm_active s;
     loginBtn_disabled := loginBtn_disabled s;
     signupBtn_disabled := signupBtn_disabled s; pwBar := pwBar s;
     userChipName := userChipName s; userChip_show := userChip_show s;
     logoutBtn_display := logoutBtn_display s; controls := x;
     focused := focused s; timers := timers s; requests := requests s |}.

Definition set_focused (x : option jsstring) (s : State) : State :=
  {| loggedIn := loggedIn s; overlay_display := overlay_display s;
     body_auth_locked := body_auth_locked s; authError := authError s;
     authSuccess := authSuccess s; loginForm_active := loginForm_active s;
     loginBtn_disabled := loginBtn_disabled s;
     signupBtn_disabled := signupBtn_disabled s; pwBar := pwBar s;
     userChipName := userChipName s; userChip_show := userChip_show s;
     logoutBtn_display := logoutBtn_display s; controls := controls s;
     focused := x; timers := timers s; requests := requests s |}.

Definition set_timers (x : list timer) (s : State) : State :=
  {| loggedIn := loggedIn s; overlay_display := overlay_display s;
     body_auth_locked := body_auth_locked s; authError := authError s;
     authSuccess := authSuccess s; loginForm_active := loginForm_active s;
     loginBtn_disabled := loginBtn_disabled s;
     signupBtn_disabled := signupBtn_disabled s; pwBar := pwBar s;
     userChipName := userChipName s; userChip_show := userChip_show s;
     logoutBtn_display := logoutBtn_display s; controls := controls s;
     focused := focused s; timers := x; requests := requests s |}.

Definition set_requests (x : list Request) (s : State) : State :=
  {| loggedIn := loggedIn s; overlay_display := overlay_display s;
     body_auth_locked := body_auth_locked s; authError := authError s;
     authSuccess := authSuccess s; loginForm_active := loginForm_active s;
     loginBtn_disabled := loginBtn_disabled s;
     signupBtn_disabled := signupBtn_disabled s; pwBar := pwBar s;
     userChipName := userChipName s; userChip_show := userChip_show s;
     logoutBtn_display := logoutBtn_display s; controls := controls s;
     focused := focused s; timers := timers s; requests := x |}.

(** ** Validation *)

Local Open Scope N_scope.

Definition is_upper (c : N) : bool := (65 <=? c) && (c <=? 90).
Definition is_lower (c : N) : bool := (97 <=? c) && (c <=? 122).
Definition is_digit (c : N) : bool := (48 <=? c) && (c <=? 57).

(** [[^A-Za-z0-9]]. *)
Definition is_symbol (c : N) : bool :=
  negb (is_upper c || is_lower c || is_digit c).

(** [[^\s@]]. *)
Definition plain (c : N) : bool := negb (is_space c || (c =? 64)).

(** [/^[^\s@]+@[^\s@]+\.[^\s@]+$/]. *)
Definition email_pattern : regex :=
  Seq (Plus (Class plain))
    (Seq (Class (N.eqb 64))
       (Seq (Plus (Class plain))
          (Seq (Class (N.eqb 46))
             (Plus (Class plain))))).

Close Scope N_scope.

Definition strength (pw : jsstring) : nat :=
  let s := 0 in
  let s := if 6 <=? List.length pw then S s else s in
  let s := if test_class is_upper pw then S s else s in
  let s := if test_class is_lower pw then S s else s in
  let s := if test_class is_digit pw then S s else s in
  let s := if test_class is_symbol pw then S s else s in
  Nat.min s 5.

Definition validateLogin (f : Fields) (s : State) : State :=
  let idOk := 3 <=? List.length (trim (loginIdentifier f)) in
  let pwOk := 1 <=? List.length (loginPassword f) in
  set_loginBtn_disabled (negb (idOk && pwOk)) s.

Definition validateSignup (f : Fields) (s : State) : State :=
  let email := trim (signupEmail f) in
  let user := trim (signupUsername f) in
  let pw := signupPassword f in
  let emailOk := matches email_pattern email in
  let userOk := 3 <=? List.length user in
  let pwScore := strength pw in
  let s := match pwBar s with
           | Some _ => set_pwBar (Some pwScore) s
           | None => s
           end in
  set_signupBtn_disabled (negb (emailOk && userOk && (3 <=? pwScore))) s.

(** ** The overlay *)

Definition clearAlerts (s : State) : State :=
  let cleared := {| alert_textContent := []; alert_className := units "alert" |} in
  set_authSuccess cleared (set_authError cleared s).

Definition focusFirstField (s : State) : State :=
  set_focused
    (Some (if loginForm_active s then units "#loginIdentifier"
           else units "#signupEmail")) s.

Definition showOverlay (s : State) : State :=
  let s := clearAlerts s in
  let s := set_overlay_display (units "flex") s in
  let s := set_body_auth_locked true s in
  set_timers (timers s ++ [focusFirstField_later]) s.

Definition hideOverlay (s : State) : State :=
  set_body_auth_locked false (set_overlay_display (units "none") s).

(** [isVisible(authOverlay)]. *)
Definition isVisible (s : State) : bool :=
  negb (str_eqb (overlay_display s) (units "none")).

(** ** The submission control *)

Definition or_form (a b : option Form) : option Form :=
  match a with
  | Some _ => a
  | None => b
  end.

Definition findUploadForm (c : Controls) : option Form :=
  or_form (q_uploadForm c) (or_form (q_ocrForm c) (or_form (q_action c) (q_form c))).

Definition findProcessBtn (c : Controls) : option Button :=
  match q_processBtn c with
  | Some b => Some b
  | None =>
      match findUploadForm c with
      | Some form => submit form
      | None => None
      end
  end.

Definition with_submit (form : option Form) (d : bool) : option Form :=
  match form with
  | Some {| submit := Some _ |} => Some {| submit := Some {| disabled := d |} |}
  | _ => form
  end.

(** [btn.disabled = d] on the button that [findProcessBtn] finds, if any. *)
Definition disable_found (d : bool) (c : Controls) : Controls :=
  match q_processBtn c with
  | Some _ =>
      {| q_processBtn := Some {| disabled := d |};
         q_uploadForm := q_uploadForm c; q_ocrForm := q_ocrForm c;
         q_action := q_action c; q_form := q_form c |}
  | None =>
      match q_uploadForm c, q_ocrForm c, q_action c with
      | Some _, _, _ =>
          {| q_processBtn := None;
             q_uploadForm := with_submit (q_uploadForm c) d;
             q_ocrForm := q_ocrForm c; q_action := q_action c;
             q_form := q_form c |}
      | None, Some _, _ =>
          {| q_processBtn := None; q_uploadForm := None;
             q_ocrForm := with_submit (q_ocrForm c) d;
             q_action := q_action c; q_form := q_form c |}
      | None, None, Some _ =>
          {| q_processBtn := None; q_uploadForm := None; q_ocrForm := None;
             q_action := with_submit (q_action c) d; q_form := q_form c |}
      | None, None, None =>
          {| q_processBtn := None; q_uploadForm := None; q_ocrForm := None;
             q_action := None; q_form := with_submit (q_form c) d |}
      end
  end.

Definition enableControlsIfPresent (s : State) : State :=
  set_controls (disable_found (negb (loggedIn s)) (controls s)) s.

Section Script.

Variable E : Engine.

Abbreviation val := (JS.val E).

(** ** Requests *)

(** The options that the callers of [fetchJSON] pass. *)
Record Init : Type := { init_method : option jsstring; init_body : option jsstring }.

Definition fetch (rq : Request) (net : fetch_outcome E) : M State (Response E) :=
  fun s =>
    let s := set_requests (rq :: requests s) s in
    match net with
    | Rejected e => (Throw e, s)
    | Responded res => (Normal res, s)
    end.

(** [let data = null; try { data = await res.json(); } catch {}], on a
    response whose body has not been read. *)
Definition json_or_null (res : Response E) : val :=
  match fst (read_json res false) with
  | Normal data => data
  | Throw _ => VNull
  end.

(** [a && b]. *)
Definition and_then (a b : val) : val := if truthy E a then b else a.

Definition fetchJSON (url : jsstring) (opts : Init) (net : fetch_outcome E)
  : M State val :=
  res <- fetch {| url := url; method := init_method opts;
                  req_body := init_body opts |} net ;;
  let data := json_or_null res in
  if negb (ok res) then
    m <- lift (to_string E
                 (or_else E
                    (and_then data
                       (or_else E (field data (units "error"))
                          (field data (units "message"))))
                    (VStr (units "HTTP " ++ decimal (status res))))) ;;
    throw_Error m
  else ret data.

Definition authMe (net : fetch_outcome E) : M State val :=
  r <- fetch {| url := units "/auth/me"; method := None; req_body := None |} net ;;
  let data := json_or_null r in
  ret (if truthy E (and_then data (field data (units "ok")))
       then field data (units "user")
       else VNull).

(** ** The session *)

(** [loggedIn] is assigned first; the template literal for the chip comes
    after it and converts [user.username], so an exception there leaves the
    flag set and the rest undone. *)
Definition setLoggedIn (user : val) : M State unit :=
  modify (set_loggedIn (truthy E user)) ;;
  if truthy E user then
    name <- lift (to_string E (field user (units "username"))) ;;
    modify (fun s =>
              let s := set_userChipName (units "Signed in: " ++ name) s in
              let s := set_userChip_show true s in
              let s := set_logoutBtn_display (units "inline-flex") s in
              let s := enableControlsIfPresent s in
              hideOverlay s)
  else
    modify (fun s =>
              let s := set_userChipName [] s in
              let s := set_userChip_show false s in
              let s := set_logoutBtn_display (units "none") s in
              enableControlsIfPresent s).

(** The click handler of [#logoutBtn]: the state in which it settles, for
    the outcome [net] of the logout request. *)
Definition logout (net : fetch_outcome E) (s : State) : State :=
  let s := snd (try_catch
                  (fetchJSON (units "/auth/logout")
                     {| init_method := Some (units "POST"); init_body := None |}
                     net ;; ret tt)
                  (fun _ => ret tt) s) in
  let s := snd (setLoggedIn VNull s) in
  if REQUIRE_LOGIN then showOverlay s else s.

End Script.

Arguments fetchJSON {E} _ _ _ _.
Arguments authMe {E} _ _.
Arguments logout {E} _ _.

End Auth.

(** * The properties, in the words of the specification *)
Module Spec.

Import JS Vis.

(** ** Password strength and the address pattern *)

Definition point (b : bool) : nat := if b then 1 else 0.

(** One point for each of: length at least 6, an uppercase letter, a
    lowercase letter, a digit, a symbol; capped at 5. *)
Definition score (pw : jsstring) : nat :=
  Nat.min 5
    (point (6 <=? List.length pw) +
     point (existsb Auth.is_upper pw) +
     point (existsb Auth.is_lower pw) +
     point (existsb Auth.is_digit pw) +
     point (existsb Auth.is_symbol pw)).




(** ** The upload request *)

(** The entries that a form carries under a name, in order. *)
Definition carried (name : jsstring) (fd : App.FormData) : list App.entry :=
  map snd (filter (fun p => str_eqb (fst p) name) fd).

(** What a text control holds: nothing when the page does not have it, when
    it has no value, or when its value is empty. *)
Definition typed (input : option App.Element) : option jsstring :=
  match input with
  | Some el =>
      match App.value el with
      | Some (c :: v) => Some (c :: v)
      | Some [] | None => None
      end
  | None => None
  end.

Definition default_to (dflt : jsstring) (given : option jsstring) : jsstring :=
  match given with
  | Some v => v
  | None => dflt
  end.

(** The box exists and is ticked. *)
Definition ticked (input : option App.Element) : bool :=
  match input with
  | Some el => App.checked el
  | None => false
  end.

(** The control found under the first identifier, else under the second. *)
Definition either (document : App.Document) (id alternate : string)
  : option App.Element :=
  match document (units id) with
  | Some el => Some el
  | None => document (units alternate)
  end.

(** ** One live instance per container *)

Section Ownership.

Variable E : Engine.

(** At most one instance is alive on each container. *)
Definition exclusive (log : list (event E)) : Prop :=
  forall c, List.length (live_on c log) <= 1.

(** ... at every moment of the chronicle (its suffixes, as it is kept newest
    first). *)
Definition always_exclusive (log : list (event E)) : Prop :=
  forall recent older, log = recent ++ older -> exclusive older.

(** The instances alive on [c] are exactly the stored handle. *)
Definition owns (stored : option handle) (c : container) (log : list (event E))
  : Prop :=
  live_on c log = listed stored.

(** The handles alive are below the next one to be handed out, and none is
    alive on both containers. *)
Definition well_numbered (log : list (event E)) : Prop :=
  (forall c h, In h (live_on c log) -> h < fresh log) /\
  (forall c c' h, c <> c' -> In h (live_on c log) -> In h (live_on c' log) -> False).

(** The two variables of the script own their containers, at every moment
    so far at most one instance was alive on each, and the chronicle is well
    numbered. *)
Definition consistent (s : App.State E) : Prop :=
  owns (App.mindmapNetwork s) Mindmap (App.vis s) /\
  owns (App.flowchartNetwork s) Flowchart (App.vis s) /\
  always_exclusive (App.vis s) /\
  well_numbered (App.vis s).

(** [log'] continues [log] by a destruction of [previous], if there is one,
    followed by one creation on [c], of the instance [h]. *)
Definition replaces (previous : option handle) (c : container) (h : handle)
  (log log' : list (event E)) : Prop :=
  exists nodes edges opts,
    log' = Created E h c nodes edges opts :: vacated previous log.

(** [s'] has the graphs, the requests and the containers of [s]: only the
    text of the page or the console may differ. *)
Definition untouched (s s' : App.State E) : Prop :=
  App.mindmapNetwork s' = App.mindmapNetwork s /\
  App.flowchartNetwork s' = App.flowchartNetwork s /\
  App.vis s' = App.vis s /\
  App.requests s' = App.requests s /\
  App.mindmapEl s' = App.mindmapEl s /\
  App.flowchartEl s' = App.flowchartEl s.

Definition same_requests (s s' : App.State E) : Prop :=
  App.requests s' = App.requests s.

Definition stays_consistent (s s' : App.State E) : Prop :=
  consistent s -> consistent s'.

(** ** Layout of the two views *)

(** Force-directed: physics enabled, no layout imposed. *)
Definition force_directed (o : Options) : Prop :=
  enabled (physics o) = true /\ layout o = None.

(** Hierarchical: physics disabled, layered from left to right. *)
Definition left_to_right (o : Options) : Prop :=
  enabled (physics o) = false /\
  exists l, layout o = Some l /\ direction (hierarchical l) = units "LR".

(** What an event says about the layout of the view it draws. *)
Definition laid_out (ev : event E) : Prop :=
  match ev with
  | Created _ _ Mindmap _ _ o => force_directed o
  | Created _ _ Flowchart _ _ o => left_to_right o
  | Destroyed _ _ => True
  end.

(** [s'] continues the chronicle of [s] with events laid out as above. *)
Definition draws (s s' : App.State E) : Prop :=
  exists recent, App.vis s' = recent ++ App.vis s /\ Forall laid_out recent.

End Ownership.

Arguments exclusive {E} _.
Arguments always_exclusive {E} _.
Arguments owns {E} _ _ _.
Arguments well_numbered {E} _.
Arguments consistent {E} _.
Arguments replaces {E} _ _ _ _ _.
Arguments untouched {E} _ _.
Arguments same_requests {E} _ _.
Arguments stays_consistent {E} _ _.
Arguments laid_out {E} _.
Arguments draws {E} _ _.

End Spec.

(** * A concrete engine and page, for evaluating the model on examples *)
Module Sample.

Import JS Vis.

(** Integral numbers only, printed in decimal; the messages are those of
    Chromium. [toFixed2] covers numbers, booleans and [null]. *)
Definition print_Z (z : Z) : jsstring :=
  match z with
  | Zneg p => units "-" ++ decimal (Npos p)
  | _ => decimal (Z.to_N z)
  end.

Definition toFixed2 (v : value Z) : jsstring :=
  match v with
  | VNum z => print_Z z ++ units ".00"
  | VBool true => units "1.00"
  | VBool false | VNull => units "0.00"
  | VStr [] => units "0.00"
  | VArr [] => units "0.00"
  | _ => units "NaN"
  end.

Definition describe (v : value Z) : jsstring :=
  match v with
  | VNull => units "null"
  | _ => units "undefined"
  end.

Definition engine : Engine :=
  {| number := Z;
     num_truthy := fun z => negb (Z.eqb z 0);
     num_to_string := print_Z;
     num_one := 1%Z;
     Number_toFixed2 := toFixed2;
     msg_not_primitive := fun _ => units "Cannot convert object to primitive value";
     msg_body_used :=
       units "Failed to execute 'text' on 'Response': body stream already read";
     msg_json_syntax :=
       fun text =>
         match text with
         | [] => units "Unexpected end of JSON input"
         | c :: _ => units "Unexpected token " ++ [c] ++ units " in JSON at position 0"
         end;
     msg_nullish_read :=
       fun v k =>
         units "Cannot read properties of " ++ describe v ++
         units " (reading '" ++ k ++ units "')";
     msg_nullish_write :=
       fun v k =>
         units "Cannot set properties of " ++ describe v ++
         units " (setting '" ++ k ++ units "')" |}.

(** The response of the upload endpoint to a failed run: status 500,
    [Content-Type: application/json], body [{"error":"boom"}]. *)
Definition boom_text : jsstring :=
  [123; 34]%N ++ units "error" ++ [34; 58; 34]%N ++ units "boom" ++ [34; 125]%N.

Definition boom (E : Engine) : Response E :=
  {| status := 500;
     content_type := Some (units "application/json");
     body := Some {| body_text := boom_text;
                     body_json := Some (VObj [(units "error", VStr (units "boom"))]) |} |}.

(** A successful answer carrying both graphs, as empty descriptors. *)
Definition both_graphs (E : Engine) : Response E :=
  {| status := 200;
     content_type := Some (units "application/json; charset=utf-8");
     body := Some {| body_text := [];
                     body_json :=
                       Some (VObj [(units "text", VStr (units "notes"));
                                   (units "mindmap", VObj []);
                                   (units "flowchart", VObj [])]) |} |}.

Definition notes_png : App.File := {| App.file_name := units "notes.png" |}.

Definition control (v : jsstring) : App.Element :=
  {| App.value := Some v; App.checked := false; App.files := None |}.

(** The controls of the upload form: the given files are selected, the
    language is [fr], the number of concepts and the engine are left empty,
    and the messy-handwriting box is as given. *)
Definition document (files : list App.File) (messy : bool) : App.Document :=
  fun id =>
    if str_eqb id (units "files")
    then Some {| App.value := Some []; App.checked := false; App.files := Some files |}
    else if str_eqb id (units "lang") then Some (control (units "fr"))
    else if str_eqb id (units "top_k") then Some (control [])
    else if str_eqb id (units "ocrEngine") then Some (control [])
    else if str_eqb id (units "messy")
    then Some {| App.value := Some (units "on"); App.checked := messy; App.files := None |}
    else None.

(** A page with every element, as the script finds it when it loads. *)
Definition page (E : Engine) : App.State E :=
  {| App.statusEl := Some [];
     App.processBtn := Some {| App.disabled := false; App.textContent := App.Process |};
     App.textEl := Some [];
     App.conceptsEl := Some [];
     App.mindmapEl := true;
     App.flowchartEl := true;
     App.mindmapNetwork := None;
     App.flowchartNetwork := None;
     App.vis := [];
     App.requests := [];
     App.console := [];
     App.bodyUsed := false |}.

(** The overlay once a user has signed in: hidden, the chip filled, the
    submission control enabled. *)
Definition signed_in : Auth.State :=
  {| Auth.loggedIn := true;
     Auth.overlay_display := units "none";
     Auth.body_auth_locked := false;
     Auth.authError := {| Auth.alert_textContent := []; Auth.alert_className := units "alert" |};
     Auth.authSuccess := {| Auth.alert_textContent := units "Welcome back!";
                            Auth.alert_className := units "alert ok" |};
     Auth.loginForm_active := true;
     Auth.loginBtn_disabled := true;
     Auth.signupBtn_disabled := true;
     Auth.pwBar := Some 0;
     Auth.userChipName := units "Signed in: ada";
     Auth.userChip_show := true;
     Auth.logoutBtn_display := units "inline-flex";
     Auth.controls :=
       {| Auth.q_processBtn := Some {| Auth.disabled := false |};
          Auth.q_uploadForm := Some {| Auth.submit := Some {| Auth.disabled := false |} |};
          Auth.q_ocrForm := None;
          Auth.q_action := None;
          Auth.q_form := Some {| Auth.submit := Some {| Auth.disabled := false |} |} |};
     Auth.focused := None;
     Auth.timers := [];
     Auth.requests := [] |}.

(** What a visitor has typed on the sign-up tab. *)
Definition typed (email username password : string) : Auth.Fields :=
  {| Auth.loginIdentifier := [];
     Auth.loginPassword := [];
     Auth.signupEmail := units email;
     Auth.signupUsername := units username;
     Auth.signupPassword := units password |}.

(** A failed status whose body still says [ok]. *)
Definition stale_session (E : Engine) : Response E :=
  {| status := 500;
     content_type := Some (units "application/json");
     body := Some {| body_text := [];
                     body_json :=
                       Some (VObj [(units "ok", VBool true);
                                   (units "user",
                                    VObj [(units "username", VStr (units "ada"))])]) |} |}.

(** The rejection of a [fetch] that could not reach the server. *)
Definition failed_to_fetch : exn :=
  {| exn_name := TypeError; message := units "Failed to fetch" |}.

End Sample.

(** * The rest of [frontend/auth.js]

    The submit buttons with their busy state, the two form handlers, the
    guard on the upload form, the keyboard handler with its focus trap, the
    tab and show-password clicks, the observer of late controls, and the
    start of the script. The state of [Auth] is extended with what these
    write to.

    As in [Auth], the submission control that the selectors find belongs to
    the page proper: a page with no form and no [#processBtn] of its own,
    on which [form] would select the login form of the overlay, is not
    covered. *)
Module AuthUI.

Import JS Auth.
Local Open Scope js_scope.

(** ** The page *)

(** What a submit button shows: a text, or the spinner followed by a text
    (the [innerHTML] that [setBusy] writes). *)
Inductive content : Type :=
| Text : jsstring -> content
| Spinner : jsstring -> content.

(** [btn.textContent], the spinner being an empty element and the text that
    follows it free of markup, as at the two call sites. *)
Definition textContent (c : content) : jsstring :=
  match c with
  | Text s => s
  | Spinner text => text
  end.

(** A submit button beyond its disabled flag: what it shows and its
    [dataset.label] ([None] while unset). *)
Record Face : Type := { shows : content; dataset_label : option jsstring }.

(** A tab button: its [data-tab] ([None] when it has none), whether it has
    the class [active], and its [aria-selected]. *)
Record TabBtn : Type := {
  data_tab : option jsstring;
  tab_active : bool;
  aria_selected : jsstring
}.

Record UI : Type := {
  base : State;
  loginBtn_face : Face;
  signupBtn_face : Face;
  signupForm_active : bool;
  tabs : list TabBtn;
  (** the MutationObserver of [observeControls] is connected *)
  observing : bool
}.

Definition on_base (f : State -> State) (ui : UI) : UI :=
  {| base := f (base ui); loginBtn_face := loginBtn_face ui;
     signupBtn_face := signupBtn_face ui;
     signupForm_active := signupForm_active ui; tabs := tabs ui;
     observing := observing ui |}.

Definition set_observing (x : bool) (ui : UI) : UI :=
  {| base := base ui; loginBtn_face := loginBtn_face ui;
     signupBtn_face := signupBtn_face ui;
     signupForm_active := signupForm_active ui; tabs := tabs ui;
     observing := x |}.

Definition set_loginForm_active (x : bool) (s : State) : State :=
  {| loggedIn := loggedIn s; overlay_display := overlay_display s;
     body_auth_locked := body_auth_locked s; authError := authError s;
     authSuccess := authSuccess s; loginForm_active := x;
     loginBtn_disabled := loginBtn_disabled s;
     signupBtn_disabled := signupBtn_disabled s; pwBar := pwBar s;
     userChipName := userChipName s; userChip_show := userChip_show s;
     logoutBtn_display := logoutBtn_display s; controls := controls s;
     focused := focused s; timers := timers s; requests := requests s |}.

(** The two submit buttons of the overlay. *)
Inductive submit_button : Type := loginBtn | signupBtn.

Definition face_of (b : submit_button) (ui : UI) : Face :=
  match b with
  | loginBtn => loginBtn_face ui
  | signupBtn => signupBtn_face ui
  end.

Definition disabled_of (b : submit_button) (ui : UI) : bool :=
  match b with
  | loginBtn => loginBtn_disabled (base ui)
  | signupBtn => signupBtn_disabled (base ui)
  end.

Definition set_face (b : submit_button) (x : Face) (ui : UI) : UI :=
  match b with
  | loginBtn =>
      {| base := base ui; loginBtn_face := x;
         signupBtn_face := signupBtn_face ui;
         signupForm_active := signupForm_active ui; tabs := tabs ui;
         observing := observing ui |}
  | signupBtn =>
      {| base := base ui; loginBtn_face := loginBtn_face ui;
         signupBtn_face := x;
         signupForm_active := signupForm_active ui; tabs := tabs ui;
         observing := observing ui |}
  end.

Definition set_disabled (b : submit_button) (x : bool) (ui : UI) : UI :=
  match b with
  | loginBtn => on_base (set_loginBtn_disabled x) ui
  | signupBtn => on_base (set_signupBtn_disabled x) ui
  end.

(** [s || dflt] on an optional string. *)
Definition text_or (s : option jsstring) (dflt : jsstring) : jsstring :=
  match s with
  | Some (c :: t) => c :: t
  | Some [] | None => dflt
  end.

(** ** [setBusy] *)

Definition setBusy (btn : option submit_button) (busy : bool)
  (text : option jsstring) (ui : UI) : UI :=
  match btn with
  | None => ui
  | Some b =>
      if busy then
        let label := textContent (shows (face_of b ui)) in
        let ui := set_face b {| shows := shows (face_of b ui);
                                dataset_label := Some label |} ui in
        let ui := set_disabled b true ui in
        set_face b {| shows := Spinner (text_or text (units "Please wait"));
                      dataset_label := dataset_label (face_of b ui) |} ui
      else
        let ui := set_disabled b false ui in
        set_face b {| shows := Text (text_or (dataset_label (face_of b ui))
                                       (units "Submit"));
                      dataset_label := dataset_label (face_of b ui) |} ui
  end.

(** ** The focus trap and the keyboard *)

(** An element of the page, by its identity. *)
Definition node : Type := nat.

(** An element that the selector of [trapFocus] matches: the selector takes
    every button, link and field of the overlay that is laid out, also a
    disabled one such as the two submit buttons before their forms are
    valid. *)
Record Focusable : Type := { el : node; el_disabled : bool }.

(** [active === el]. *)
Definition is_active (active : option node) (el : node) : bool :=
  match active with
  | Some a => Nat.eqb a el
  | None => false
  end.

(** [target.focus()]: a disabled element does not take the focus. *)
Definition focus (target : Focusable) (active : option node) : option node :=
  if el_disabled target then active else Some (el target).

(** [trapFocus(e)] on the elements [arr] that its selector finds laid out
    in the overlay: the element that has the focus afterwards, and whether
    [e.preventDefault()] was called. *)
Definition trapFocus (arr : list Focusable) (shiftKey : bool)
  (active : option node) : option node * bool :=
  match arr with
  | [] => (active, false)
  | first :: _ =>
      let last := List.last arr first in
      if shiftKey && is_active active (el first) then (focus last active, true)
      else if negb shiftKey && is_active active (el last)
           then (focus first active, true)
           else (active, false)
  end.

Inductive key : Type := Escape | Tab | other_key.

(** The [keydown] listener of the document. *)
Definition keydown (k : key) (shiftKey : bool) (arr : list Focusable)
  (active : option node) (s : State) : option node * bool :=
  if negb (isVisible s) then (active, false)
  else
    let prevented := match k with Escape => true | _ => false end in
    match k with
    | Tab =>
        let (active', trapped) := trapFocus arr shiftKey active in
        (active', prevented || trapped)
    | _ => (active, prevented)
    end.

(** ** Clicks inside the overlay *)

(** [forEach(b => { const active = b === tab; ... })], [tab] being the
    [i]-th button and [l] the buttons from the [k]-th on. *)
Fixpoint select_from (k i : nat) (l : list TabBtn) : list TabBtn :=
  match l with
  | [] => []
  | b :: rest =>
      let active := Nat.eqb k i in
      {| data_tab := data_tab b; tab_active := active;
         aria_selected := if active then units "true" else units "false" |}
      :: select_from (S k) i rest
  end.

(** [name === literal] for a [dataset] entry. *)
Definition names (name : option jsstring) (literal : string) : bool :=
  match name with
  | Some n => str_eqb n (units literal)
  | None => false
  end.

(** A click on the [i]-th tab button, the fields holding [f]. *)
Definition click_tab (i : nat) (f : Fields) (ui : UI) : UI :=
  match nth_error (tabs ui) i with
  | None => ui
  | Some tab =>
      let name := data_tab tab in
      let ui :=
        {| base := set_loginForm_active (names name "login") (base ui);
           loginBtn_face := loginBtn_face ui;
           signupBtn_face := signupBtn_face ui;
           signupForm_active := names name "signup";
           tabs := select_from 0 i (tabs ui);
           observing := observing ui |} in
      let ui := on_base clearAlerts ui in
      let ui := on_base focusFirstField ui in
      let ui := on_base (validateLogin f) ui in
      on_base (validateSignup f) ui
  end.

(** The element that an [input] event comes from. *)
Inductive input_target : Type :=
| in_loginIdentifier | in_loginPassword
| in_signupEmail | in_signupUsername | in_signupPassword
| in_elsewhere.

(** The [input] listener of the document, the fields holding [f]. *)
Definition input (target : input_target) (f : Fields) (s : State) : State :=
  let s := match target with
           | in_loginIdentifier | in_loginPassword => validateLogin f s
           | _ => s
           end in
  match target with
  | in_signupEmail | in_signupUsername | in_signupPassword => validateSignup f s
  | _ => s
  end.

(** A password field with its show-password button. *)
Record PasswordBox : Type := { input_type : jsstring; showpass_label : jsstring }.

(** A click on the show-password button whose target exists. *)
Definition click_showpass (box : PasswordBox) : PasswordBox :=
  let show := str_eqb (input_type box) (units "password") in
  {| input_type := if show then units "text" else units "password";
     showpass_label := if show then units "Hide" else units "Show" |}.

(** ** The observer of late controls *)

Definition observeControls (ui : UI) : UI :=
  on_base enableControlsIfPresent (set_observing true ui).

(** The page changes what the selectors find; the observer, if connected,
    runs [enableControlsIfPresent]. *)
Definition mutation (found : Controls) (ui : UI) : UI :=
  let ui := on_base (set_controls found) ui in
  if observing ui then on_base enableControlsIfPresent ui else ui.

(** [setTimeout(() => obs.disconnect(), 8000)] fires. *)
Definition disconnect (ui : UI) : UI := set_observing false ui.

Section Script.

Variable E : Engine.

(** [JSON.stringify], of the engine. *)
Variable JSON_stringify : val E -> jsstring.

Definition lift_base {A : Type} (m : M State A) : M UI A :=
  fun ui => let (c, s) := m (base ui) in (c, on_base (fun _ => s) ui).

(** [err.message || dflt]. *)
Definition message_or (err : exn) (dflt : jsstring) : jsstring :=
  match message err with
  | [] => dflt
  | c :: m => c :: m
  end.

(** ** The two forms *)

(** The [submit] listener of the login form. *)
Definition login_submit (f : Fields) (remember : bool) (net : fetch_outcome E)
  (ui : UI) : UI :=
  if loginBtn_disabled (base ui) then ui
  else
    let ui := on_base clearAlerts ui in
    let identifier := trim (loginIdentifier f) in
    let password := loginPassword f in
    snd (try_catch
           (modify (setBusy (Some loginBtn) true (Some (units "Signing in"))) ;;
            data <- lift_base
                      (fetchJSON (units "/auth/login")
                         {| init_method := Some (units "POST");
                            init_body :=
                              Some (JSON_stringify
                                      (VObj [(units "identifier", VStr identifier);
                                             (units "password", VStr password);
                                             (units "remember", VBool remember)])) |}
                         net) ;;
            user <- lift (get E data (units "user")) ;;
            lift_base (setLoggedIn E user) ;;
            modify (on_base (set_authSuccess
                               {| alert_textContent := units "Welcome back!";
                                  alert_className := units "alert ok" |})))
           (fun err =>
              modify (on_base (set_authError
                                 {| alert_textContent :=
                                      message_or err (units "Login failed");
                                    alert_className := units "alert error" |})) ;;
              modify (setBusy (Some loginBtn) false None))
           ui).

(** The [submit] listener of the sign-up form. *)
Definition signup_submit (f : Fields) (net : fetch_outcome E) (ui : UI) : UI :=
  if signupBtn_disabled (base ui) then ui
  else
    let ui := on_base clearAlerts ui in
    let email := trim (signupEmail f) in
    let username := trim (signupUsername f) in
    let password := signupPassword f in
    snd (try_catch
           (modify (setBusy (Some signupBtn) true (Some (units "Creating"))) ;;
            data <- lift_base
                      (fetchJSON (units "/auth/register")
                         {| init_method := Some (units "POST");
                            init_body :=
                              Some (JSON_stringify
                                      (VObj [(units "email", VStr email);
                                             (units "username", VStr username);
                                             (units "password", VStr password)])) |}
                         net) ;;
            user <- lift (get E data (units "user")) ;;
            lift_base (setLoggedIn E user) ;;
            modify (on_base (set_authSuccess
                               {| alert_textContent :=
                                    units "Account created. You are now signed in.";
                                  alert_className := units "alert ok" |})))
           (fun err =>
              modify (on_base (set_authError
                                 {| alert_textContent :=
                                      message_or err (units "Registration failed");
                                    alert_className := units "alert error" |})) ;;
              modify (setBusy (Some signupBtn) false None))
           ui).

(** ** The guard on the upload form *)

(** The capturing [submit] listener on the upload form: whether it called
    [e.preventDefault()], or the exception it ends with. *)
Definition guard_submit (net : fetch_outcome E) : M State bool :=
  if negb REQUIRE_LOGIN then ret false
  else
    u <- authMe net ;;
    if negb (truthy E u) then
      setLoggedIn E VNull ;;
      modify showOverlay ;;
      ret true
    else ret false.

(** ** The start of the script *)

(** The [DOMContentLoaded] listener, the fields holding [f]; the state in
    which it settles, also when [authMe] raises. *)
Definition init (f : Fields) (net : fetch_outcome E) (ui : UI) : UI :=
  let ui := observeControls ui in
  snd ((u <- lift_base (authMe net) ;;
        lift_base (setLoggedIn E u) ;;
        (if negb (truthy E u) && REQUIRE_LOGIN
         then modify (on_base showOverlay) else ret tt) ;;
        modify (on_base (validateLogin f)) ;;
        modify (on_base (validateSignup f))) ui).

(** ** What happens after the start

    The handlers of the script and the events around them, one at a time:
    a handler that awaits a request settles before the next event is
    taken. *)

Inductive happening : Type :=
| LoginSubmitted : Fields -> bool -> fetch_outcome E -> happening
| SignupSubmitted : Fields -> fetch_outcome E -> happening
| LogoutClicked : fetch_outcome E -> happening
| UploadSubmitted : fetch_outcome E -> happening
| Typed : input_target -> Fields -> happening
| TabClicked : nat -> Fields -> happening
| PageChanged : Controls -> happening
| ObserverTimedOut : happening.

Definition happen (h : happening) (ui : UI) : UI :=
  match h with
  | LoginSubmitted f remember net => login_submit f remember net ui
  | SignupSubmitted f net => signup_submit f net ui
  | LogoutClicked net => on_base (logout net) ui
  | UploadSubmitted net => on_base (fun s => snd (guard_submit net s)) ui
  | Typed target f => on_base (input target f) ui
  | TabClicked i f => click_tab i f ui
  | PageChanged found => mutation found ui
  | ObserverTimedOut => disconnect ui
  end.

Fixpoint history (l : list happening) (ui : UI) : UI :=
  match l with
  | [] => ui
  | h :: rest => history rest (happen h ui)
  end.

Definition is_timeout (h : happening) : bool :=
  match h with
  | ObserverTimedOut => true
  | _ => false
  end.

End Script.

Arguments login_submit {E} _ _ _ _ _.
Arguments signup_submit {E} _ _ _ _.
Arguments guard_submit {E} _ _.
Arguments init {E} _ _ _.
Arguments happen {E} _ _ _.
Arguments history {E} _ _ _.
Arguments is_timeout {E} _.

End AuthUI.

(** * Further properties, in plain terms *)
Module More.

Import JS Vis.

Section Page.

Variable E : Engine.

Definition present {A : Type} (o : option A) : bool :=
  match o with
  | Some _ => true
  | None => false
  end.

(** [s'] has the elements of [s]: none appeared, none went away. *)
Definition same_elements (s s' : App.State E) : Prop :=
  present (App.statusEl s') = present (App.statusEl s) /\
  present (App.processBtn s') = present (App.processBtn s) /\
  present (App.textEl s') = present (App.textEl s) /\
  present (App.conceptsEl s') = present (App.conceptsEl s) /\
  App.mindmapEl s' = App.mindmapEl s /\
  App.flowchartEl s' = App.flowchartEl s.

(** The status region, if the page has one, shows a text that is not
    empty. *)
Definition says_something (s : App.State E) : Prop :=
  forall shown, App.statusEl s = Some shown -> shown <> [].

(** What the page shows of the results: the text, the concepts, the two
    handles and the chronicle of the graph library. *)
Definition same_results (s s' : App.State E) : Prop :=
  App.textEl s' = App.textEl s /\
  App.conceptsEl s' = App.conceptsEl s /\
  App.mindmapNetwork s' = App.mindmapNetwork s /\
  App.flowchartNetwork s' = App.flowchartNetwork s /\
  App.vis s' = App.vis s.

(** The text of the list item of a concept that can be listed. *)
Definition label (item : val E) : jsstring :=
  match item with
  | VStr s => s
  | _ =>
      printed E (or_else E (field item (units "phrase")) (VStr [])) ++
      (let score := field item (units "score") in
       if is_nullish score then []
       else units " (" ++ Number_toFixed2 E score ++ units ")")
  end.

(** A concept that can be listed: a string, or a value other than [null]
    and [undefined] whose [phrase], if truthy, converts to a string and
    whose [score], unless [null] or [undefined], converts to a number. *)
Definition listable (item : val E) : bool :=
  match item with
  | VStr _ => true
  | _ =>
      negb (is_nullish item) &&
      convertible (or_else E (field item (units "phrase")) (VStr [])) &&
      (let score := field item (units "score") in
       is_nullish score || convertible score)
  end.

(** What listing a concept that cannot be listed raises: the TypeError of
    reading [phrase] of [null] or [undefined], or that of a [phrase] or a
    [score] that does not convert. *)
Definition unlisted (item : val E) : exn :=
  if is_nullish item
  then {| exn_name := TypeError;
          message := msg_nullish_read E item (units "phrase") |}
  else
    let phrase := or_else E (field item (units "phrase")) (VStr []) in
    if convertible phrase
    then {| exn_name := TypeError;
            message := msg_not_primitive E (field item (units "score")) |}
    else {| exn_name := TypeError; message := msg_not_primitive E phrase |}.

(** The concepts that [submitForm] hands to [renderConcepts]. *)
Definition concepts_of (data : val E) : list (val E) :=
  match field data (units "keyphrases") with
  | VArr keyphrases => keyphrases
  | _ =>
      match opt_field (field data (units "llm")) (units "concepts") with
      | VArr concepts => map (App.as_concept E) concepts
      | _ => []
      end
  end.

(** [v || dflt] converts inside a template literal. *)
Definition prints (v : val E) : bool :=
  if truthy E v then convertible v else true.

(** The string that [v || dflt] gives inside a template literal, when it
    converts. *)
Definition printed_or (v : val E) (dflt : jsstring) : jsstring :=
  if truthy E v then printed E v else dflt.

(** The [meta] of a result, [{}] when it has none. *)
Definition meta_of (data : val E) : val E :=
  or_else E (field data (units "meta")) (VObj []).

(** The two entries of [meta] that the final status quotes convert. *)
Definition summarised (data : val E) : bool :=
  prints (field (meta_of data) (units "images_processed")) &&
  prints (field (meta_of data) (units "ocr_engine")).

(** The text that the body of a response decodes to; a null body decodes
    to the empty text. *)
Definition text_of (res : Response E) : jsstring :=
  match body res with
  | Some b => body_text b
  | None => []
  end.

(** The answer that [submitForm] accepts: status ok, content type JSON, a
    body that parses to something other than [null], and no truthy
    [error]. *)
Definition accepted (res : Response E) : bool :=
  ok res && App.is_json (content_type res) &&
  match parsed res with
  | Some data =>
      negb (is_nullish data) && negb (truthy E (field data (units "error")))
  | None => false
  end.

(** The text of the result converts to a string, and each of its concepts
    can be listed: nothing stops [submitForm] before the views. *)
Definition renders (data : val E) : bool :=
  convertible (App.text_of_data E data) && forallb listable (concepts_of data).

(** What [throw new Error(v)] throws: the [Error] whose message is [v] as
    a string, or the engine's TypeError when [v] does not convert. *)
Definition thrown_for (v : val E) : exn :=
  match to_string E v with
  | Normal m => {| exn_name := Error; message := m |}
  | Throw e => e
  end.

(** [respond] throws [e] on the answer and writes nothing but the
    [bodyUsed] flag. *)
Definition turned_down (res : Response E) (e : exn) : Prop :=
  forall st, App.bodyUsed st = false ->
             exists b, App.respond E res st = (Throw e, App.set_bodyUsed b st).

(** What [submitForm] leaves when [e] was caught before anything was
    shown: its message in the status region, [Failed to process] standing
    in for an empty one, [e] on the console, and the results as they
    were. *)
Definition reported (e : exn) (s s' : App.State E) : Prop :=
  App.statusEl s' =
    match App.statusEl s with
    | Some _ => Some (App.message_or e (units "Failed to process"))
    | None => None
    end /\
  same_results s s' /\
  App.console s' = e :: App.console s.

(** The state in which the results of [data] have been shown and drawn,
    before the final [setStatus]. *)
Definition drawn (data : val E) (s : App.State E) : App.State E :=
  snd (App.render_flowchart E data
         (snd (App.render_mindmap E data
                 (snd (App.display_concepts E data
                         (snd (App.display_text E data s))))))).

(** A run that completes normally leaves a status that says something. *)
Definition ends_saying {A : Type} (r : completion A * App.State E) : Prop :=
  match r with
  | (Normal _, s') => says_something s'
  | (Throw _, _) => True
  end.

(** The number of requests that a submission with these controls sends. *)
Definition sends (document : App.Document) : nat :=
  match App.selected (App.or_element (document (units "files"))
                        (document (units "fileInput"))) with
  | Some _ => 1
  | None => 0
  end.

(** The button as [submitForm] leaves it. *)
Definition idle : App.Button :=
  {| App.disabled := false; App.textContent := App.Process |}.

(** The status text of a success. *)
Definition done_text (pages engine : jsstring) : jsstring :=
  units "Done (" ++ pages ++ units " page(s), engine: " ++ engine ++ units ")".

End Page.

Arguments same_elements {E} _ _.
Arguments says_something {E} _.
Arguments same_results {E} _ _.
Arguments label {E} _.
Arguments listable {E} _.
Arguments unlisted {E} _.
Arguments concepts_of {E} _.
Arguments prints {E} _.
Arguments printed_or {E} _ _.
Arguments meta_of {E} _.
Arguments summarised {E} _.
Arguments text_of {E} _.
Arguments accepted {E} _.
Arguments renders {E} _.
Arguments thrown_for {E} _.
Arguments turned_down {E} _ _.
Arguments reported {E} _ _ _.
Arguments ends_saying {E A} _.
Arguments drawn {E} _ _.

End More.

(** * More answers of the upload endpoint *)
Module Cases.

Import JS.

Definition html (E : Engine) (code : N) (page : string) : Response E :=
  {| status := code;
     content_type := Some (units "text/html; charset=utf-8");
     body := Some {| body_text := units page; body_json := None |} |}.

(** A proxy answering for a server that is down. *)
Definition bad_gateway (E : Engine) : Response E :=
  html E 502 "<html><h1>502 Bad Gateway</h1></html>".

(** A login page served with status 200. *)
Definition login_page (E : Engine) : Response E :=
  html E 200 "<!doctype html><title>Sign in</title>".

Definition json (E : Engine) (code : N) (data : val E) : Response E :=
  {| status := code;
     content_type := Some (units "application/json");
     body := Some {| body_text := []; body_json := Some data |} |}.

(** Status 200 with an [error] in the body. *)
Definition quota (E : Engine) : Response E :=
  json E 200 (VObj [(units "error", VStr (units "OCR quota exceeded"))]).

(** [{"toString":null}]: an object that does not convert to a string. *)
Definition stubborn (E : Engine) : val E := VObj [(units "toString", VNull)].

(** Status 200 with such an object as its [error]. *)
Definition stubborn_error (E : Engine) : Response E :=
  json E 200 (VObj [(units "error", stubborn E)]).

(** A result whose second concept is [null]. *)
Definition null_concept (E : Engine) : val E :=
  VObj [(units "text", VStr (units "notes"));
        (units "keyphrases",
         VArr [VStr (units "graph"); VNull; VStr (units "tree")]);
        (units "mindmap", VObj [])].

(** A complete result: three pages read by [gcv]. *)
Definition finished : val Sample.engine :=
  VObj [(units "text", VStr (units "notes"));
        (units "keyphrases",
         VArr [VStr (units "graph");
               VObj [(units "phrase", VStr (units "tree"));
                     (units "score", VNum 2%Z)]]);
        (units "meta",
         VObj [(units "images_processed", VNum 3%Z);
               (units "ocr_engine", VStr (units "gcv"))])].

End Cases.
(** * The session gate, in plain terms *)
Module Session.

Import JS Auth.

(** The submission control, if the page has one, is disabled exactly when
    nobody is signed in. *)
Definition gated (s : State) : Prop :=
  forall b, findProcessBtn (controls s) = Some b ->
            disabled b = negb (loggedIn s).

(** Between [s] and [s'] either the session and the controls stayed, or
    the session changed and the control that was found follows it. *)
Definition settled (s s' : State) : Prop :=
  (controls s' = controls s /\ loggedIn s' = loggedIn s) \/
  exists d, controls s' = disable_found (negb d) (controls s) /\
            loggedIn s' = d.

(** The request does not bring an ok status back: it is rejected, or
    answered with a status outside 200..299. *)
Definition fails {E : Engine} (net : fetch_outcome E) : bool :=
  match net with
  | Rejected _ => true
  | Responded res => negb (ok res)
  end.

(** What the message of a failed answer is made from: the [error] of the
    body, else its [message], else [HTTP] and the status. *)
Definition blamed {E : Engine} (res : Response E) : val E :=
  match parsed res with
  | Some data =>
      if truthy E data && truthy E (field data (units "error"))
      then field data (units "error")
      else if truthy E data && truthy E (field data (units "message"))
           then field data (units "message")
           else VStr (units "HTTP " ++ decimal (status res))
  | None => VStr (units "HTTP " ++ decimal (status res))
  end.

(** What reaches the caller of [fetchJSON] on a request that fails: the
    rejection, or an [Error] with the blamed value as its message, or, when
    that value does not convert to a string, the engine's TypeError. *)
Definition failure {E : Engine} (net : fetch_outcome E) : exn :=
  match net with
  | Rejected e => e
  | Responded res =>
      if convertible (blamed res)
      then {| exn_name := Error; message := printed E (blamed res) |}
      else {| exn_name := TypeError;
              message := msg_not_primitive E (blamed res) |}
  end.

(** The [username] of a user can be shown on the chip: it converts to a
    string. Nobody ([null], or any falsy value) has no name to show. *)
Definition named {E : Engine} (user : val E) : bool :=
  if truthy E user then convertible (field user (units "username")) else true.

(** The user that a session probe finds in an answer. *)
Definition session {E : Engine} (res : Response E) : val E :=
  match parsed res with
  | Some data =>
      if truthy E data && truthy E (field data (units "ok"))
      then field data (units "user")
      else VNull
  | None => VNull
  end.

(** The number of the five criteria of [strength] that [pw] meets. *)
Definition criteria (pw : jsstring) : nat :=
  Nat.b2n (6 <=? List.length pw) +
  Nat.b2n (test_class is_upper pw) + Nat.b2n (test_class is_lower pw) +
  Nat.b2n (test_class is_digit pw) + Nat.b2n (test_class is_symbol pw).

(** The page once [setLoggedIn(user)] has run to its end. *)
Definition signed {E : Engine} (user : val E) (s : State) : State :=
  let s := set_loggedIn (truthy E user) s in
  if truthy E user then
    let s := set_userChipName
               (units "Signed in: " ++ printed E (field user (units "username")))
               s in
    let s := set_userChip_show true s in
    let s := set_logoutBtn_display (units "inline-flex") s in
    hideOverlay (enableControlsIfPresent s)
  else
    let s := set_userChipName [] s in
    let s := set_userChip_show false s in
    let s := set_logoutBtn_display (units "none") s in
    enableControlsIfPresent s.

(** What a login or a registration brings back names its user in a way
    that can be shown. *)
Definition well_named {E : Engine} (h : AuthUI.happening E) : bool :=
  match h with
  | AuthUI.LoginSubmitted _ _ _ (Responded res)
  | AuthUI.SignupSubmitted _ _ (Responded res) =>
      named (field (json_or_null E res) (units "user"))
  | _ => true
  end.

(** The observer does not time out and the user is well named. *)
Definition steady {E : Engine} (h : AuthUI.happening E) : bool :=
  negb (AuthUI.is_timeout h) && well_named h.

(** The session probe, if it is answered, names its user in a way that can
    be shown. *)
Definition probe_named {E : Engine} (net : fetch_outcome E) : bool :=
  match net with
  | Rejected _ => true
  | Responded res => named (session res)
  end.

End Session.

(** * Sample visits to the overlay *)
Module Visits.

Import JS Auth AuthUI.

(** [JSON.stringify] on strings that need no escaping, booleans and objects
    of these. *)
Fixpoint stringify (v : val Sample.engine) : jsstring :=
  match v with
  | VStr s => [34%N] ++ s ++ [34%N]
  | VBool true => units "true"
  | VBool false => units "false"
  | VNum z => Sample.print_Z z
  | VObj fields =>
      units "{" ++
      (fix members (l : list (jsstring * val Sample.engine)) : jsstring :=
         match l with
         | [] => []
         | (k, x) :: rest =>
             [34%N] ++ k ++ [34%N] ++ units ":" ++ stringify x ++
             match rest with
             | [] => []
             | _ :: _ => units "," ++ members rest
             end
         end) fields ++
      units "}"
  | _ => units "null"
  end.

(** The overlay as the script mounts it, on a page with an upload form:
    nobody signed in, the login tab selected, both submit buttons
    disabled. *)
Definition mounted : UI :=
  {| base :=
       {| loggedIn := false;
          overlay_display := units "none";
          body_auth_locked := false;
          authError := {| alert_textContent := []; alert_className := units "alert" |};
          authSuccess := {| alert_textContent := []; alert_className := units "alert" |};
          loginForm_active := true;
          loginBtn_disabled := true;
          signupBtn_disabled := true;
          pwBar := Some 0;
          userChipName := [];
          userChip_show := false;
          logoutBtn_display := units "none";
          controls :=
            {| q_processBtn := Some {| disabled := false |};
               q_uploadForm := Some {| submit := Some {| disabled := false |} |};
               q_ocrForm := None;
               q_action := None;
               q_form := Some {| submit := Some {| disabled := false |} |} |};
          focused := None;
          timers := [];
          requests := [] |};
     loginBtn_face := {| shows := Text (units "Login"); dataset_label := None |};
     signupBtn_face := {| shows := Text (units "Create Account");
                          dataset_label := None |};
     signupForm_active := false;
     tabs := [ {| data_tab := Some (units "login"); tab_active := true;
                  aria_selected := units "true" |};
               {| data_tab := Some (units "signup"); tab_active := false;
                  aria_selected := units "false" |} ];
     observing := false |}.

(** The visitor has typed a name and a password on the login tab. *)
Definition credentials : Fields :=
  {| loginIdentifier := units " ada ";
     loginPassword := units "s3cret";
     signupEmail := [];
     signupUsername := [];
     signupPassword := [] |}.

(** The overlay with these credentials typed: the login button is
    enabled. *)
Definition ready : UI := on_base (validateLogin credentials) mounted.

(** The overlay with an address, a name and a password typed on the
    sign-up tab: the sign-up button is enabled. *)
Definition registering : Fields := Sample.typed "ada@example.org" "ada" "aB1".

Definition ready_to_register : UI := on_base (validateSignup registering) mounted.

(** A page whose submission control came late, enabled. *)
Definition late : Controls :=
  {| q_processBtn := Some {| disabled := false |};
     q_uploadForm := None; q_ocrForm := None; q_action := None;
     q_form := None |}.

Definition answer (code : N) (data : val Sample.engine) : Response Sample.engine :=
  {| status := code;
     content_type := Some (units "application/json");
     body := Some {| body_text := []; body_json := Some data |} |}.

(** [{"ok":true,"user":{"username":"ada"}}] under status 200. *)
Definition welcome : Response Sample.engine :=
  answer 200 (VObj [(units "ok", VBool true);
                    (units "user", VObj [(units "username", VStr (units "ada"))])]).

(** [{"error":"Invalid credentials"}] under status 401. *)
Definition wrong_password : Response Sample.engine :=
  answer 401 (VObj [(units "error", VStr (units "Invalid credentials"))]).

(** [{"ok":true,"user":{"username":{"toString":null}}}] under status 200:
    a user whose name does not convert to a string. *)
Definition nameless : Response Sample.engine :=
  answer 200
    (VObj [(units "ok", VBool true);
           (units "user",
            VObj [(units "username", Cases.stubborn Sample.engine)])]).

(** [{"ok":false}] under status 200. *)
Definition no_user : Response Sample.engine :=
  answer 200 (VObj [(units "ok", VBool false)]).

(** Status 200 with a body that is not JSON. *)
Definition not_json : Response Sample.engine :=
  {| status := 200;
     content_type := Some (units "text/html");
     body := Some {| body_text := units "<html></html>"; body_json := None |} |}.

(** A visit: the visitor types, signs in, the page changes, and the
    visitor signs out while the server cannot be reached. *)
Definition visit : list (happening Sample.engine) :=
  [ Typed Sample.engine in_loginIdentifier credentials;
    LoginSubmitted Sample.engine credentials true (Responded welcome);
    PageChanged Sample.engine late;
    LogoutClicked Sample.engine (Rejected Sample.failed_to_fetch) ].

End Visits.

(** * Proofs *)

(** ** Regular expressions: [matches] decides the language *)
Module RegexFacts.

Import JS.










End RegexFacts.

(** ** Statements that keep a relation between states *)
Module KeepsFacts.

Import JS.

Section Keeps.

Variables (S : Type) (R : S -> S -> Prop).
Hypothesis R_refl : forall s, R s s.
Hypothesis R_trans : forall a b c, R a b -> R b c -> R a c.

Lemma keeps_ret {A : Type} (a : A) : keeps R (ret a).
Proof. intro s. apply R_refl. Qed.

Lemma keeps_throw {A : Type} (e : exn) : keeps R (@throw S A e).
Proof. intro s. apply R_refl. Qed.

Lemma keeps_throw_Error {A : Type} (m : jsstring) : keeps R (@throw_Error S A m).
Proof. apply keeps_throw. Qed.

Lemma keeps_lift {A : Type} (c : completion A) : keeps R (lift c).
Proof. intro s. apply R_refl. Qed.

Lemma keeps_gets {A : Type} (f : S -> A) : keeps R (gets f).
Proof. intro s. apply R_refl. Qed.

Lemma keeps_modify (f : S -> S) : (forall s, R s (f s)) -> keeps R (modify f).
Proof. intros H s. apply H. Qed.

Lemma keeps_bind {A B : Type} (m : M S A) (k : A -> M S B) :
  keeps R m -> (forall a, keeps R (k a)) -> keeps R (bind m k).
Proof.
  intros Hm Hk s. unfold bind.
  specialize (Hm s). destruct (m s) as [[a | e] s']; simpl in *.
  - eapply R_trans; [exact Hm | apply Hk].
  - exact Hm.
Qed.

Lemma keeps_try_catch {A : Type} (m : M S A) (h : exn -> M S A) :
  keeps R m -> (forall e, keeps R (h e)) -> keeps R (try_catch m h).
Proof.
  intros Hm Hh s. unfold try_catch.
  specialize (Hm s). destruct (m s) as [[a | e] s']; simpl in *.
  - exact Hm.
  - eapply R_trans; [exact Hm | apply Hh].
Qed.

Lemma keeps_try_finally {A : Type} (m : M S A) (f : S -> S) :
  keeps R m -> (forall s, R s (f s)) -> keeps R (try_finally m f).
Proof.
  intros Hm Hf s. unfold try_finally.
  specialize (Hm s). destruct (m s) as [c s']; simpl in *.
  eapply R_trans; [exact Hm | apply Hf].
Qed.

End Keeps.

Lemma keeps_weaken {S A : Type} (R1 R2 : S -> S -> Prop) (m : M S A) :
  (forall s s', R1 s s' -> R2 s s') -> keeps R1 m -> keeps R2 m.
Proof. intros H Hm s. apply H, Hm. Qed.

End KeepsFacts.

(** ** The chronicle of the graph library *)
Module VisFacts.

Import JS Vis.

Section Chronicle.

Variable E : Engine.

Abbreviation log_t := (list (event E)).

Lemma container_eqb_refl (c : container) : container_eqb c c = true.
Proof. destruct c; reflexivity. Qed.

Lemma container_eqb_neq (a b : container) : a <> b -> container_eqb a b = false.
Proof.
  destruct a, b; intro H; try reflexivity; contradiction H; reflexivity.
Qed.

Lemma remove_listed_same (o : option handle) (p : handle) :
  o = Some p -> remove Nat.eq_dec p (listed o) = [].
Proof.
  intros ->. unfold listed. rewrite remove_cons. reflexivity.
Qed.

Lemma remove_listed_other (o : option handle) (p : handle) :
  ~ In p (listed o) -> remove Nat.eq_dec p (listed o) = listed o.
Proof. intro H. apply notin_remove. exact H. Qed.

Lemma length_listed (o : option handle) : List.length (listed o) <= 1.
Proof. destruct o; simpl; lia. Qed.

(** The suffixes of a chronicle that grew by one event. *)
Lemma suffix_cons (ev : event E) (log recent older : log_t) :
  ev :: log = recent ++ older ->
  older = ev :: log \/ exists recent', log = recent' ++ older.
Proof.
  destruct recent as [| ev' recent']; simpl; intro H.
  - left. congruence.
  - right. injection H as _ ->. eauto.
Qed.

Lemma always_exclusive_cons (ev : event E) (log : log_t) :
  Spec.exclusive (ev :: log) -> Spec.always_exclusive log ->
  Spec.always_exclusive (ev :: log).
Proof.
  intros Hnow Hbefore recent older H.
  destruct (suffix_cons _ _ _ _ H) as [-> | [recent' ->]].
  - exact Hnow.
  - eapply Hbefore. reflexivity.
Qed.

Lemma always_exclusive_now (log : log_t) :
  Spec.always_exclusive log -> Spec.exclusive log.
Proof. intro H. apply (H [] log). reflexivity. Qed.

Lemma two_containers (c c' : container) :
  c <> c' -> forall c0, c0 = c \/ c0 = c'.
Proof.
  intros H c0. destruct c, c', c0; auto; contradiction H; reflexivity.
Qed.

(** Destroying the owner of [c] leaves [c] empty and the other container
    as it was. *)
Lemma destroy_owner (log : log_t) (c c' : container) (p : handle)
  (other : option handle) :
  c <> c' ->
  Spec.owns (Some p) c log -> Spec.owns other c' log ->
  Spec.well_numbered log ->
  Spec.owns None c (Destroyed E p :: log) /\
  Spec.owns other c' (Destroyed E p :: log).
Proof.
  unfold Spec.owns. intros Hne Hc Hc' [_ Hapart]. simpl.
  rewrite Hc, Hc'. split.
  - apply remove_listed_same. reflexivity.
  - apply remove_listed_other. intro Hin.
    apply (Hapart c c' p Hne).
    + rewrite Hc. left. reflexivity.
    + rewrite Hc'. exact Hin.
Qed.

Lemma vacated_owns (log : log_t) (c c' : container) (previous other : option handle) :
  c <> c' ->
  Spec.owns previous c log -> Spec.owns other c' log ->
  Spec.well_numbered log ->
  Spec.owns None c (vacated previous log) /\
  Spec.owns other c' (vacated previous log).
Proof.
  intros Hne Hc Hc' Hwn. destruct previous as [p |]; simpl.
  - apply destroy_owner; assumption.
  - split; assumption.
Qed.

Lemma fresh_vacated (previous : option handle) (log : log_t) :
  fresh log <= fresh (vacated previous log).
Proof. destruct previous; unfold fresh; simpl; lia. Qed.

Lemma vacated_always_exclusive (log : log_t) (c c' : container)
  (previous other : option handle) :
  c <> c' ->
  Spec.owns previous c log -> Spec.owns other c' log ->
  Spec.well_numbered log -> Spec.always_exclusive log ->
  Spec.always_exclusive (vacated previous log).
Proof.
  intros Hne Hc Hc' Hwn Hex.
  destruct (vacated_owns _ _ _ _ _ Hne Hc Hc' Hwn) as [Hv Hv'].
  destruct previous as [p |]; simpl in *; [| exact Hex].
  apply always_exclusive_cons; [| exact Hex].
  intro c0. destruct (two_containers _ _ Hne c0) as [-> | ->].
  - rewrite Hv. simpl. lia.
  - rewrite Hv'. apply length_listed.
Qed.

(** Redrawing [c]: the previous owner is destroyed, then a new instance is
    created and becomes the owner; the other container is not affected. *)
Lemma redraw_log (log : log_t) (c c' : container) (previous other : option handle)
  (nodes edges : val E) (opts : Options) :
  c <> c' ->
  Spec.owns previous c log -> Spec.owns other c' log ->
  Spec.always_exclusive log -> Spec.well_numbered log ->
  let h := fresh (vacated previous log) in
  let log' := Created E h c nodes edges opts :: vacated previous log in
  Spec.owns (Some h) c log' /\ Spec.owns other c' log' /\
  Spec.always_exclusive log' /\ Spec.well_numbered log'.
Proof.
  intros Hne Hc Hc' Hex Hwn. cbv zeta.
  destruct (vacated_owns _ _ _ _ _ Hne Hc Hc' Hwn) as [Hv Hv'].
  pose proof (vacated_always_exclusive _ _ _ _ _ Hne Hc Hc' Hwn Hex) as Hvex.
  pose proof (fresh_vacated previous log) as Hfresh.
  set (base := vacated previous log) in *.
  assert (Hown : live_on c (Created E (fresh base) c nodes edges opts :: base)
                 = [fresh base]).
  { simpl. rewrite container_eqb_refl, Hv. reflexivity. }
  assert (Hown' : live_on c' (Created E (fresh base) c nodes edges opts :: base)
                  = listed other).
  { simpl. rewrite (container_eqb_neq _ _ (not_eq_sym Hne)). exact Hv'. }
  assert (Hold : forall q, In q (listed other) -> q < fresh base).
  { intros q Hq. destruct Hwn as [Hbound _].
    specialize (Hbound c' q). rewrite Hc' in Hbound.
    specialize (Hbound Hq). lia. }
  split; [exact Hown |]. split; [exact Hown' |]. split; [| split].
  - apply always_exclusive_cons; [| exact Hvex].
    intro c0. destruct (two_containers _ _ Hne c0) as [-> | ->].
    + rewrite Hown. simpl. lia.
    + rewrite Hown'. apply length_listed.
  - intros c0 q Hq.
    assert (Hnext : fresh (Created E (fresh base) c nodes edges opts :: base)
                    = S (fresh base)) by reflexivity.
    rewrite Hnext.
    destruct (two_containers _ _ Hne c0) as [-> | ->].
    + rewrite Hown in Hq. destruct Hq as [<- | []]. lia.
    + rewrite Hown' in Hq. apply Hold in Hq. lia.
  - intros c1 c2 q Hdiff H1 H2.
    destruct (two_containers _ _ Hne c1) as [-> | ->],
             (two_containers _ _ Hne c2) as [-> | ->];
      try (contradiction Hdiff; reflexivity).
    + rewrite Hown in H1. rewrite Hown' in H2.
      destruct H1 as [<- | []]. apply Hold in H2. lia.
    + rewrite Hown' in H1. rewrite Hown in H2.
      destruct H2 as [<- | []]. apply Hold in H1. lia.
Qed.

End Chronicle.

End VisFacts.

(** ** [frontend/app.js] *)
Module AppProofs.

Import JS Vis App KeepsFacts.

Section Script.

Variable E : Engine.

Abbreviation State := (App.State E).

(** *** Statements that leave the graphs and the requests alone *)

Lemma untouched_refl (s : State) : Spec.untouched s s.
Proof. repeat split. Qed.

Lemma untouched_trans (a b c : State) :
  Spec.untouched a b -> Spec.untouched b c -> Spec.untouched a c.
Proof.
  unfold Spec.untouched. intros (H1 & H2 & H3 & H4 & H5 & H6) (H7 & H8 & H9 & H10 & H11 & H12).
  repeat split; congruence.
Qed.

Lemma untouched_setStatus (msg : jsstring) (s : State) :
  Spec.untouched s (setStatus msg s).
Proof. unfold setStatus. destruct (statusEl s); repeat split. Qed.

Lemma untouched_setBusy (busy : bool) (label : jsstring) (s : State) :
  Spec.untouched s (setBusy busy label s).
Proof. unfold setBusy. destruct (processBtn s); repeat split. Qed.

Ltac quiet_step :=
  first
    [ apply keeps_ret; exact untouched_refl
    | apply keeps_throw_Error; exact untouched_refl
    | apply keeps_throw; exact untouched_refl
    | apply keeps_lift; exact untouched_refl
    | apply keeps_gets; exact untouched_refl
    | apply keeps_bind; [exact untouched_trans | | intro]
    | apply keeps_try_catch; [exact untouched_trans | | intro]
    | apply keeps_modify; intro;
      first [ apply untouched_setStatus | apply untouched_setBusy ] ].

Lemma quiet_appendItems (list : list (val E)) :
  keeps Spec.untouched (appendItems E list).
Proof.
  induction list as [| item rest IH]; simpl.
  - quiet_step.
  - repeat quiet_step; [| exact IH].
    apply keeps_modify. intro s. destruct (conceptsEl s); repeat split.
Qed.

Lemma quiet_renderConcepts (list : list (val E)) :
  keeps Spec.untouched (renderConcepts list).
Proof.
  intro s. unfold renderConcepts. destruct (conceptsEl s); [| repeat split].
  eapply untouched_trans; [| apply quiet_appendItems]. repeat split.
Qed.

Lemma quiet_res_json (res : Response E) : keeps Spec.untouched (res_json E res).
Proof.
  intro s. unfold res_json. destruct (read_json res (bodyUsed s)). repeat split.
Qed.

Lemma quiet_res_text (res : Response E) : keeps Spec.untouched (res_text E res).
Proof.
  intro s. unfold res_text. destruct (read_text res (bodyUsed s)). repeat split.
Qed.

Lemma quiet_check_status (res : Response E) :
  keeps Spec.untouched (check_status E res).
Proof.
  unfold check_status.
  destruct (negb (ok res)); [| quiet_step].
  destruct (is_json (content_type res)); repeat quiet_step;
    first [ apply quiet_res_json | apply quiet_res_text ].
Qed.

Lemma quiet_check_content_type (res : Response E) :
  keeps Spec.untouched (check_content_type E res).
Proof.
  unfold check_content_type.
  destruct (negb (is_json (content_type res))); repeat quiet_step.
  apply quiet_res_text.
Qed.

Lemma quiet_report (err : exn) : keeps Spec.untouched (report E err).
Proof.
  unfold report. repeat quiet_step.
  apply keeps_modify. intro s. repeat split.
Qed.

Lemma quiet_display_text (data : val E) :
  keeps Spec.untouched (display_text E data).
Proof.
  unfold display_text.
  apply keeps_bind; [exact untouched_trans | quiet_step | intros [present |]];
    repeat quiet_step.
  apply keeps_modify. intro s. repeat split.
Qed.

Lemma quiet_display_concepts (data : val E) :
  keeps Spec.untouched (display_concepts E data).
Proof.
  unfold display_concepts.
  destruct (field data (units "keyphrases"));
    try apply quiet_renderConcepts;
    destruct (opt_field (field data (units "llm")) (units "concepts"));
    first [ apply quiet_renderConcepts | quiet_step ].
Qed.

Lemma quiet_done (data : val E) : keeps Spec.untouched (done E data).
Proof. unfold done. repeat quiet_step. Qed.

(** *** What the two rendering blocks do *)

Lemma renderNetwork_present (c : container) (previous : option handle)
  (graph : Graph E) (hierarchical : bool) (s : State) :
  renderNetwork (Some c) previous graph hierarchical s =
  (Normal (Some (fresh (vacated previous (vis s)))),
   set_vis
     (Created E (fresh (vacated previous (vis s))) c
        (or_else E (g_nodes graph) (VArr []))
        (or_else E (g_edges graph) (VArr []))
        (if hierarchical then make_hierarchical visOptions else visOptions)
      :: vacated previous (vis s)) s).
Proof. destruct previous; reflexivity. Qed.

Lemma render_mindmap_effect (data : val E) (s : State) :
  snd (render_mindmap E data s) = s \/
  exists nodes edges,
    snd (render_mindmap E data s) =
    set_mindmapNetwork (Some (fresh (vacated (mindmapNetwork s) (vis s))))
      (set_vis
         (Created E (fresh (vacated (mindmapNetwork s) (vis s))) Mindmap
            nodes edges visOptions
          :: vacated (mindmapNetwork s) (vis s)) s).
Proof.
  unfold render_mindmap, bind, gets, modify. simpl.
  destruct (truthy E (field data (units "mindmap")) && mindmapEl s) eqn:Hc;
    [| left; reflexivity].
  apply andb_true_iff in Hc as [_ ->]. simpl element_of.
  rewrite renderNetwork_present. right. eexists. eexists. reflexivity.
Qed.

Lemma render_flowchart_effect (data : val E) (s : State) :
  snd (render_flowchart E data s) = s \/
  exists nodes edges,
    snd (render_flowchart E data s) =
    set_flowchartNetwork (Some (fresh (vacated (flowchartNetwork s) (vis s))))
      (set_vis
         (Created E (fresh (vacated (flowchartNetwork s) (vis s))) Flowchart
            nodes edges (make_hierarchical visOptions)
          :: vacated (flowchartNetwork s) (vis s)) s).
Proof.
  unfold render_flowchart, bind, gets, modify. simpl.
  destruct (truthy E (field data (units "flowchart")) && flowchartEl s) eqn:Hc;
    [| left; reflexivity].
  apply andb_true_iff in Hc as [_ ->]. simpl element_of.
  rewrite renderNetwork_present. right. eexists. eexists. reflexivity.
Qed.

(** *** A relation kept by the rendering blocks is kept by [submitForm] *)

Section Through.

Variable R : State -> State -> Prop.
Hypothesis R_refl : forall s, R s s.
Hypothesis R_trans : forall a b c, R a b -> R b c -> R a c.
Hypothesis R_untouched : forall s s', Spec.untouched s s' -> R s s'.
Hypothesis R_mindmap : forall data, keeps R (render_mindmap E data).
Hypothesis R_flowchart : forall data, keeps R (render_flowchart E data).

Lemma quiet {A : Type} (m : M State A) : keeps Spec.untouched m -> keeps R m.
Proof. apply keeps_weaken, R_untouched. Qed.

Lemma show_keeps (data : val E) : keeps R (show E data).
Proof.
  unfold show.
  apply keeps_bind; [exact R_trans | apply quiet, quiet_display_text | intros _].
  apply keeps_bind; [exact R_trans | apply quiet, quiet_display_concepts | intros _].
  apply keeps_bind; [exact R_trans | apply R_mindmap | intros _].
  apply keeps_bind; [exact R_trans | apply R_flowchart | intros _].
  apply quiet, quiet_done.
Qed.

Lemma respond_keeps (res : Response E) : keeps R (respond E res).
Proof.
  unfold respond.
  apply keeps_bind; [exact R_trans | apply quiet, quiet_check_status | intros _].
  apply keeps_bind; [exact R_trans | apply quiet, quiet_check_content_type | intros _].
  apply keeps_bind; [exact R_trans | apply quiet, quiet_res_json | intros data].
  apply keeps_bind; [exact R_trans | apply keeps_lift, R_refl | intros error].
  apply keeps_bind; [exact R_trans | | intros _; apply show_keeps].
  destruct (truthy E error); [| apply keeps_ret; exact R_refl].
  apply keeps_bind; [exact R_trans | apply keeps_lift, R_refl | intros m].
  apply keeps_throw_Error. exact R_refl.
Qed.

Hypothesis R_fetch : forall rq net, keeps R (fetch E rq net).

Lemma attempt_keeps (document : Document) (net : fetch_outcome E) :
  keeps R (attempt E document net).
Proof.
  unfold attempt.
  destruct (selected _).
  - apply keeps_bind; [exact R_trans | apply R_fetch | intro res].
    apply respond_keeps.
  - apply quiet. repeat quiet_step.
Qed.

Lemma submitForm_keeps (document : Document) (net : fetch_outcome E) (s : State) :
  R s (submitForm document net s).
Proof.
  unfold submitForm.
  assert (H : keeps R
                (bind (modify (setStatus []))
                   (fun _ => bind (modify (setBusy true Process))
                      (fun _ => try_finally
                                  (try_catch (attempt E document net) (report E))
                                  (setBusy false Process))))).
  { apply keeps_bind; [exact R_trans | apply quiet; quiet_step | intros _].
    apply keeps_bind; [exact R_trans | apply quiet; quiet_step | intros _].
    apply keeps_try_finally; [exact R_trans | |].
    - apply keeps_try_catch; [exact R_trans | apply attempt_keeps |].
      intro err. apply quiet, quiet_report.
    - intro s'. apply R_untouched, untouched_setBusy. }
  apply H.
Qed.

End Through.

(** *** Layout *)

Lemma draws_refl (s : State) : Spec.draws s s.
Proof. exists []. split; [reflexivity | constructor]. Qed.

Lemma draws_trans (a b c : State) :
  Spec.draws a b -> Spec.draws b c -> Spec.draws a c.
Proof.
  intros (r1 & H1 & F1) (r2 & H2 & F2). exists (r2 ++ r1). split.
  - rewrite H2, H1. apply app_assoc.
  - apply Forall_app. split; assumption.
Qed.

Lemma draws_untouched (s s' : State) : Spec.untouched s s' -> Spec.draws s s'.
Proof.
  intros (_ & _ & Hvis & _). exists []. split; [exact Hvis | constructor].
Qed.

Lemma laid_out_vacated (previous : option handle) (log : list (event E)) :
  exists recent, vacated previous log = recent ++ log /\
                 Forall Spec.laid_out recent.
Proof.
  destruct previous as [p |]; simpl.
  - exists [Destroyed E p]. split; [reflexivity |].
    constructor; [exact I | constructor].
  - exists []. split; [reflexivity | constructor].
Qed.

Lemma draws_mindmap (data : val E) : keeps Spec.draws (render_mindmap E data).
Proof.
  intro s. destruct (render_mindmap_effect data s) as [-> | (n & e & ->)].
  - apply draws_refl.
  - destruct (laid_out_vacated (mindmapNetwork s) (vis s))
      as (recent & Hv & Hl).
    eexists (_ :: recent). simpl. rewrite Hv. split; [reflexivity |].
    constructor; [| exact Hl]. split; reflexivity.
Qed.

Lemma draws_flowchart (data : val E) : keeps Spec.draws (render_flowchart E data).
Proof.
  intro s. destruct (render_flowchart_effect data s) as [-> | (n & e & ->)].
  - apply draws_refl.
  - destruct (laid_out_vacated (flowchartNetwork s) (vis s))
      as (recent & Hv & Hl).
    eexists (_ :: recent). simpl. rewrite Hv. split; [reflexivity |].
    constructor; [| exact Hl]. split; [reflexivity |].
    eexists. split; reflexivity.
Qed.

Lemma draws_fetch (rq : Request) (net : fetch_outcome E) :
  keeps Spec.draws (fetch E rq net).
Proof.
  intro s. exists []. split; [| constructor].
  unfold fetch. destruct net; reflexivity.
Qed.

(** *** A successful answer is drawn *)

Lemma render_mindmap_run (data : val E) (s : State) :
  render_mindmap E data s =
  (Normal tt,
   if truthy E (field data (units "mindmap")) && mindmapEl s
   then
     set_mindmapNetwork (Some (fresh (vacated (mindmapNetwork s) (vis s))))
       (set_vis
          (Created E (fresh (vacated (mindmapNetwork s) (vis s))) Mindmap
             (or_else E (field (field data (units "mindmap")) (units "nodes")) (VArr []))
             (or_else E (field (field data (units "mindmap")) (units "edges")) (VArr []))
             visOptions
           :: vacated (mindmapNetwork s) (vis s)) s)
   else s).
Proof.
  unfold render_mindmap, bind, gets, modify. cbn [fst snd].
  destruct (truthy E (field data (units "mindmap")) && mindmapEl s) eqn:Hc;
    [| reflexivity].
  apply andb_true_iff in Hc as [_ ->]. simpl element_of.
  rewrite renderNetwork_present. reflexivity.
Qed.

Lemma render_flowchart_run (data : val E) (s : State) :
  render_flowchart E data s =
  (Normal tt,
   if truthy E (field data (units "flowchart")) && flowchartEl s
   then
     set_flowchartNetwork (Some (fresh (vacated (flowchartNetwork s) (vis s))))
       (set_vis
          (Created E (fresh (vacated (flowchartNetwork s) (vis s))) Flowchart
             (or_else E (field (field data (units "flowchart")) (units "nodes")) (VArr []))
             (or_else E (field (field data (units "flowchart")) (units "edges")) (VArr []))
             (make_hierarchical visOptions)
           :: vacated (flowchartNetwork s) (vis s)) s)
   else s).
Proof.
  unfold render_flowchart, bind, gets, modify. cbn [fst snd].
  destruct (truthy E (field data (units "flowchart")) && flowchartEl s) eqn:Hc;
    [| reflexivity].
  apply andb_true_iff in Hc as [_ ->]. simpl element_of.
  rewrite renderNetwork_present. reflexivity.
Qed.

(** An answer that is a success in every respect reaches [show]. *)
Lemma respond_run (res : Response E) (b : Body E) (data : val E) (s : State) :
  ok res = true ->
  is_json (content_type res) = true ->
  body res = Some b ->
  body_json b = Some data ->
  is_nullish data = false ->
  truthy E (field data (units "error")) = false ->
  bodyUsed s = false ->
  respond E res s = show E data (set_bodyUsed true s).
Proof.
  intros Hok Hjson Hbody Hparsed Hdata Herror Hfresh.
  unfold respond, check_status, check_content_type, bind.
  rewrite Hok, Hjson. cbn [negb]. unfold ret at 1 2. cbv iota beta.
  unfold res_json, read_json. rewrite Hbody, Hfresh, Hparsed. cbv iota beta.
  unfold lift, get. rewrite Hdata. cbv iota beta. rewrite Herror.
  reflexivity.
Qed.

(** Whatever the controls, the outcome of the request and the state, every
    instance that [submitForm] creates on the mind-map container has the
    force-directed options (physics enabled, no layout imposed), and every
    instance that it creates on the flowchart container has the
    hierarchical ones (physics disabled, layers from left to right). *)
Lemma created_views_laid_out (document : Document) (net : fetch_outcome E) (s : State) :
  exists recent,
    vis (submitForm document net s) = recent ++ vis s /\
    forall h c nodes edges opts,
      In (Created E h c nodes edges opts) recent ->
      match c with
      | Mindmap => Spec.force_directed opts
      | Flowchart => Spec.left_to_right opts
      end.
Proof.
  destruct (submitForm_keeps Spec.draws draws_refl draws_trans draws_untouched
              draws_mindmap draws_flowchart draws_fetch document net s)
    as (recent & Hvis & Hall).
  exists recent. split; [exact Hvis |].
  intros h c nodes edges opts Hin.
  rewrite Forall_forall in Hall. specialize (Hall _ Hin).
  destruct c; exact Hall.
Qed.

(** *** Ownership of the containers *)

Lemma consistent_refl (s : State) : Spec.stays_consistent s s.
Proof. intro H. exact H. Qed.

Lemma consistent_trans (a b c : State) :
  Spec.stays_consistent a b -> Spec.stays_consistent b c ->
  Spec.stays_consistent a c.
Proof. unfold Spec.stays_consistent. auto. Qed.

Lemma consistent_same_graphs (s s' : State) :
  mindmapNetwork s' = mindmapNetwork s ->
  flowchartNetwork s' = flowchartNetwork s ->
  vis s' = vis s ->
  Spec.stays_consistent s s'.
Proof.
  unfold Spec.stays_consistent, Spec.consistent.
  intros -> -> ->. auto.
Qed.

Lemma consistent_untouched (s s' : State) :
  Spec.untouched s s' -> Spec.stays_consistent s s'.
Proof.
  intros (H1 & H2 & H3 & _). apply consistent_same_graphs; assumption.
Qed.

Lemma consistent_fetch (rq : Request) (net : fetch_outcome E) :
  keeps Spec.stays_consistent (fetch E rq net).
Proof.
  intro s. apply consistent_same_graphs; unfold fetch; destruct net; reflexivity.
Qed.

Lemma mindmap_not_flowchart : Mindmap <> Flowchart.
Proof. discriminate. Qed.

Lemma consistent_mindmap (data : val E) :
  keeps Spec.stays_consistent (render_mindmap E data).
Proof.
  intro s. destruct (render_mindmap_effect data s) as [-> | (n & e & ->)].
  - apply consistent_refl.
  - intros (Hm & Hf & Hex & Hwn).
    pose proof (VisFacts.redraw_log E (vis s) Mindmap Flowchart
                  (mindmapNetwork s) (flowchartNetwork s) n e visOptions
                  mindmap_not_flowchart Hm Hf Hex Hwn) as H.
    cbv zeta in H. destruct H as (Hm' & Hf' & Hex' & Hwn').
    unfold Spec.consistent.
    cbn [mindmapNetwork flowchartNetwork vis set_mindmapNetwork set_vis].
    exact (conj Hm' (conj Hf' (conj Hex' Hwn'))).
Qed.

Lemma consistent_flowchart (data : val E) :
  keeps Spec.stays_consistent (render_flowchart E data).
Proof.
  intro s. destruct (render_flowchart_effect data s) as [-> | (n & e & ->)].
  - apply consistent_refl.
  - intros (Hm & Hf & Hex & Hwn).
    pose proof (VisFacts.redraw_log E (vis s) Flowchart Mindmap
                  (flowchartNetwork s) (mindmapNetwork s) n e
                  (make_hierarchical visOptions)
                  (not_eq_sym mindmap_not_flowchart) Hf Hm Hex Hwn) as H.
    cbv zeta in H. destruct H as (Hf' & Hm' & Hex' & Hwn').
    unfold Spec.consistent.
    cbn [mindmapNetwork flowchartNetwork vis set_flowchartNetwork set_vis].
    exact (conj Hm' (conj Hf' (conj Hex' Hwn'))).
Qed.

Lemma consistent_loaded (s : State) : loaded s -> Spec.consistent s.
Proof.
  intros (Hm & Hf & Hvis). unfold Spec.consistent, Spec.owns.
  rewrite Hm, Hf, Hvis. repeat split.
  - intros recent older H c. symmetry in H.
    apply app_eq_nil in H as [_ ->]. simpl. lia.
  - intros c h [].
  - intros c c' h _ [].
Qed.

Lemma consistent_submitForm (document : Document) (net : fetch_outcome E)
  (s : State) :
  Spec.consistent s -> Spec.consistent (submitForm document net s).
Proof.
  apply (submitForm_keeps Spec.stays_consistent consistent_refl consistent_trans
           consistent_untouched consistent_mindmap consistent_flowchart
           consistent_fetch).
Qed.

Lemma consistent_submissions (l : list (Document * fetch_outcome E)) :
  forall s, Spec.consistent s -> Spec.consistent (submissions l s).
Proof.
  induction l as [| [document net] rest IH]; intros s H; simpl.
  - exact H.
  - apply IH, consistent_submitForm, H.
Qed.

(** C3. Start from the loaded script and submit the form any number of
    times, with any controls and any outcomes. At every moment of the
    chronicle at most one instance is alive on each container, and in the
    end the instances alive on a container are exactly the handle that the
    script stores for it. When [renderNetwork] is called on a container that
    exists, it destroys the previous handle, if there is one, and then
    creates the instance whose handle it returns. *)
Theorem one_live_instance_per_container
  (l : list (Document * fetch_outcome E)) (s0 : State) :
  loaded s0 ->
  let s := submissions l s0 in
  Spec.always_exclusive (vis s) /\
  Spec.owns (mindmapNetwork s) Mindmap (vis s) /\
  Spec.owns (flowchartNetwork s) Flowchart (vis s) /\
  forall c previous (graph : Graph E) hierarchical (st : State),
    exists h,
      fst (renderNetwork (Some c) previous graph hierarchical st)
      = Normal (Some h) /\
      Spec.replaces previous c h (vis st)
        (vis (snd (renderNetwork (Some c) previous graph hierarchical st))).
Proof.
  intros Hloaded s.
  destruct (consistent_submissions l s0 (consistent_loaded s0 Hloaded))
    as (Hm & Hf & Hex & _).
  split; [exact Hex |]. split; [exact Hm |]. split; [exact Hf |].
  intros c previous graph hierarchical st.
  rewrite renderNetwork_present. eexists. split; [reflexivity |].
  simpl. eexists. eexists. eexists. reflexivity.
Qed.

(** *** The request *)

Lemma same_requests_refl (s : State) : Spec.same_requests s s.
Proof. reflexivity. Qed.

Lemma same_requests_trans (a b c : State) :
  Spec.same_requests a b -> Spec.same_requests b c -> Spec.same_requests a c.
Proof. unfold Spec.same_requests. congruence. Qed.

Lemma same_requests_untouched (s s' : State) :
  Spec.untouched s s' -> Spec.same_requests s s'.
Proof. intros (_ & _ & _ & H & _). exact H. Qed.

Lemma same_requests_mindmap (data : val E) :
  keeps Spec.same_requests (render_mindmap E data).
Proof.
  intro s. destruct (render_mindmap_effect data s) as [-> | (n & e & ->)];
    reflexivity.
Qed.

Lemma same_requests_flowchart (data : val E) :
  keeps Spec.same_requests (render_flowchart E data).
Proof.
  intro s. destruct (render_flowchart_effect data s) as [-> | (n & e & ->)];
    reflexivity.
Qed.

(** Once the request has left, nothing touches the list of requests. *)
Lemma same_requests_respond (res : Response E) :
  keeps Spec.same_requests (respond E res).
Proof.
  apply (respond_keeps Spec.same_requests same_requests_refl same_requests_trans
           same_requests_untouched same_requests_mindmap same_requests_flowchart).
Qed.

Lemma requests_attempt (document : Document) (net : fetch_outcome E) (s : State)
  (selection : list File) :
  selected (or_element (document (units "files")) (document (units "fileInput")))
  = Some selection ->
  requests (snd (attempt E document net s)) =
  {| url := units "/api/process"; method := units "POST";
     req_body := assemble document selection;
     credentials := units "same-origin" |} :: requests s.
Proof.
  intro Hsel. unfold attempt. rewrite Hsel. unfold bind, fetch.
  destruct net as [e | res]; [reflexivity |].
  match goal with
  | |- context [respond E res ?s1] =>
      pose proof (same_requests_respond res s1) as H;
      destruct (respond E res s1) as [[[] | err] s2]
  end; exact H.
Qed.

Lemma requests_submitForm (document : Document) (net : fetch_outcome E) (s : State) :
  requests (submitForm document net s) =
  requests (snd (attempt E document net (setBusy true Process (setStatus [] s)))).
Proof.
  unfold submitForm, bind, modify, try_finally, try_catch.
  destruct (attempt E document net (setBusy true Process (setStatus [] s)))
    as [[[] | err] s2]; cbn [snd].
  - apply (untouched_setBusy false Process s2).
  - pose proof (quiet_report err s2) as (_ & _ & _ & Hr & _).
    destruct (report E err s2) as [c s3]. cbn [snd] in *.
    rewrite <- Hr. apply (untouched_setBusy false Process s3).
Qed.

Lemma carried_files (name : jsstring) (selection : list File) (rest : FormData) :
  Spec.carried name
    (map (fun f => (units "files", FileEntry f)) selection ++ rest) =
  (if str_eqb (units "files") name then map FileEntry selection else []) ++
  Spec.carried name rest.
Proof.
  unfold Spec.carried. rewrite filter_app, map_app. f_equal.
  induction selection as [| f fs IH]; simpl.
  - destruct (str_eqb (units "files") name); reflexivity.
  - change (str_eqb (fst (units "files", FileEntry f)) name)
      with (str_eqb (units "files") name).
    destruct (str_eqb (units "files") name); simpl; [f_equal |]; exact IH.
Qed.

Lemma value_or_default (input : option Element) (dflt : jsstring) :
  value_or input dflt = Spec.default_to dflt (Spec.typed input).
Proof.
  destruct input as [[[[| c v] |] ? ?] |]; reflexivity.
Qed.

Lemma or_element_either (document : Document) (id alternate : string) :
  or_element (document (units id)) (document (units alternate))
  = Spec.either document id alternate.
Proof. unfold or_element, Spec.either. destruct (document (units id)); reflexivity. Qed.

(** C9. When at least one file is selected, [submitForm] sends one request,
    a POST to [/api/process], whose form carries the files, [lang] with the
    value typed or [en] when the control is absent or empty, [top_k] with
    default [15], [ocr_engine] with default [gcv], and [messy] once, with
    value [true], if the box is ticked, and not at all otherwise. *)
Theorem upload_request_fields (document : Document) (net : fetch_outcome E)
  (s : State) (input : Element) (f : File) (fs : list File) :
  Spec.either document "files" "fileInput" = Some input ->
  files input = Some (f :: fs) ->
  exists rq,
    requests (submitForm document net s) = rq :: requests s /\
    url rq = units "/api/process" /\
    method rq = units "POST" /\
    Spec.carried (units "files") (req_body rq) = map FileEntry (f :: fs) /\
    Spec.carried (units "lang") (req_body rq) =
      [TextEntry (Spec.default_to (units "en")
                    (Spec.typed (Spec.either document "lang" "ocrLang")))] /\
    Spec.carried (units "top_k") (req_body rq) =
      [TextEntry (Spec.default_to (units "15")
                    (Spec.typed (Spec.either document "top_k" "topConcepts")))] /\
    Spec.carried (units "ocr_engine") (req_body rq) =
      [TextEntry (Spec.default_to (units "gcv")
                    (Spec.typed (document (units "ocrEngine"))))] /\
    Spec.carried (units "messy") (req_body rq) =
      if Spec.ticked (Spec.either document "messy" "messyMode")
      then [TextEntry (units "true")] else [].
Proof.
  intros Hinput Hfiles.
  assert (Hsel : selected (or_element (document (units "files"))
                             (document (units "fileInput"))) = Some (f :: fs)).
  { rewrite or_element_either, Hinput. unfold selected. rewrite Hfiles.
    reflexivity. }
  eexists. split.
  - rewrite requests_submitForm, (requests_attempt _ _ _ _ Hsel).
    f_equal. apply (untouched_trans _ _ _ (untouched_setStatus [] s)
                      (untouched_setBusy true Process _)).
  - cbn [url method req_body]. unfold assemble.
    rewrite !or_element_either, !value_or_default.
    split; [reflexivity |]. split; [reflexivity |].
    rewrite !carried_files.
    change (is_checked (Spec.either document "messy" "messyMode"))
      with (Spec.ticked (Spec.either document "messy" "messyMode")).
    destruct (Spec.ticked (Spec.either document "messy" "messyMode"));
      repeat split; try reflexivity; apply app_nil_r.
Qed.

(** *** Submitting without a file *)

Lemma statusEl_setStatus (msg : jsstring) (s : State) :
  statusEl (setStatus msg s) =
  match statusEl s with
  | Some _ => Some msg
  | None => None
  end.
Proof. unfold setStatus. destruct (statusEl s) eqn:H; [reflexivity | exact H]. Qed.

Lemma statusEl_setBusy (busy : bool) (label : jsstring) (s : State) :
  statusEl (setBusy busy label s) = statusEl s.
Proof. unfold setBusy. destruct (processBtn s); reflexivity. Qed.

Lemma processBtn_setStatus (msg : jsstring) (s : State) :
  processBtn (setStatus msg s) = processBtn s.
Proof. unfold setStatus. destruct (statusEl s); reflexivity. Qed.

Lemma processBtn_setBusy (busy : bool) (label : jsstring) (s : State) :
  processBtn (setBusy busy label s) =
  match processBtn s with
  | Some _ =>
      Some {| disabled := busy;
              textContent := if busy then Processing else label |}
  | None => None
  end.
Proof. unfold setBusy. destruct (processBtn s) eqn:H; [reflexivity | exact H]. Qed.

Lemma textEl_setStatus (msg : jsstring) (s : State) :
  textEl (setStatus msg s) = textEl s.
Proof. unfold setStatus. destruct (statusEl s); reflexivity. Qed.

Lemma textEl_setBusy (busy : bool) (label : jsstring) (s : State) :
  textEl (setBusy busy label s) = textEl s.
Proof. unfold setBusy. destruct (processBtn s); reflexivity. Qed.

Lemma conceptsEl_setStatus (msg : jsstring) (s : State) :
  conceptsEl (setStatus msg s) = conceptsEl s.
Proof. unfold setStatus. destruct (statusEl s); reflexivity. Qed.

Lemma conceptsEl_setBusy (busy : bool) (label : jsstring) (s : State) :
  conceptsEl (setBusy busy label s) = conceptsEl s.
Proof. unfold setBusy. destruct (processBtn s); reflexivity. Qed.

Lemma nothing_selected (filesInput : option Element) :
  (forall input, filesInput = Some input ->
                 files input = None \/ files input = Some []) ->
  selected filesInput = None.
Proof.
  intro H. destruct filesInput as [input |]; [| reflexivity].
  unfold selected. destruct (H input eq_refl) as [-> | ->]; reflexivity.
Qed.

(** The state in which [submitForm] settles when nothing is selected. *)
Lemma submitForm_nothing_selected (document : Document) (net : fetch_outcome E)
  (s : State) :
  selected (or_element (document (units "files")) (document (units "fileInput")))
  = None ->
  submitForm document net s =
  setBusy false Process
    (setBusy false Process
       (setStatus (units "Please select at least one file.")
          (setBusy true Process (setStatus [] s)))).
Proof. intro H. unfold submitForm, attempt. rewrite H. reflexivity. Qed.

(** C5. When the file control is absent, or has no file list, or an empty
    one, [submitForm] sends no request; the status region, if the page has
    one, shows the validation message; the button, if the page has one, is
    enabled again under its idle label; and the text, the concepts, the two
    handles and the chronicle of the graph library are as before. *)
Theorem submit_without_files (document : Document) (net : fetch_outcome E)
  (s : State) :
  (forall input, Spec.either document "files" "fileInput" = Some input ->
                 files input = None \/ files input = Some []) ->
  let s' := submitForm document net s in
  requests s' = requests s /\
  statusEl s' =
    match statusEl s with
    | Some _ => Some (units "Please select at least one file.")
    | None => None
    end /\
  processBtn s' =
    match processBtn s with
    | Some _ => Some {| disabled := false; textContent := Process |}
    | None => None
    end /\
  textEl s' = textEl s /\
  conceptsEl s' = conceptsEl s /\
  mindmapNetwork s' = mindmapNetwork s /\
  flowchartNetwork s' = flowchartNetwork s /\
  vis s' = vis s.
Proof.
  intros Hnone. cbv zeta.
  rewrite <- or_element_either in Hnone. apply nothing_selected in Hnone.
  rewrite (submitForm_nothing_selected document net s Hnone).
  assert (Hquiet :
            Spec.untouched s
              (setBusy false Process
                 (setBusy false Process
                    (setStatus (units "Please select at least one file.")
                       (setBusy true Process (setStatus [] s)))))).
  { repeat (eapply untouched_trans;
            [| first [apply untouched_setBusy | apply untouched_setStatus]]).
    apply untouched_refl. }
  destruct Hquiet as (Hm & Hf & Hvis & Hreq & _).
  split; [exact Hreq |].
  split.
  { rewrite !statusEl_setBusy, statusEl_setStatus, statusEl_setBusy,
      statusEl_setStatus.
    destruct (statusEl s); reflexivity. }
  split.
  { rewrite !processBtn_setBusy, processBtn_setStatus, processBtn_setBusy,
      processBtn_setStatus.
    destruct (processBtn s); reflexivity. }
  split.
  { rewrite !textEl_setBusy, textEl_setStatus, textEl_setBusy, textEl_setStatus.
    reflexivity. }
  split.
  { rewrite !conceptsEl_setBusy, conceptsEl_setStatus, conceptsEl_setBusy,
      conceptsEl_setStatus.
    reflexivity. }
  split; [exact Hm |]. split; [exact Hf | exact Hvis].
Qed.

(** *** A container that is absent *)

(** C2, as the script has it. Called with an absent container,
    [renderNetwork] returns [null], whatever the previous handle, and
    changes nothing: no instance is created and the previous one is not
    destroyed. *)
Theorem renderNetwork_absent_container (previous : option handle)
  (graph : Graph E) (hierarchical : bool) (s : State) :
  fst (renderNetwork None previous graph hierarchical s) = Normal None /\
  snd (renderNetwork None previous graph hierarchical s) = s /\
  vis (snd (renderNetwork None previous graph hierarchical s)) = vis s.
Proof. repeat split. Qed.

(** *** A failed status with a JSON body *)

(** Whenever the status is not ok, the content type is JSON and the response
    has a body, the message that [submitForm] decodes is thrown inside the
    [try] whose [catch] reads the body a second time: what reaches the
    status region is the message of that second read, whatever the body
    says. *)
Lemma check_status_masks (res : Response E) (b : Body E) (s : State) :
  ok res = false ->
  is_json (content_type res) = true ->
  body res = Some b ->
  bodyUsed s = false ->
  check_status E res s =
  (Throw {| exn_name := TypeError; message := msg_body_used E |},
   set_bodyUsed true s).
Proof.
  intros Hok Hjson Hbody Hfresh.
  unfold check_status. rewrite Hok, Hjson. cbn [negb].
  unfold try_catch, bind, res_json, res_text, read_json, read_text,
    throw_Error, throw, lift.
  rewrite Hbody, Hfresh.
  destruct (body_json b) as [errorData |]; cbn [bodyUsed set_bodyUsed];
    [destruct (get E errorData (units "error")) as [error | e];
     [destruct (to_string E (or_else E error (VStr (HTTP_status E res)))) |] |];
    reflexivity.
Qed.

Lemma decoded_error_masked (document : Document) (res : Response E) (s : State)
  (selection : list File) (b : Body E) (shown : jsstring) :
  selected (or_element (document (units "files")) (document (units "fileInput")))
  = Some selection ->
  ok res = false ->
  is_json (content_type res) = true ->
  body res = Some b ->
  statusEl s = Some shown ->
  statusEl (submitForm document (Responded res) s) =
  Some (message_or {| exn_name := TypeError; message := msg_body_used E |}
          (units "Failed to process")).
Proof.
  intros Hsel Hok Hjson Hbody Hstatus.
  unfold submitForm, attempt. rewrite Hsel.
  unfold try_finally, try_catch, bind, modify, fetch. cbn [fst snd].
  unfold respond, bind.
  erewrite (check_status_masks res b) by (eassumption || reflexivity).
  unfold report, bind, modify. cbn [fst snd].
  rewrite statusEl_setBusy, statusEl_setStatus.
  cbn [statusEl set_console set_bodyUsed set_requests].
  rewrite statusEl_setBusy, statusEl_setStatus, Hstatus. reflexivity.
Qed.

End Script.

(** C1, on the response of the specification: status 500, content type
    [application/json], body [{"error":"boom"}]. The status region does not
    show [boom]; it shows the message with which the engine refuses to read
    a body twice (or [Failed to process] if that message is empty), and so
    it shows the same for any other error text. *)
Theorem boom_is_masked (E : Engine) :
  statusEl (submitForm (Sample.document [Sample.notes_png] false)
              (Responded (Sample.boom E)) (Sample.page E)) =
  Some (match msg_body_used E with
        | [] => units "Failed to process"
        | c :: m => c :: m
        end).
Proof.
  apply (decoded_error_masked E (Sample.document [Sample.notes_png] false)
           (Sample.boom E) (Sample.page E) [Sample.notes_png]
           {| body_text := Sample.boom_text;
              body_json := Some (VObj [(units "error", VStr (units "boom"))]) |}
           []); reflexivity.
Qed.

(** With the messages of Chromium, the status region reads as follows. *)
Example boom_in_chromium :
  statusEl (submitForm (Sample.document [Sample.notes_png] false)
              (Responded (Sample.boom Sample.engine)) (Sample.page Sample.engine))
  = Some (units "Failed to execute 'text' on 'Response': body stream already read")
  /\
  statusEl (submitForm (Sample.document [Sample.notes_png] false)
              (Responded (Sample.boom Sample.engine)) (Sample.page Sample.engine))
  <> Some (units "boom").
Proof. split; [reflexivity | discriminate]. Qed.

(** C2 does not hold as stated: with a previous handle and no container,
    the handle returned is [null], not the previous one. *)
Lemma absent_container_drops_handle :
  fst (renderNetwork None (Some 0)
         ({| g_nodes := VArr []; g_edges := VArr [] |} : Graph Sample.engine)
         false (Sample.page Sample.engine))
  = Normal None /\
  fst (renderNetwork None (Some 0)
         ({| g_nodes := VArr []; g_edges := VArr [] |} : Graph Sample.engine)
         false (Sample.page Sample.engine))
  <> Normal (Some 0).
Proof. split; [reflexivity | discriminate]. Qed.

(** A successful answer with both graphs draws both views, the mind map
    force-directed and the flowchart hierarchical. *)
Example both_views_drawn (E : Engine) :
  vis (submitForm (Sample.document [Sample.notes_png] false)
         (Responded (Sample.both_graphs E)) (Sample.page E)) =
  [ Created E 1 Flowchart (VArr []) (VArr []) (make_hierarchical visOptions);
    Created E 0 Mindmap (VArr []) (VArr []) visOptions ].
Proof. reflexivity. Qed.

(** No file selected: nothing is sent and the validation message shows. *)
Lemma submit_without_files_sample :
  (forall input,
     Spec.either (Sample.document [] true) "files" "fileInput" = Some input ->
     files input = None \/ files input = Some []) /\
  requests (submitForm (Sample.document [] true)
              (Responded (Sample.both_graphs Sample.engine))
              (Sample.page Sample.engine)) = [] /\
  statusEl (submitForm (Sample.document [] true)
              (Responded (Sample.both_graphs Sample.engine))
              (Sample.page Sample.engine))
  = Some (units "Please select at least one file.").
Proof.
  assert (H : forall input,
             Spec.either (Sample.document [] true) "files" "fileInput"
             = Some input ->
             files input = None \/ files input = Some []).
  { intros input [= <-]. right. reflexivity. }
  split; [exact H |].
  destruct (submit_without_files Sample.engine (Sample.document [] true)
              (Responded (Sample.both_graphs Sample.engine))
              (Sample.page Sample.engine) H) as (Hreq & Hstatus & _).
  split; [exact Hreq | exact Hstatus].
Defined.

(** One file selected, the language typed, the other controls left empty,
    the box ticked. *)
Lemma upload_request_sample :
  Spec.either (Sample.document [Sample.notes_png] true) "files" "fileInput"
  = Some {| value := Some []; checked := false;
            files := Some [Sample.notes_png] |} /\
  exists rq,
    requests (submitForm (Sample.document [Sample.notes_png] true)
                (Responded (Sample.boom Sample.engine))
                (Sample.page Sample.engine)) = [rq] /\
    Spec.carried (units "lang") (req_body rq) = [TextEntry (units "fr")] /\
    Spec.carried (units "top_k") (req_body rq) = [TextEntry (units "15")] /\
    Spec.carried (units "ocr_engine") (req_body rq) = [TextEntry (units "gcv")] /\
    Spec.carried (units "messy") (req_body rq) = [TextEntry (units "true")].
Proof.
  split; [reflexivity |].
  destruct (upload_request_fields Sample.engine
              (Sample.document [Sample.notes_png] true)
              (Responded (Sample.boom Sample.engine))
              (Sample.page Sample.engine)
              {| value := Some []; checked := false;
                 files := Some [Sample.notes_png] |}
              Sample.notes_png [] eq_refl eq_refl)
    as (rq & Hrq & _ & _ & _ & Hlang & Htop & Hocr & Hmessy).
  exists rq. repeat split; assumption.
Defined.

(** Two successful submissions in a row, each carrying both graphs. *)
Lemma one_live_instance_twice :
  let twice := [ (Sample.document [Sample.notes_png] false,
                  Responded (Sample.both_graphs Sample.engine));
                 (Sample.document [Sample.notes_png] true,
                  Responded (Sample.both_graphs Sample.engine)) ] in
  loaded (Sample.page Sample.engine) /\
  Spec.always_exclusive (vis (submissions twice (Sample.page Sample.engine))) /\
  live_on Mindmap (vis (submissions twice (Sample.page Sample.engine))) = [3] /\
  live_on Flowchart (vis (submissions twice (Sample.page Sample.engine))) = [5].
Proof.
  intro twice.
  assert (Hloaded : loaded (Sample.page Sample.engine)) by (repeat split).
  destruct (one_live_instance_per_container Sample.engine twice
              (Sample.page Sample.engine) Hloaded) as (Hex & _).
  split; [exact Hloaded |]. split; [exact Hex |]. split; reflexivity.
Defined.

End AppProofs.

(** ** The earlier revision *)
Module LegacyProofs.

Import JS Vis App KeepsFacts.

(** *** Ownership of the containers in the earlier revision *)

Section Script.

Variable E : Engine.

Abbreviation State := (App.State E).

Lemma legacy_quiet_renderConcepts (list : list (val E)) :
  keeps Spec.untouched (Legacy.renderConcepts E list).
Proof.
  intro s. unfold Legacy.renderConcepts.
  destruct (conceptsEl s); [| repeat split].
  eapply AppProofs.untouched_trans; [| apply AppProofs.quiet_appendItems].
  repeat split.
Qed.

Lemma legacy_quiet_display_text (data : val E) :
  keeps Spec.untouched (Legacy.display_text E data).
Proof.
  intro s. unfold Legacy.display_text, bind, gets, lift, modify, throw.
  destruct (textEl s); [| repeat split].
  destruct (to_string E (text_of_data E data)); repeat split.
Qed.

Lemma legacy_quiet_display_concepts (data : val E) :
  keeps Spec.untouched (Legacy.display_concepts E data).
Proof.
  unfold Legacy.display_concepts.
  destruct (field data (units "keyphrases"));
    try apply legacy_quiet_renderConcepts;
    destruct (opt_field (field data (units "llm")) (units "concepts"));
    first [ apply legacy_quiet_renderConcepts
          | apply keeps_ret; exact (AppProofs.untouched_refl E) ].
Qed.

Lemma legacy_renderNetwork (c : container) (previous : option handle)
  (graph : Graph E) (hierarchical : bool) (s : State) :
  Legacy.renderNetwork c previous graph hierarchical s =
  (Normal (fresh (vacated previous (vis s))),
   set_vis
     (Created E (fresh (vacated previous (vis s))) c
        (or_else E (g_nodes graph) (VArr []))
        (or_else E (g_edges graph) (VArr []))
        (if hierarchical then make_hierarchical visOptions else visOptions)
      :: vacated previous (vis s)) s).
Proof. destruct previous; reflexivity. Qed.

Lemma legacy_render_mindmap_effect (data : val E) (s : State) :
  snd (Legacy.render_mindmap E data s) = s \/
  exists nodes edges,
    snd (Legacy.render_mindmap E data s) =
    set_mindmapNetwork (Some (fresh (vacated (mindmapNetwork s) (vis s))))
      (set_vis
         (Created E (fresh (vacated (mindmapNetwork s) (vis s))) Mindmap
            nodes edges visOptions
          :: vacated (mindmapNetwork s) (vis s)) s).
Proof.
  unfold Legacy.render_mindmap, bind, gets, modify. simpl.
  destruct (truthy E (field data (units "mindmap")) && mindmapEl s);
    [| left; reflexivity].
  rewrite legacy_renderNetwork. right. eexists. eexists. reflexivity.
Qed.

Lemma legacy_render_flowchart_effect (data : val E) (s : State) :
  snd (Legacy.render_flowchart E data s) = s \/
  exists nodes edges,
    snd (Legacy.render_flowchart E data s) =
    set_flowchartNetwork (Some (fresh (vacated (flowchartNetwork s) (vis s))))
      (set_vis
         (Created E (fresh (vacated (flowchartNetwork s) (vis s))) Flowchart
            nodes edges visOptions
          :: vacated (flowchartNetwork s) (vis s)) s).
Proof.
  unfold Legacy.render_flowchart, bind, gets, modify. simpl.
  destruct (truthy E (field data (units "flowchart")) && flowchartEl s);
    [| left; reflexivity].
  rewrite legacy_renderNetwork. right. eexists. eexists. reflexivity.
Qed.

Lemma legacy_consistent_mindmap (data : val E) :
  keeps Spec.stays_consistent (Legacy.render_mindmap E data).
Proof.
  intro s. destruct (legacy_render_mindmap_effect data s) as [-> | (n & e & ->)].
  - apply AppProofs.consistent_refl.
  - intros (Hm & Hf & Hex & Hwn).
    pose proof (VisFacts.redraw_log E (vis s) Mindmap Flowchart
                  (mindmapNetwork s) (flowchartNetwork s) n e visOptions
                  AppProofs.mindmap_not_flowchart Hm Hf Hex Hwn) as H.
    cbv zeta in H. destruct H as (Hm' & Hf' & Hex' & Hwn').
    unfold Spec.consistent.
    cbn [mindmapNetwork flowchartNetwork vis set_mindmapNetwork set_vis].
    exact (conj Hm' (conj Hf' (conj Hex' Hwn'))).
Qed.

Lemma legacy_consistent_flowchart (data : val E) :
  keeps Spec.stays_consistent (Legacy.render_flowchart E data).
Proof.
  intro s. destruct (legacy_render_flowchart_effect data s) as [-> | (n & e & ->)].
  - apply AppProofs.consistent_refl.
  - intros (Hm & Hf & Hex & Hwn).
    pose proof (VisFacts.redraw_log E (vis s) Flowchart Mindmap
                  (flowchartNetwork s) (mindmapNetwork s) n e visOptions
                  (not_eq_sym AppProofs.mindmap_not_flowchart) Hf Hm Hex Hwn) as H.
    cbv zeta in H. destruct H as (Hf' & Hm' & Hex' & Hwn').
    unfold Spec.consistent.
    cbn [mindmapNetwork flowchartNetwork vis set_flowchartNetwork set_vis].
    exact (conj Hm' (conj Hf' (conj Hex' Hwn'))).
Qed.

Ltac consistent_leaf :=
  first
    [ apply legacy_consistent_mindmap
    | apply legacy_consistent_flowchart
    | apply AppProofs.consistent_fetch
    | apply keeps_ret; exact (AppProofs.consistent_refl E)
    | apply keeps_throw_Error; exact (AppProofs.consistent_refl E)
    | apply keeps_lift; exact (AppProofs.consistent_refl E)
    | apply (keeps_weaken Spec.untouched Spec.stays_consistent);
      [ exact (AppProofs.consistent_untouched E)
      | first [ apply legacy_quiet_display_text
              | apply legacy_quiet_display_concepts
              | apply AppProofs.quiet_res_json
              | apply AppProofs.quiet_done
              | apply AppProofs.quiet_report
              | apply keeps_modify; intro;
                first [ apply AppProofs.untouched_setStatus
                      | apply AppProofs.untouched_setBusy ] ] ] ].

Ltac consistent_bind :=
  apply keeps_bind; [exact (AppProofs.consistent_trans E) | | intro].

Lemma legacy_consistent_show (data : val E) :
  keeps Spec.stays_consistent (Legacy.show E data).
Proof.
  unfold Legacy.show.
  consistent_bind; [consistent_leaf |].
  consistent_bind; [consistent_leaf |].
  consistent_bind; [consistent_leaf |].
  consistent_bind; [consistent_leaf |].
  consistent_leaf.
Qed.

Lemma legacy_consistent_respond (res : Response E) :
  keeps Spec.stays_consistent (Legacy.respond E res).
Proof.
  unfold Legacy.respond.
  consistent_bind; [consistent_leaf |].
  consistent_bind; [| apply legacy_consistent_show].
  destruct (negb (ok res)).
  - consistent_bind; [consistent_leaf |].
    consistent_bind; consistent_leaf.
  - consistent_bind; [consistent_leaf |].
    match goal with
    | |- context [truthy E ?error] => destruct (truthy E error)
    end; [consistent_bind |]; consistent_leaf.
Qed.

Lemma legacy_consistent_attempt (document : Document) (net : fetch_outcome E) :
  keeps Spec.stays_consistent (Legacy.attempt E document net).
Proof.
  unfold Legacy.attempt.
  consistent_bind; [consistent_leaf |].
  match goal with
  | |- context [files ?input] => destruct (files input) as [[| f fs] |]
  end.
  - consistent_bind; consistent_leaf.
  - consistent_bind; [consistent_leaf |].
    consistent_bind; [consistent_leaf |].
    apply legacy_consistent_respond.
  - consistent_bind; consistent_leaf.
Qed.

Lemma legacy_consistent_submitForm (document : Document) (net : fetch_outcome E)
  (s : State) :
  Spec.consistent s -> Spec.consistent (Legacy.submitForm document net s).
Proof.
  assert (H : keeps Spec.stays_consistent
                (bind (modify (setStatus []))
                   (fun _ => bind (modify (setBusy true Process))
                      (fun _ => try_finally
                                  (try_catch (Legacy.attempt E document net)
                                     (Legacy.report E))
                                  (setBusy false Process))))).
  { consistent_bind; [consistent_leaf |].
    consistent_bind; [consistent_leaf |].
    apply keeps_try_finally; [exact (AppProofs.consistent_trans E) | |].
    - apply keeps_try_catch;
        [exact (AppProofs.consistent_trans E) | apply legacy_consistent_attempt |].
      intro err. unfold Legacy.report.
      consistent_bind; [| consistent_leaf].
      apply (keeps_weaken Spec.untouched Spec.stays_consistent);
        [exact (AppProofs.consistent_untouched E) |].
      apply keeps_modify. intro s'. repeat split.
    - intro s'. apply AppProofs.consistent_untouched, AppProofs.untouched_setBusy. }
  apply H.
Qed.

(** The earlier revision keeps the containers exclusively owned as well:
    its [renderNetwork] has the same destroy-then-create order. *)
Lemma legacy_one_live_instance (l : list (Document * fetch_outcome E)) :
  forall s, Spec.consistent s -> Spec.consistent (Legacy.submissions l s).
Proof.
  induction l as [| [document net] rest IH]; intros s H; simpl.
  - exact H.
  - apply IH, legacy_consistent_submitForm, H.
Qed.

End Script.

(** On the response of C1 the earlier revision shows [boom]: it decodes the
    body once and throws outside any inner [try]. *)
Lemma legacy_shows_boom (E : Engine) :
  statusEl (Legacy.submitForm (Sample.document [Sample.notes_png] false)
              (Responded (Sample.boom E)) (Sample.page E))
  = Some (units "boom").
Proof. reflexivity. Qed.

(** The earlier revision draws the flowchart with the options of the mind
    map: no hierarchical layout. *)
Lemma legacy_flowchart_not_hierarchical (E : Engine) :
  vis (Legacy.submitForm (Sample.document [Sample.notes_png] false)
         (Responded (Sample.both_graphs E)) (Sample.page E)) =
  [ Created E 1 Flowchart (VArr []) (VArr []) visOptions;
    Created E 0 Mindmap (VArr []) (VArr []) visOptions ].
Proof. reflexivity. Qed.

(** Without a file it behaves like the current revision, provided the file
    control exists. *)
Lemma legacy_without_files (E : Engine) :
  let s' := Legacy.submitForm (Sample.document [] false)
              (Responded (Sample.both_graphs E)) (Sample.page E) in
  requests s' = [] /\
  statusEl s' = Some (units "Please select at least one file.").
Proof. split; reflexivity. Qed.

(** A control that the page does not have stops the earlier revision before
    the request is sent: it has no default for an absent control. *)
Lemma legacy_needs_every_control :
  let bare : Document :=
    fun id =>
      if str_eqb id (units "files")
      then Some {| value := Some []; checked := false;
                   files := Some [Sample.notes_png] |}
      else None in
  requests (Legacy.submitForm bare
              (Responded (Sample.both_graphs Sample.engine))
              (Sample.page Sample.engine)) = [] /\
  statusEl (Legacy.submitForm bare
              (Responded (Sample.both_graphs Sample.engine))
              (Sample.page Sample.engine))
  = Some (units "Cannot read properties of null (reading 'value')") /\
  Spec.carried (units "lang")
    (match requests (submitForm bare
                       (Responded (Sample.both_graphs Sample.engine))
                       (Sample.page Sample.engine)) with
     | rq :: _ => req_body rq
     | [] => []
     end) = [TextEntry (units "en")].
Proof. repeat split. Qed.

End LegacyProofs.

(** ** [frontend/auth.js] *)
Module AuthProofs.

Import JS RegexFacts Auth.

(** *** Sign-up validation *)








(** Boundary values: a user name of exactly three code units passes and one
    of two does not; a password scoring exactly 3 passes and one scoring 2
    does not. *)
Example signup_boundaries :
  let enabled (email user pw : string) :=
    negb (signupBtn_disabled
            (validateSignup (Sample.typed email user pw) Sample.signed_in)) in
  enabled "ada@example.org"%string "abc"%string "abcde1"%string = true /\
  enabled "ada@example.org"%string " ab "%string "abcde1"%string = false /\
  strength (units "abcde1") = 3 /\
  enabled "ada@example.org"%string "abc"%string "abcdef"%string = false /\
  strength (units "abcdef") = 2 /\
  enabled "ada@example"%string "abc"%string "abcde1"%string = false /\
  strength (units "Abcde1!") = 5.
Proof. vm_compute. repeat split. Qed.

(** *** Requests *)

Section Requests.

Variable E : Engine.

Lemma json_or_null_parsed (res : Response E) :
  json_or_null E res =
  match parsed res with
  | Some data => data
  | None => VNull
  end.
Proof.
  unfold json_or_null, read_json, parsed.
  destruct (body res) as [b |]; [destruct (body_json b) |]; reflexivity.
Qed.

(** The value that [fetchJSON] hands to [new Error] is the blamed one. *)
Lemma blamed_chosen (res : Response E) :
  let data := json_or_null E res in
  or_else E
    (and_then E data
       (or_else E (field data (units "error")) (field data (units "message"))))
    (VStr (units "HTTP " ++ decimal (status res)))
  = Session.blamed res.
Proof.
  cbv zeta. rewrite json_or_null_parsed. unfold Session.blamed, and_then, or_else.
  destruct (parsed res) as [data |]; [| reflexivity].
  destruct (truthy E data) eqn:Hdata; cbn [andb];
    [| rewrite ?Hdata; reflexivity].
  destruct (truthy E (field data (units "error"))) eqn:Herror;
    [rewrite ?Herror; reflexivity |].
  destruct (truthy E (field data (units "message"))) eqn:Hmessage;
    rewrite ?Hmessage; reflexivity.
Qed.

(** What [fetchJSON] does with an answer: the request is sent; with an ok
    status the body comes back, parsed or [null]; with another status the
    failure is thrown. *)
Lemma fetchJSON_run (url : jsstring) (opts : Init) (res : Response E)
  (s : State) :
  fetchJSON url opts (Responded res) s =
  (if ok res then Normal (json_or_null E res)
   else Throw (Session.failure (Responded res)),
   set_requests ({| Auth.url := url; method := init_method opts;
                    req_body := init_body opts |} :: requests s) s).
Proof.
  unfold fetchJSON, fetch, bind. cbn [fst snd].
  destruct (ok res); [reflexivity |]. cbn [negb].
  rewrite blamed_chosen. unfold lift, to_string, Session.failure.
  destruct (convertible (Session.blamed res)); reflexivity.
Qed.

(** C10. For a response that arrived, [fetchJSON] raises if and only if the
    status is not ok. With an ok status it returns what the body parses to,
    and [null] when the body is not JSON. With another status it raises:
    an [Error] whose message is the [error] field of the parsed body if
    that is truthy, else its [message] field if that is truthy, else [HTTP]
    followed by the status. The field becomes the message by conversion to
    a string; a field that does not convert (an object with a [toString]
    entry of its own) makes the engine's TypeError the exception raised. *)
Theorem fetchJSON_raises_iff_not_ok (url : jsstring) (opts : Init)
  (res : Response E) (s : State) :
  let r := fst (fetchJSON url opts (Responded res) s) in
  let raised m := r = Throw {| exn_name := Error; message := m |} in
  let refused v :=
    r = Throw {| exn_name := TypeError; message := msg_not_primitive E v |} in
  throws r = negb (ok res) /\
  (ok res = true ->
   (forall data, parsed res = Some data -> r = Normal data) /\
   (parsed res = None -> r = Normal VNull)) /\
  (ok res = false ->
   (forall data, parsed res = Some data -> truthy E data = true ->
      let error := field data (units "error") in
      let message := field data (units "message") in
      (truthy E error = true ->
       (convertible error = true -> raised (printed E error)) /\
       (convertible error = false -> refused error)) /\
      (truthy E error = false -> truthy E message = true ->
       (convertible message = true -> raised (printed E message)) /\
       (convertible message = false -> refused message)) /\
      (truthy E error = false -> truthy E message = false ->
       raised (units "HTTP " ++ decimal (status res)))) /\
   (forall data, parsed res = Some data -> truthy E data = false ->
      raised (units "HTTP " ++ decimal (status res))) /\
   (parsed res = None -> raised (units "HTTP " ++ decimal (status res)))).
Proof.
  cbv zeta. rewrite fetchJSON_run. cbn [fst].
  destruct (ok res) eqn:Hok; cbn [negb throws].
  - split; [reflexivity |]. split; [| discriminate].
    intros _. rewrite json_or_null_parsed. split.
    + intros data ->. reflexivity.
    + intros ->. reflexivity.
  - split; [reflexivity |]. split; [discriminate |].
    intros _. unfold Session.failure, Session.blamed. split; [| split].
    + intros data -> Hdata. rewrite Hdata. cbn [andb]. split; [| split].
      * intros ->. split; intros ->; reflexivity.
      * intros -> ->. split; intros ->; reflexivity.
      * intros -> ->. reflexivity.
    + intros data -> ->. reflexivity.
    + intros ->. reflexivity.
Qed.

(** A transport failure reaches the caller of [fetchJSON] as well: the
    rejection of [fetch] is not caught there. *)
Lemma fetchJSON_rejected (url : jsstring) (opts : Init) (e : exn) (s : State) :
  fst (fetchJSON url opts (Rejected e : fetch_outcome E) s) = Throw e.
Proof. reflexivity. Qed.

(** What [authMe] makes of a response: the [user] of a body that parses and
    whose [ok] is truthy, [null] otherwise. *)
Lemma session_of_response (res : Response E) (s : State) :
  fst (authMe (Responded res) s) =
  Normal
    match parsed res with
    | Some data =>
        if truthy E data && truthy E (field data (units "ok"))
        then field data (units "user")
        else VNull
    | None => VNull
    end.
Proof.
  unfold authMe, fetch, bind, ret. simpl. rewrite json_or_null_parsed.
  unfold and_then.
  destruct (parsed res) as [data |]; [| reflexivity].
  destruct (truthy E data) eqn:Hd; simpl; [reflexivity |].
  rewrite Hd. reflexivity.
Qed.

(** C4, as the script has it. For every response to the session probe,
    whatever its status, [authMe] raises nothing: it returns the [user] of
    the body when the body parses and its [ok] is truthy, and [null] when
    the body does not parse or [ok] is not truthy. The status plays no
    part. *)
Theorem authMe_of_response (res : Response E) (s : State) :
  let r := fst (authMe (Responded res) s) in
  throws r = false /\
  (parsed res = None -> r = Normal VNull) /\
  (forall data, parsed res = Some data ->
     (truthy E (field data (units "ok")) = false -> r = Normal VNull) /\
     (truthy E data = true -> truthy E (field data (units "ok")) = true ->
      r = Normal (field data (units "user")))) /\
  (forall res', parsed res' = parsed res ->
     fst (authMe (Responded res') s) = r).
Proof.
  cbv zeta. rewrite session_of_response. repeat split.
  - intros ->. reflexivity.
  - intros Hok. rewrite H, Hok, andb_false_r. reflexivity.
  - intros Hdata Hok. rewrite H, Hdata, Hok. reflexivity.
  - intros res' Hsame. rewrite session_of_response, Hsame. reflexivity.
Qed.

End Requests.

(** C4 does not hold of a transport failure, nor of a failed status: the
    rejection of [fetch] leaves [authMe] as an exception, and a body that
    says [ok] is believed under status 500. *)
Lemma authMe_propagates_rejection :
  fst (@authMe Sample.engine (Rejected Sample.failed_to_fetch) Sample.signed_in)
  = Throw Sample.failed_to_fetch /\
  ok (Sample.stale_session Sample.engine) = false /\
  fst (authMe (Responded (Sample.stale_session Sample.engine)) Sample.signed_in)
  = Normal (VObj [(units "username", VStr (units "ada"))]).
Proof. repeat split. Qed.

(** *** The session gate *)

Lemma findProcessBtn_disable_found (d : bool) (c : Controls) :
  findProcessBtn (disable_found d c) =
  match findProcessBtn c with
  | Some _ => Some {| disabled := d |}
  | None => None
  end.
Proof.
  unfold findProcessBtn, disable_found, findUploadForm, or_form, with_submit.
  destruct c as [btn f1 f2 f3 f4]; simpl.
  destruct btn; [reflexivity |].
  destruct f1 as [[[b1 |]] |]; simpl; try reflexivity.
  destruct f2 as [[[b2 |]] |]; simpl; try reflexivity.
  destruct f3 as [[[b3 |]] |]; simpl; try reflexivity.
  destruct f4 as [[[b4 |]] |]; reflexivity.
Qed.

(** After [enableControlsIfPresent], the disabled flag of the submission
    control is the negation of [loggedIn]. *)
Lemma enableControlsIfPresent_gate (s : State) (b : Button) :
  findProcessBtn (controls (enableControlsIfPresent s)) = Some b ->
  disabled b = negb (loggedIn s).
Proof.
  unfold enableControlsIfPresent. simpl.
  rewrite findProcessBtn_disable_found.
  destruct (findProcessBtn (controls s)); [| discriminate].
  intros [= <-]. reflexivity.
Qed.

Section Gate.

Variable E : Engine.

(** The state in which the logout request has settled differs from the
    state of the click in the requests sent only. *)
Lemma logout_unfold (net : fetch_outcome E) (s : State) :
  exists rq,
    logout net s =
    (if REQUIRE_LOGIN then showOverlay else fun s => s)
      (snd (setLoggedIn E VNull (set_requests (rq :: requests s) s))).
Proof.
  eexists. destruct net as [e | res].
  - unfold logout, try_catch, fetchJSON, fetch, bind, ret. reflexivity.
  - unfold logout, try_catch, bind. rewrite fetchJSON_run.
    destruct (ok res); reflexivity.
Qed.

(** C6. Whatever the outcome of the logout request (rejection, any status,
    any body), once the handler has settled the gate is unauthenticated:
    the session chip is empty and hidden, the submission control, if the
    page has one, is disabled, and, login being required, the overlay is
    visible. *)
Theorem logout_unauthenticated (net : fetch_outcome E) (s : State) :
  let s' := logout net s in
  loggedIn s' = false /\
  userChipName s' = [] /\
  userChip_show s' = false /\
  (forall b, findProcessBtn (controls s') = Some b -> disabled b = true) /\
  (REQUIRE_LOGIN = true ->
   overlay_display s' = units "flex" /\ isVisible s' = true).
Proof.
  cbv zeta. destruct (logout_unfold net s) as [rq ->].
  unfold REQUIRE_LOGIN, showOverlay, setLoggedIn, clearAlerts, bind, modify;
    simpl.
  repeat split.
  intro b. rewrite findProcessBtn_disable_found.
  destruct (findProcessBtn (controls s)); [| discriminate].
  intros [= <-]. reflexivity.
Qed.

End Gate.

(** A wrong password under status 401 raises with the [error] of the body;
    an [error] that is an object with a [toString] entry of its own, under
    status 500, raises the TypeError of the conversion. *)
Lemma fetchJSON_raises_sample :
  let opts := {| init_method := Some (units "POST"); init_body := None |} in
  let stubborn :=
    Visits.answer 500 (VObj [(units "error", Cases.stubborn Sample.engine)]) in
  fst (fetchJSON (units "/auth/login") opts (Responded Visits.wrong_password)
         (AuthUI.base Visits.mounted))
  = Throw {| exn_name := Error; message := units "Invalid credentials" |} /\
  fst (fetchJSON (units "/auth/login") opts (Responded stubborn)
         (AuthUI.base Visits.mounted))
  = Throw {| exn_name := TypeError;
             message := units "Cannot convert object to primitive value" |}.
Proof.
  cbv zeta. split.
  - destruct (fetchJSON_raises_iff_not_ok Sample.engine (units "/auth/login")
                {| init_method := Some (units "POST"); init_body := None |}
                Visits.wrong_password (AuthUI.base Visits.mounted))
      as (_ & _ & Hraises).
    destruct (Hraises eq_refl) as (Hparsed & _).
    destruct (Hparsed _ eq_refl eq_refl) as (Herror & _).
    exact (proj1 (Herror eq_refl) eq_refl).
  - destruct (fetchJSON_raises_iff_not_ok Sample.engine (units "/auth/login")
                {| init_method := Some (units "POST"); init_body := None |}
                (Visits.answer 500
                   (VObj [(units "error", Cases.stubborn Sample.engine)]))
                (AuthUI.base Visits.mounted))
      as (_ & _ & Hraises).
    destruct (Hraises eq_refl) as (Hparsed & _).
    destruct (Hparsed _ eq_refl eq_refl) as (Herror & _).
    exact (proj2 (Herror eq_refl) eq_refl).
Defined.

End AuthProofs.

(** ** More of [frontend/app.js] *)
Module AppMore.

Import JS Vis App KeepsFacts.

Section Script.

Variable E : Engine.

Abbreviation State := (App.State E).

(** *** A relation kept by every write is kept by [submitForm] *)

Section Footprint.

Variable R : State -> State -> Prop.
Hypothesis R_refl : forall s, R s s.
Hypothesis R_trans : forall a b c, R a b -> R b c -> R a c.
Hypothesis R_status : forall msg s, R s (setStatus msg s).
Hypothesis R_busy : forall busy label s, R s (setBusy busy label s).
Hypothesis R_text :
  forall x s, textEl s <> None -> R s (set_textEl (Some x) s).
Hypothesis R_concepts :
  forall x s, conceptsEl s <> None -> R s (set_conceptsEl (Some x) s).
Hypothesis R_console : forall x s, R s (set_console x s).
Hypothesis R_bodyUsed : forall x s, R s (set_bodyUsed x s).
Hypothesis R_requests : forall x s, R s (set_requests x s).
Hypothesis R_vis : forall x s, R s (set_vis x s).
Hypothesis R_mindmapNetwork : forall x s, R s (set_mindmapNetwork x s).
Hypothesis R_flowchartNetwork : forall x s, R s (set_flowchartNetwork x s).

Ltac bind_step := apply keeps_bind; [exact R_trans | | intro].

Lemma every_appendItems (list : list (val E)) : keeps R (appendItems E list).
Proof.
  induction list as [| item rest IH]; simpl.
  - apply keeps_ret, R_refl.
  - bind_step; [apply keeps_lift, R_refl |].
    bind_step; [| exact IH].
    apply keeps_modify. intro s. destruct (conceptsEl s) eqn:H.
    + apply R_concepts. congruence.
    + apply R_refl.
Qed.

Lemma every_renderConcepts (list : list (val E)) : keeps R (renderConcepts list).
Proof.
  intro s. unfold renderConcepts. destruct (conceptsEl s) eqn:H.
  - eapply R_trans; [| apply every_appendItems]. apply R_concepts. congruence.
  - apply R_refl.
Qed.

Lemma every_res_json (res : Response E) : keeps R (res_json E res).
Proof.
  intro s. unfold res_json. destruct (read_json res (bodyUsed s)).
  apply R_bodyUsed.
Qed.

Lemma every_res_text (res : Response E) : keeps R (res_text E res).
Proof.
  intro s. unfold res_text. destruct (read_text res (bodyUsed s)).
  apply R_bodyUsed.
Qed.

Lemma every_check_status (res : Response E) : keeps R (check_status E res).
Proof.
  unfold check_status.
  destruct (negb (ok res)); [| apply keeps_ret, R_refl].
  destruct (is_json (content_type res)).
  - apply keeps_try_catch; [exact R_trans | | intro].
    + bind_step; [apply every_res_json |].
      bind_step; [apply keeps_lift, R_refl |].
      bind_step; [apply keeps_lift, R_refl | apply keeps_throw_Error, R_refl].
    + bind_step; [apply every_res_text | apply keeps_throw_Error, R_refl].
  - bind_step; [apply every_res_text | apply keeps_throw_Error, R_refl].
Qed.

Lemma every_check_content_type (res : Response E) :
  keeps R (check_content_type E res).
Proof.
  unfold check_content_type.
  destruct (negb (is_json (content_type res))); [| apply keeps_ret, R_refl].
  bind_step; [apply every_res_text | apply keeps_throw_Error, R_refl].
Qed.

Lemma every_report (err : exn) : keeps R (report E err).
Proof.
  unfold report. bind_step; apply keeps_modify; intro s;
    [apply R_console | apply R_status].
Qed.

Lemma every_display_text (data : val E) : keeps R (display_text E data).
Proof.
  intro s. unfold display_text, bind, gets, lift, modify, ret.
  destruct (textEl s) eqn:H; [| apply R_refl].
  destruct (to_string E (text_of_data E data)); cbn [snd];
    [apply R_text; congruence | apply R_refl].
Qed.

Lemma every_done (data : val E) : keeps R (done E data).
Proof.
  unfold done.
  bind_step; [apply keeps_lift, R_refl |].
  bind_step; [apply keeps_lift, R_refl |].
  apply keeps_modify. intro s. apply R_status.
Qed.

Lemma every_display_concepts (data : val E) : keeps R (display_concepts E data).
Proof.
  unfold display_concepts.
  destruct (field data (units "keyphrases"));
    try apply every_renderConcepts;
    destruct (opt_field (field data (units "llm")) (units "concepts"));
    first [ apply every_renderConcepts | apply keeps_ret, R_refl ].
Qed.

Lemma every_render_mindmap (data : val E) : keeps R (render_mindmap E data).
Proof.
  intro s. rewrite AppProofs.render_mindmap_run. cbn [snd].
  destruct (truthy E (field data (units "mindmap")) && mindmapEl s).
  - eapply R_trans; [apply R_vis | apply R_mindmapNetwork].
  - apply R_refl.
Qed.

Lemma every_render_flowchart (data : val E) : keeps R (render_flowchart E data).
Proof.
  intro s. rewrite AppProofs.render_flowchart_run. cbn [snd].
  destruct (truthy E (field data (units "flowchart")) && flowchartEl s).
  - eapply R_trans; [apply R_vis | apply R_flowchartNetwork].
  - apply R_refl.
Qed.

Lemma every_show (data : val E) : keeps R (show E data).
Proof.
  unfold show.
  bind_step; [apply every_display_text |].
  bind_step; [apply every_display_concepts |].
  bind_step; [apply every_render_mindmap |].
  bind_step; [apply every_render_flowchart |].
  apply every_done.
Qed.

Lemma every_respond (res : Response E) : keeps R (respond E res).
Proof.
  unfold respond.
  bind_step; [apply every_check_status |].
  bind_step; [apply every_check_content_type |].
  bind_step; [apply every_res_json |].
  bind_step; [apply keeps_lift, R_refl |].
  bind_step; [| apply every_show].
  match goal with
  | |- context [truthy E ?error] => destruct (truthy E error)
  end; [| apply keeps_ret; exact R_refl].
  bind_step; [apply keeps_lift, R_refl | apply keeps_throw_Error, R_refl].
Qed.

Lemma every_fetch (rq : Request) (net : fetch_outcome E) :
  keeps R (fetch E rq net).
Proof.
  intro s. unfold fetch. destruct net; cbn [snd].
  - apply R_requests.
  - eapply R_trans; [apply R_requests | apply R_bodyUsed].
Qed.

Lemma every_attempt (document : Document) (net : fetch_outcome E) :
  keeps R (attempt E document net).
Proof.
  unfold attempt. destruct (selected _).
  - bind_step; [apply every_fetch | apply every_respond].
  - bind_step; apply keeps_modify; intro s; [apply R_status | apply R_busy].
Qed.

Lemma every_submitForm (document : Document) (net : fetch_outcome E) (s : State) :
  R s (submitForm document net s).
Proof.
  unfold submitForm.
  assert (H : keeps R
                (bind (modify (setStatus []))
                   (fun _ => bind (modify (setBusy true Process))
                      (fun _ => try_finally
                                  (try_catch (attempt E document net) (report E))
                                  (setBusy false Process))))).
  { bind_step; [apply keeps_modify; intro; apply R_status |].
    bind_step; [apply keeps_modify; intro; apply R_busy |].
    apply keeps_try_finally; [exact R_trans | | intro; apply R_busy].
    apply keeps_try_catch; [exact R_trans | apply every_attempt |].
    intro err. apply every_report. }
  apply H.
Qed.

End Footprint.

(** *** The elements of the page *)

Lemma same_elements_refl (s : State) : More.same_elements s s.
Proof. repeat split. Qed.

Lemma same_elements_trans (a b c : State) :
  More.same_elements a b -> More.same_elements b c -> More.same_elements a c.
Proof.
  unfold More.same_elements.
  intros (H1 & H2 & H3 & H4 & H5 & H6) (H7 & H8 & H9 & H10 & H11 & H12).
  repeat split; congruence.
Qed.

Lemma same_elements_submitForm (document : Document) (net : fetch_outcome E)
  (s : State) :
  More.same_elements s (submitForm document net s).
Proof.
  apply every_submitForm.
  - exact same_elements_refl.
  - exact same_elements_trans.
  - intros msg st. unfold setStatus. destruct (statusEl st) eqn:H;
      unfold More.same_elements; cbn; rewrite ?H; repeat split.
  - intros busy label st. unfold setBusy. destruct (processBtn st) eqn:H;
      unfold More.same_elements; cbn; rewrite ?H; repeat split.
  - intros x st H. unfold More.same_elements; cbn.
    destruct (textEl st); [repeat split | congruence].
  - intros x st H. unfold More.same_elements; cbn.
    destruct (conceptsEl st); [repeat split | congruence].
  - intros x st. repeat split.
  - intros x st. repeat split.
  - intros x st. repeat split.
  - intros x st. repeat split.
  - intros x st. repeat split.
  - intros x st. repeat split.
Qed.

(** [submitForm] ends with [setBusy(false)] on a state that has the elements
    of the start. *)
Lemma submitForm_cleanup (document : Document) (net : fetch_outcome E) (s : State) :
  exists s2,
    submitForm document net s = setBusy false Process s2 /\
    More.present (processBtn s2) = More.present (processBtn s).
Proof.
  pose proof (same_elements_submitForm document net s) as (_ & Hbtn & _).
  unfold submitForm, bind, modify, try_finally in *. cbn [snd fst] in *.
  destruct (try_catch (attempt E document net) (report E)
              (setBusy true Process (setStatus [] s))) as [c s2].
  cbn [snd] in *. exists s2. split; [reflexivity |].
  rewrite <- Hbtn. rewrite AppProofs.processBtn_setBusy.
  destruct (processBtn s2); reflexivity.
Qed.

(** X1. Whatever the controls, the outcome of the request and the state
    (no file, rejection, any status, any body, an exception while
    rendering), when [submitForm] has settled the button, if the page has
    one, is enabled and labelled [Process]. *)
Theorem button_always_restored (document : Document) (net : fetch_outcome E)
  (s : State) :
  processBtn (submitForm document net s) =
  match processBtn s with
  | Some _ => Some More.idle
  | None => None
  end.
Proof.
  destruct (submitForm_cleanup document net s) as (s2 & -> & Hbtn).
  rewrite AppProofs.processBtn_setBusy.
  destruct (processBtn s2), (processBtn s); try discriminate; reflexivity.
Qed.

(** *** The status region is never left empty *)

Lemma ends_saying_bind {A B : Type} (m : M State A) (k : A -> M State B)
  (s : State) :
  (forall a st, More.ends_saying (k a st)) -> More.ends_saying (bind m k s).
Proof.
  intro H. unfold bind. destruct (m s) as [[a | e] st]; [apply H | exact I].
Qed.

Lemma says_setStatus (msg : jsstring) (s : State) :
  msg <> [] -> More.says_something (setStatus msg s).
Proof.
  intros Hmsg shown. rewrite AppProofs.statusEl_setStatus.
  destruct (statusEl s); congruence.
Qed.

Lemma says_setBusy (busy : bool) (label : jsstring) (s : State) :
  More.says_something s -> More.says_something (setBusy busy label s).
Proof.
  intros H shown. rewrite AppProofs.statusEl_setBusy. apply H.
Qed.

Lemma message_or_says (err : exn) (dflt : jsstring) :
  dflt <> [] -> message_or err dflt <> [].
Proof.
  intro H. unfold message_or. destruct (message err); [exact H | discriminate].
Qed.

Lemma ends_saying_respond (res : Response E) (s : State) :
  More.ends_saying (respond E res s).
Proof.
  unfold respond, show.
  do 9 (apply ends_saying_bind; intros). unfold done.
  do 2 (apply ends_saying_bind; intros).
  unfold modify, More.ends_saying. apply says_setStatus. discriminate.
Qed.

Lemma ends_saying_attempt (document : Document) (net : fetch_outcome E)
  (s : State) :
  More.ends_saying (attempt E document net s).
Proof.
  unfold attempt.
  destruct (selected (or_element (document (units "files"))
                        (document (units "fileInput")))).
  - apply ends_saying_bind. intros. apply ends_saying_respond.
  - unfold bind, modify, More.ends_saying. apply says_setBusy, says_setStatus.
    discriminate.
Qed.

(** X2. Whatever the controls, the outcome of the request and the state,
    when [submitForm] has settled the status region, if the page has one,
    shows a text that is not empty: the validation message, the [Done]
    line, or the message of what was caught, [Failed to process] standing
    in for an empty one. The empty text that [submitForm] writes first
    never stays. *)
Theorem status_never_left_empty (document : Document) (net : fetch_outcome E)
  (s : State) :
  More.says_something (submitForm document net s).
Proof.
  unfold submitForm, bind, modify, try_finally, try_catch.
  pose proof (ends_saying_attempt document net
                (setBusy true Process (setStatus [] s))) as H.
  destruct (attempt E document net (setBusy true Process (setStatus [] s)))
    as [[[] | err] s2]; cbn [snd]; apply says_setBusy.
  - exact H.
  - unfold report, bind, modify. cbn [snd]. apply says_setStatus.
    apply message_or_says. discriminate.
Qed.

(** *** Answers that are turned down *)

Ltac by_elements s :=
  unfold More.reported, More.same_results, setBusy, setStatus;
  destruct s as [st pb tx co mm fc mn fn vs rq cs bu];
  destruct st, pb; cbn; repeat split.

Lemma turned_down_reported (document : Document) (res : Response E) (e : exn)
  (s : State) (selection : list File) :
  selected (or_element (document (units "files")) (document (units "fileInput")))
  = Some selection ->
  More.turned_down res e ->
  More.reported e s (submitForm document (Responded res) s).
Proof.
  intros Hsel Hdown.
  unfold submitForm, attempt. rewrite Hsel.
  unfold try_finally, try_catch, bind, modify, fetch. cbn [fst snd].
  match goal with
  | |- context [respond E res ?st] =>
      destruct (Hdown st eq_refl) as [b ->]
  end.
  unfold report, bind, modify. cbn [fst snd].
  by_elements s.
Qed.

Lemma rejected_reported (document : Document) (e : exn) (s : State)
  (selection : list File) :
  selected (or_element (document (units "files")) (document (units "fileInput")))
  = Some selection ->
  More.reported e s (submitForm document (Rejected e) s).
Proof.
  intros Hsel.
  unfold submitForm, attempt. rewrite Hsel.
  unfold try_finally, try_catch, bind, modify, fetch. cbn [fst snd].
  unfold report, bind, modify. cbn [fst snd].
  by_elements s.
Qed.

Lemma res_text_fresh (res : Response E) (st : State) :
  bodyUsed st = false ->
  exists b, res_text E res st = (Normal (More.text_of res), set_bodyUsed b st).
Proof.
  intro Hfresh. unfold res_text, read_text, More.text_of. rewrite Hfresh.
  destruct (body res); eexists; reflexivity.
Qed.

Lemma down_plain_error (res : Response E) :
  ok res = false ->
  is_json (content_type res) = false ->
  More.turned_down res
    {| exn_name := Error;
       message := HTTP_status_text E res (More.text_of res) |}.
Proof.
  intros Hok Hjson st Hfresh.
  unfold respond, check_status, bind. rewrite Hok, Hjson. cbn [negb].
  destruct (res_text_fresh res st Hfresh) as [b ->].
  exists b. reflexivity.
Qed.

Lemma down_not_json (res : Response E) :
  ok res = true ->
  is_json (content_type res) = false ->
  More.turned_down res
    {| exn_name := Error;
       message := units "Expected JSON response, got: " ++
                  substring0 100 (More.text_of res) |}.
Proof.
  intros Hok Hjson st Hfresh.
  unfold respond, check_status, check_content_type, bind.
  rewrite Hok, Hjson. cbn [negb]. unfold ret at 1. cbv iota beta.
  destruct (res_text_fresh res st Hfresh) as [b ->].
  exists b. reflexivity.
Qed.

Lemma down_application_error (res : Response E) (data : val E) :
  ok res = true ->
  is_json (content_type res) = true ->
  parsed res = Some data ->
  is_nullish data = false ->
  truthy E (field data (units "error")) = true ->
  More.turned_down res (More.thrown_for (field data (units "error"))).
Proof.
  intros Hok Hjson Hparsed Hdata Herror st Hfresh.
  unfold respond, check_status, check_content_type, bind.
  rewrite Hok, Hjson. cbn [negb]. unfold ret at 1 2. cbv iota beta.
  unfold parsed in Hparsed. unfold res_json, read_json.
  destruct (body res) as [b |]; [| discriminate].
  rewrite Hfresh, Hparsed. cbv iota beta.
  unfold lift, get. rewrite Hdata. cbv iota beta. rewrite Herror.
  exists true. unfold More.thrown_for.
  destruct (to_string E (field data (units "error"))); reflexivity.
Qed.

Lemma down_null_data (res : Response E) (data : val E) :
  ok res = true ->
  is_json (content_type res) = true ->
  parsed res = Some data ->
  is_nullish data = true ->
  More.turned_down res
    {| exn_name := TypeError;
       message := msg_nullish_read E data (units "error") |}.
Proof.
  intros Hok Hjson Hparsed Hdata st Hfresh.
  unfold respond, check_status, check_content_type, bind.
  rewrite Hok, Hjson. cbn [negb]. unfold ret at 1 2. cbv iota beta.
  unfold parsed in Hparsed. unfold res_json, read_json.
  destruct (body res) as [b |]; [| discriminate].
  rewrite Hfresh, Hparsed. cbv iota beta.
  unfold lift, get. rewrite Hdata.
  exists true. reflexivity.
Qed.

Lemma down_not_parsed (res : Response E) :
  ok res = true ->
  is_json (content_type res) = true ->
  parsed res = None ->
  More.turned_down res
    {| exn_name := SyntaxError;
       message := msg_json_syntax E (More.text_of res) |}.
Proof.
  intros Hok Hjson Hparsed st Hfresh.
  unfold respond, check_status, check_content_type, bind.
  rewrite Hok, Hjson. cbn [negb]. unfold ret at 1 2. cbv iota beta.
  unfold parsed in Hparsed. unfold res_json, read_json, More.text_of.
  destruct (body res) as [b |].
  - rewrite Hfresh, Hparsed. exists true. reflexivity.
  - exists false. rewrite <- Hfresh at 1. destruct st; reflexivity.
Qed.

Lemma down_json_error (res : Response E) :
  ok res = false ->
  is_json (content_type res) = true ->
  exists e, More.turned_down res e.
Proof.
  intros Hok Hjson.
  destruct (body res) as [b |] eqn:Hbody.
  - exists {| exn_name := TypeError; message := msg_body_used E |}.
    intros st Hfresh. exists true. unfold respond, bind.
    rewrite (AppProofs.check_status_masks E res b st Hok Hjson Hbody Hfresh).
    reflexivity.
  - exists {| exn_name := Error; message := HTTP_status_text E res [] |}.
    intros st Hfresh. exists false.
    unfold respond, check_status, bind. rewrite Hok, Hjson. cbn [negb].
    unfold try_catch, bind, res_json, res_text, read_json, read_text.
    rewrite Hbody. cbn. rewrite <- Hfresh at 1. destruct st; reflexivity.
Qed.

(** Every answer that is not accepted is turned down. *)
Lemma not_accepted_down (res : Response E) :
  More.accepted res = false -> exists e, More.turned_down res e.
Proof.
  unfold More.accepted. intro Hnot.
  destruct (ok res) eqn:Hok.
  - destruct (is_json (content_type res)) eqn:Hjson.
    + destruct (parsed res) as [data |] eqn:Hparsed.
      * destruct (is_nullish data) eqn:Hdata.
        -- eexists. exact (down_null_data res data Hok Hjson Hparsed Hdata).
        -- destruct (truthy E (field data (units "error"))) eqn:Herror.
           ++ eexists.
              exact (down_application_error res data Hok Hjson Hparsed Hdata Herror).
           ++ discriminate Hnot.
      * eexists. exact (down_not_parsed res Hok Hjson Hparsed).
    + eexists. exact (down_not_json res Hok Hjson).
  - destruct (is_json (content_type res)) eqn:Hjson.
    + exact (down_json_error res Hok Hjson).
    + eexists. exact (down_plain_error res Hok Hjson).
Qed.

(** X3. Files are selected and the answer has a failed status and a content
    type that is not JSON (an HTML error page of a proxy, say): the status
    region shows [HTTP], the status code, a colon and the first 200 code
    units of the body; the text, the concepts and the graphs stay as they
    were, and the error is on the console. *)
Theorem plain_error_status (document : Document) (res : Response E) (s : State)
  (selection : list File) (shown : jsstring) :
  selected (or_element (document (units "files")) (document (units "fileInput")))
  = Some selection ->
  ok res = false ->
  is_json (content_type res) = false ->
  statusEl s = Some shown ->
  let s' := submitForm document (Responded res) s in
  statusEl s' =
    Some (units "HTTP " ++ decimal (status res) ++ units ": " ++
          firstn 200 (More.text_of res)) /\
  More.same_results s s' /\
  List.length (console s') = S (List.length (console s)).
Proof.
  intros Hsel Hok Hjson Hshown.
  destruct (turned_down_reported document res _ s selection Hsel
              (down_plain_error res Hok Hjson)) as (Hstatus & Hsame & Hconsole).
  cbv zeta. rewrite Hstatus, Hshown, Hconsole.
  split; [reflexivity |]. split; [exact Hsame | reflexivity].
Qed.

(** X4. Files are selected and the answer has an ok status but a content
    type that is not JSON: the status region shows
    [Expected JSON response, got: ] followed by the first 100 code units of
    the body, and nothing of the answer is shown. *)
Theorem not_json_status (document : Document) (res : Response E) (s : State)
  (selection : list File) (shown : jsstring) :
  selected (or_element (document (units "files")) (document (units "fileInput")))
  = Some selection ->
  ok res = true ->
  is_json (content_type res) = false ->
  statusEl s = Some shown ->
  let s' := submitForm document (Responded res) s in
  statusEl s' =
    Some (units "Expected JSON response, got: " ++
          firstn 100 (More.text_of res)) /\
  More.same_results s s'.
Proof.
  intros Hsel Hok Hjson Hshown.
  destruct (turned_down_reported document res _ s selection Hsel
              (down_not_json res Hok Hjson)) as (Hstatus & Hsame & _).
  cbv zeta. rewrite Hstatus, Hshown.
  split; [reflexivity | exact Hsame].
Qed.

(** X5. Files are selected and the answer is ok and JSON but its body
    carries a truthy [error]: nothing else of the answer is shown, whatever
    else the body holds, and the status region shows that [error] as a
    string ([Failed to process] if the string is empty, as for the empty
    array). An [error] that does not convert to a string (an object with a
    [toString] entry of its own) shows the message of the engine's
    TypeError instead. *)
Theorem application_error_status (document : Document) (res : Response E)
  (s : State) (selection : list File) (data : val E) (shown : jsstring) :
  selected (or_element (document (units "files")) (document (units "fileInput")))
  = Some selection ->
  ok res = true ->
  is_json (content_type res) = true ->
  parsed res = Some data ->
  truthy E (field data (units "error")) = true ->
  statusEl s = Some shown ->
  let s' := submitForm document (Responded res) s in
  let error := field data (units "error") in
  (convertible error = true ->
   statusEl s' =
     Some (match printed E error with
           | [] => units "Failed to process"
           | c :: m => c :: m
           end)) /\
  (convertible error = false ->
   statusEl s' =
     Some (match msg_not_primitive E error with
           | [] => units "Failed to process"
           | c :: m => c :: m
           end)) /\
  More.same_results s s'.
Proof.
  intros Hsel Hok Hjson Hparsed Herror Hshown.
  assert (Hdata : is_nullish data = false).
  { destruct data; try reflexivity; discriminate Herror. }
  destruct (turned_down_reported document res _ s selection Hsel
              (down_application_error res data Hok Hjson Hparsed Hdata Herror))
    as (Hstatus & Hsame & _).
  cbv zeta. rewrite Hstatus, Hshown. unfold More.thrown_for, to_string.
  split; [| split; [| exact Hsame]]; intros ->; reflexivity.
Qed.

(** X6. Files are selected and the request is rejected (the server cannot
    be reached): the request was sent once, the status region shows the
    message of the rejection, or [Failed to process] if it has none, the
    rejection is on the console, and the results stay as they were. *)
Theorem transport_failure_status (document : Document) (e : exn) (s : State)
  (selection : list File) :
  selected (or_element (document (units "files")) (document (units "fileInput")))
  = Some selection ->
  let s' := submitForm document (Rejected e) s in
  statusEl s' =
    match statusEl s with
    | Some _ =>
        Some (match message e with
              | [] => units "Failed to process"
              | c :: m => c :: m
              end)
    | None => None
    end /\
  More.same_results s s' /\
  console s' = e :: console s /\
  List.length (requests s') = S (List.length (requests s)).
Proof.
  intros Hsel.
  destruct (rejected_reported document e s selection Hsel)
    as (Hstatus & Hsame & Hconsole).
  cbv zeta. split; [exact Hstatus |]. split; [exact Hsame |].
  split; [exact Hconsole |].
  rewrite AppProofs.requests_submitForm.
  rewrite (AppProofs.requests_attempt E document (Rejected e) _ selection Hsel).
  cbn [List.length]. f_equal.
  unfold setBusy, setStatus.
  destruct (statusEl s) eqn:H1; cbn; destruct (processBtn s) eqn:H2; cbn;
    rewrite ?H2; reflexivity.
Qed.

(** X7. Files are selected and the answer is not one that [submitForm]
    accepts (failed status, content type not JSON, body that does not
    parse or parses to [null], truthy [error]): then nothing of it is
    shown. The text, the concepts, the two handles and the chronicle of the
    graph library are as before, one exception is added to the console, and
    the status region shows its message. *)
Theorem refused_answer_shows_nothing (document : Document) (res : Response E)
  (s : State) (selection : list File) :
  selected (or_element (document (units "files")) (document (units "fileInput")))
  = Some selection ->
  More.accepted res = false ->
  let s' := submitForm document (Responded res) s in
  More.same_results s s' /\
  exists e,
    console s' = e :: console s /\
    statusEl s' =
      match statusEl s with
      | Some _ => Some (message_or e (units "Failed to process"))
      | None => None
      end.
Proof.
  intros Hsel Hnot.
  destruct (not_accepted_down res Hnot) as [e Hdown].
  destruct (turned_down_reported document res e s selection Hsel Hdown)
    as (Hstatus & Hsame & Hconsole).
  cbv zeta. split; [exact Hsame |]. exists e. split; assumption.
Qed.

(** *** Concepts *)

Lemma li_textContent_cases (item : val E) :
  li_textContent E item =
  if More.listable item then Normal (More.label item)
  else Throw (More.unlisted item).
Proof.
  destruct item as [| | b | n | t | items | fields];
    try reflexivity;
    unfold li_textContent, More.listable, More.label, More.unlisted, get,
      to_string, Number_toFixed;
    cbn [is_nullish negb andb];
    match goal with
    | |- context [convertible (or_else E ?phrase (VStr []))] =>
        destruct (convertible (or_else E phrase (VStr [])))
    end; cbn [andb]; try reflexivity;
    match goal with
    | |- context [is_nullish ?score] => destruct (is_nullish score)
    end; cbn [orb]; rewrite ?app_nil_r; try reflexivity;
    match goal with
    | |- context [convertible ?score] => destruct (convertible score)
    end; reflexivity.
Qed.

Lemma appendItems_labels (items : list (val E)) :
  forall (s : State) (lis : list jsstring),
    conceptsEl s = Some lis ->
    forallb More.listable items = true ->
    appendItems E items s =
    (Normal tt, set_conceptsEl (Some (lis ++ map More.label items)) s).
Proof.
  induction items as [| item rest IH]; intros s lis Hlis Hall.
  - cbn. rewrite app_nil_r, <- Hlis. destruct s; reflexivity.
  - cbn [forallb] in Hall. apply andb_true_iff in Hall as [Hitem Hrest].
    cbn [appendItems]. unfold bind, lift, modify.
    rewrite li_textContent_cases, Hitem, Hlis.
    rewrite (IH (set_conceptsEl (Some (lis ++ [More.label item])) s)
               (lis ++ [More.label item]) eq_refl Hrest).
    cbn [map]. rewrite <- app_assoc. reflexivity.
Qed.

Lemma appendItems_stops (good : list (val E)) (bad : val E) (rest : list (val E)) :
  forall (s : State) (lis : list jsstring),
    conceptsEl s = Some lis ->
    forallb More.listable good = true ->
    More.listable bad = false ->
    appendItems E (good ++ bad :: rest) s =
    (Throw (More.unlisted bad),
     set_conceptsEl (Some (lis ++ map More.label good)) s).
Proof.
  induction good as [| item good IH]; intros s lis Hlis Hall Hbad.
  - cbn [app appendItems map]. unfold bind, lift.
    rewrite li_textContent_cases, Hbad.
    rewrite app_nil_r, <- Hlis. destruct s; reflexivity.
  - cbn [forallb] in Hall. apply andb_true_iff in Hall as [Hitem Hrest].
    cbn [app appendItems]. unfold bind, lift, modify.
    rewrite li_textContent_cases, Hitem, Hlis.
    rewrite (IH (set_conceptsEl (Some (lis ++ [More.label item])) s)
               (lis ++ [More.label item]) eq_refl Hrest Hbad).
    cbn [map]. rewrite <- app_assoc. reflexivity.
Qed.

(** X8. On a page with a concept list, [renderConcepts] of items each of
    which can be listed (a string, or a value that is not [null] or
    [undefined] and whose [phrase] and [score] convert) completes normally
    and leaves exactly one list item per item, in order, whatever the list
    held before: a string as it is, another item as its [phrase] (or
    nothing) followed, when its [score] is neither [null] nor [undefined],
    by the score with two decimals in parentheses. Nothing else of the page
    changes. *)
Theorem renderConcepts_labels (items : list (val E)) (s : State)
  (before : list jsstring) :
  conceptsEl s = Some before ->
  forallb More.listable items = true ->
  renderConcepts items s =
  (Normal tt, set_conceptsEl (Some (map More.label items)) s).
Proof.
  intros Hbefore Hall. unfold renderConcepts. rewrite Hbefore.
  rewrite (appendItems_labels items (set_conceptsEl (Some []) s) [] eq_refl Hall).
  reflexivity.
Qed.

(** X9. The first item that cannot be listed stops [renderConcepts] with
    the engine's TypeError: that of reading [phrase] when the item is
    [null] or [undefined], that of the conversion when its [phrase] or its
    [score] does not convert. The items before it are already in the list,
    the earlier content is gone, and the items after it are not rendered.
    On a page without a concept list the same call completes normally and
    does nothing. *)
Theorem renderConcepts_stops_at_unlistable (good : list (val E)) (bad : val E)
  (rest : list (val E)) (s : State) :
  forallb More.listable good = true ->
  More.listable bad = false ->
  renderConcepts (good ++ bad :: rest) s =
  match conceptsEl s with
  | Some _ =>
      (Throw (More.unlisted bad),
       set_conceptsEl (Some (map More.label good)) s)
  | None => (Normal tt, s)
  end.
Proof.
  intros Hall Hbad. unfold renderConcepts.
  destruct (conceptsEl s) as [before |]; [| reflexivity].
  rewrite (appendItems_stops good bad rest (set_conceptsEl (Some []) s) []
             eq_refl Hall Hbad).
  reflexivity.
Qed.

(** *** Accepted answers *)

Ltac frame :=
  try (intros; cbv beta in *; first [reflexivity | congruence]).

Lemma renderConcepts_fine (items : list (val E)) (st : State) :
  forallb More.listable items = true ->
  fst (renderConcepts items st) = Normal tt.
Proof.
  intro Hall. unfold renderConcepts.
  destruct (conceptsEl st); [| reflexivity].
  rewrite (appendItems_labels items (set_conceptsEl (Some []) st) [] eq_refl Hall).
  reflexivity.
Qed.

Lemma display_concepts_fine (data : val E) (st : State) :
  forallb More.listable (More.concepts_of data) = true ->
  fst (display_concepts E data st) = Normal tt.
Proof.
  unfold More.concepts_of, display_concepts. intro Hall.
  destruct (field data (units "keyphrases")) as [| | b | n | t | items | fields].
  6: exact (renderConcepts_fine items st Hall).
  all: destruct (opt_field (field data (units "llm")) (units "concepts"));
    try reflexivity; apply renderConcepts_fine; exact Hall.
Qed.

Lemma display_text_run (data : val E) (st : State) :
  convertible (text_of_data E data) = true ->
  display_text E data st =
  (Normal tt,
   match textEl st with
   | Some _ => set_textEl (Some (printed E (text_of_data E data))) st
   | None => st
   end).
Proof.
  intro Htext. unfold display_text, bind, gets, lift, modify, ret, to_string.
  rewrite Htext. destruct (textEl st); reflexivity.
Qed.

(** When nothing stops it before, [show] reaches its last statement with
    the results shown and the views drawn. *)
Lemma show_run (data : val E) (s : State) :
  More.renders data = true ->
  show E data s = done E data (More.drawn data s).
Proof.
  unfold More.renders. intro Hrenders.
  apply andb_true_iff in Hrenders as [Htext Hconcepts].
  unfold show, bind, More.drawn.
  rewrite (display_text_run data s Htext). cbn [fst snd].
  pose proof (display_concepts_fine data
                (match textEl s with
                 | Some _ => set_textEl (Some (printed E (text_of_data E data))) s
                 | None => s
                 end) Hconcepts) as Hfine.
  destruct (display_concepts E data _) as [c s5].
  cbn [fst snd] in *. subst c.
  rewrite AppProofs.render_mindmap_run. cbn [fst snd].
  rewrite AppProofs.render_flowchart_run. cbn [fst snd].
  reflexivity.
Qed.

Lemma done_run (data : val E) (s : State) :
  More.summarised data = true ->
  done E data s =
  (Normal tt,
   setStatus
     (More.done_text
        (More.printed_or (field (More.meta_of data) (units "images_processed"))
           (units "0"))
        (More.printed_or (field (More.meta_of data) (units "ocr_engine"))
           (units "n/a"))) s).
Proof.
  unfold More.summarised, More.prints. intro H.
  apply andb_true_iff in H as [Hpages Hengine].
  unfold done, bind, lift, modify, string_or, to_string, More.printed_or,
    More.meta_of in *.
  destruct (truthy E (field (or_else E (field data (units "meta")) (VObj []))
                        (units "images_processed")));
    rewrite ?Hpages;
    destruct (truthy E (field (or_else E (field data (units "meta")) (VObj []))
                          (units "ocr_engine")));
    rewrite ?Hengine; reflexivity.
Qed.

Lemma accepted_run (res : Response E) (data : val E) (st : State) :
  More.accepted res = true ->
  parsed res = Some data ->
  bodyUsed st = false ->
  respond E res st = show E data (set_bodyUsed true st).
Proof.
  unfold More.accepted. intros Hacc Hparsed Hfresh. rewrite Hparsed in Hacc.
  apply andb_true_iff in Hacc as [Hacc Hdata].
  apply andb_true_iff in Hacc as [Hok Hjson].
  apply andb_true_iff in Hdata as [Hdata Herror].
  apply negb_true_iff in Hdata, Herror.
  unfold parsed in Hparsed.
  destruct (body res) as [b |] eqn:Hbody; [| discriminate].
  exact (AppProofs.respond_run E res b data st Hok Hjson Hbody Hparsed Hdata
           Herror Hfresh).
Qed.

Lemma drawn_keeps (R : State -> State -> Prop) (data : val E) :
  (forall s, R s s) ->
  (forall a b c, R a b -> R b c -> R a c) ->
  (forall x s, textEl s <> None -> R s (set_textEl (Some x) s)) ->
  (forall x s, conceptsEl s <> None -> R s (set_conceptsEl (Some x) s)) ->
  (forall x s, R s (set_vis x s)) ->
  (forall x s, R s (set_mindmapNetwork x s)) ->
  (forall x s, R s (set_flowchartNetwork x s)) ->
  forall s, R s (More.drawn data s).
Proof.
  intros Hrefl Htrans Htext Hconcepts Hvis Hmind Hflow s. unfold More.drawn.
  eapply Htrans; [apply (every_display_text R Hrefl Htext data s) |].
  eapply Htrans;
    [apply (every_display_concepts R Hrefl Htrans Hconcepts data) |].
  eapply Htrans;
    [apply (every_render_mindmap R Hrefl Htrans Hvis Hmind data) |].
  apply (every_render_flowchart R Hrefl Htrans Hvis Hflow data).
Qed.

Lemma submitForm_unfold (document : Document) (net : fetch_outcome E)
  (s : State) :
  submitForm document net s =
  setBusy false Process
    (snd (try_catch (attempt E document net) (report E)
            (setBusy true Process (setStatus [] s)))).
Proof.
  unfold submitForm, bind, modify, try_finally. cbn [fst snd].
  destruct (try_catch (attempt E document net) (report E)
              (setBusy true Process (setStatus [] s))).
  reflexivity.
Qed.

(** An accepted answer that nothing stops before the views: the state in
    which [submitForm] settles, from the state in which the views are
    drawn. *)
Lemma accepted_submitForm (document : Document) (res : Response E) (s : State)
  (selection : list File) (data : val E) :
  selected (or_element (document (units "files")) (document (units "fileInput")))
  = Some selection ->
  More.accepted res = true ->
  parsed res = Some data ->
  More.renders data = true ->
  exists rqs,
    submitForm document (Responded res) s =
    setBusy false Process
      (snd (try_catch (done E data) (report E)
              (More.drawn data
                 (set_bodyUsed true
                    (set_requests rqs
                       (setBusy true Process (setStatus [] s))))))).
Proof.
  intros Hsel Hacc Hparsed Hrenders.
  rewrite submitForm_unfold. eexists. f_equal. f_equal.
  unfold try_catch, attempt. rewrite Hsel.
  unfold bind, fetch. cbn [fst snd].
  match goal with
  | |- context [respond E res ?st] =>
      rewrite (accepted_run res data st Hacc Hparsed eq_refl)
  end.
  rewrite (show_run data _ Hrenders). reflexivity.
Qed.

(** X10. Files are selected, the answer is accepted, its text and its
    concepts can be shown and the two entries of [meta] that the status
    quotes convert to strings: [submitForm] runs to its last statement. The
    status region shows [Done], the number of pages ([0] when
    [meta.images_processed] is missing or falsy) and the engine ([n/a] when
    [meta.ocr_engine] is missing or falsy), and nothing is written to the
    console. *)
Theorem accepted_answer_is_done (document : Document) (res : Response E)
  (s : State) (selection : list File) (data : val E) (shown : jsstring) :
  selected (or_element (document (units "files")) (document (units "fileInput")))
  = Some selection ->
  More.accepted res = true ->
  parsed res = Some data ->
  More.renders data = true ->
  More.summarised data = true ->
  statusEl s = Some shown ->
  let s' := submitForm document (Responded res) s in
  let meta := More.meta_of data in
  statusEl s' =
    Some (More.done_text
            (More.printed_or (field meta (units "images_processed")) (units "0"))
            (More.printed_or (field meta (units "ocr_engine")) (units "n/a"))) /\
  console s' = console s.
Proof.
  intros Hsel Hacc Hparsed Hrenders Hmeta Hshown.
  destruct (accepted_submitForm document res s selection data Hsel Hacc Hparsed
              Hrenders) as [rqs Hrun].
  cbv zeta. rewrite Hrun. unfold try_catch.
  rewrite (done_run data _ Hmeta). cbn [snd]. split.
  - rewrite AppProofs.statusEl_setBusy, AppProofs.statusEl_setStatus.
    rewrite (drawn_keeps (fun a b => statusEl b = statusEl a) data);
      frame.
    cbn [statusEl set_bodyUsed set_requests].
    rewrite AppProofs.statusEl_setBusy, AppProofs.statusEl_setStatus, Hshown.
    reflexivity.
  - transitivity (console (setBusy true Process (setStatus [] s))).
    + unfold setBusy at 1.
      match goal with
      | |- console (match processBtn ?st with _ => _ end) = _ =>
          transitivity (console st); [destruct (processBtn st); reflexivity |]
      end.
      unfold setStatus at 1.
      match goal with
      | |- console (match statusEl ?st with _ => _ end) = _ =>
          transitivity (console st); [destruct (statusEl st); reflexivity |]
      end.
      rewrite (drawn_keeps (fun a b => console b = console a) data); frame.
    + unfold setBusy, setStatus.
      destruct (statusEl s); cbn; destruct (processBtn s); reflexivity.
Qed.

Lemma display_concepts_stops (data : val E) (good : list (val E)) (bad : val E)
  (rest : list (val E)) (st : State) (before : list jsstring) :
  field data (units "keyphrases") = VArr (good ++ bad :: rest) ->
  forallb More.listable good = true ->
  More.listable bad = false ->
  conceptsEl st = Some before ->
  display_concepts E data st =
  (Throw (More.unlisted bad),
   set_conceptsEl (Some (map More.label good)) st).
Proof.
  intros Hkey Hall Hbad Hbefore. unfold display_concepts. rewrite Hkey.
  unfold renderConcepts. rewrite Hbefore.
  rewrite (appendItems_stops good bad rest (set_conceptsEl (Some []) st) []
             eq_refl Hall Hbad).
  reflexivity.
Qed.

(** X11. Files are selected and the answer is accepted and its text can be
    shown, but one of its [keyphrases] cannot be listed ([null], say): the
    submission stops at the first such item. The concept list holds the
    items before that one, the views are not drawn (handles and chronicle
    as before) although the answer may carry them, the engine's TypeError
    is on the console and its message in the status region. *)
Theorem unlistable_concept_stops_submission (document : Document)
  (res : Response E) (s : State) (selection : list File) (data : val E)
  (good : list (val E)) (bad : val E) (rest : list (val E))
  (before : list jsstring) :
  selected (or_element (document (units "files")) (document (units "fileInput")))
  = Some selection ->
  More.accepted res = true ->
  parsed res = Some data ->
  convertible (text_of_data E data) = true ->
  field data (units "keyphrases") = VArr (good ++ bad :: rest) ->
  forallb More.listable good = true ->
  More.listable bad = false ->
  conceptsEl s = Some before ->
  let s' := submitForm document (Responded res) s in
  let err := More.unlisted bad in
  conceptsEl s' = Some (map More.label good) /\
  mindmapNetwork s' = mindmapNetwork s /\
  flowchartNetwork s' = flowchartNetwork s /\
  vis s' = vis s /\
  console s' = err :: console s /\
  statusEl s' =
    match statusEl s with
    | Some _ => Some (message_or err (units "Failed to process"))
    | None => None
    end.
Proof.
  intros Hsel Hacc Hparsed Htext Hkey Hall Hbad Hbefore.
  unfold submitForm, attempt. rewrite Hsel.
  unfold try_finally, try_catch, bind, modify, fetch. cbn [fst snd].
  match goal with
  | |- context [respond E res ?st] =>
      rewrite (accepted_run res data st Hacc Hparsed eq_refl)
  end.
  unfold show, bind. rewrite (display_text_run data _ Htext).
  match goal with
  | |- context [display_concepts E data ?st] =>
      rewrite (display_concepts_stops data good bad rest st before Hkey Hall Hbad)
  end.
  - unfold report, bind, modify. cbn [fst snd].
    unfold setBusy, setStatus.
    destruct s as [st pb tx co mm fc mn fn vs rq cs bu].
    destruct st, pb, tx; cbn; repeat split.
  - unfold setBusy, setStatus.
    destruct s as [st pb tx co mm fc mn fn vs rq cs bu].
    cbn in Hbefore. subst co.
    destruct st, pb, tx; reflexivity.
Qed.

(** *** The two views *)

(** The state in which [submitForm] settles has the handles and the
    chronicle of the state in which the views were drawn. *)
Lemma settles_as_drawn (data : val E) (st : State) :
  Spec.untouched st
    (setBusy false Process (snd (try_catch (done E data) (report E) st))).
Proof.
  assert (H : keeps Spec.untouched (try_catch (done E data) (report E))).
  { apply keeps_try_catch;
      [exact (AppProofs.untouched_trans E) | apply AppProofs.quiet_done |].
    intro err. apply AppProofs.quiet_report. }
  eapply AppProofs.untouched_trans; [apply H | apply AppProofs.untouched_setBusy].
Qed.

(** C8, on the current revision. Files are selected and the answer is
    accepted, with a text and concepts that can be shown. Then a truthy
    [mindmap] is drawn on the mind-map container, if the page has it, with
    the force-directed options (physics enabled, no layout imposed), and a
    truthy [flowchart] is drawn on the flowchart container, if the page has
    it, with the hierarchical ones (physics disabled, layers from left to
    right); each handle is stored in its variable. And whatever the
    controls, the outcome of the request and the state, every instance that
    [submitForm] ever creates on a container has the options of that
    container. *)
Theorem views_drawn_and_laid_out (document : Document) (res : Response E)
  (s : State) (selection : list File) (data : val E) :
  selected (or_element (document (units "files")) (document (units "fileInput")))
  = Some selection ->
  More.accepted res = true ->
  parsed res = Some data ->
  More.renders data = true ->
  let s' := submitForm document (Responded res) s in
  (truthy E (field data (units "mindmap")) = true -> mindmapEl s = true ->
   exists h nodes edges opts,
     mindmapNetwork s' = Some h /\
     In (Created E h Mindmap nodes edges opts) (vis s') /\
     Spec.force_directed opts) /\
  (truthy E (field data (units "flowchart")) = true -> flowchartEl s = true ->
   exists h nodes edges opts,
     flowchartNetwork s' = Some h /\
     In (Created E h Flowchart nodes edges opts) (vis s') /\
     Spec.left_to_right opts) /\
  (forall net0 s0,
     exists recent,
       vis (submitForm document net0 s0) = recent ++ vis s0 /\
       forall h c nodes edges opts,
         In (Created E h c nodes edges opts) recent ->
         match c with
         | Mindmap => Spec.force_directed opts
         | Flowchart => Spec.left_to_right opts
         end).
Proof.
  intros Hsel Hacc Hparsed Hrenders.
  destruct (accepted_submitForm document res s selection data Hsel Hacc Hparsed
              Hrenders) as [rqs Hrun].
  cbv zeta. rewrite Hrun. clear Hrun.
  set (s1 := set_bodyUsed true
               (set_requests rqs (setBusy true Process (setStatus [] s)))).
  assert (Hs1 : mindmapEl s1 = mindmapEl s /\ flowchartEl s1 = flowchartEl s).
  { pose proof (AppProofs.untouched_trans E _ _ _
                  (AppProofs.untouched_setStatus E [] s)
                  (AppProofs.untouched_setBusy E true Process _))
      as (_ & _ & _ & _ & Hm & Hf).
    split; [exact Hm | exact Hf]. }
  destruct (settles_as_drawn data (More.drawn data s1)) as (-> & -> & -> & _).
  unfold More.drawn.
  set (s2 := snd (display_concepts E data (snd (display_text E data s1)))).
  assert (Hq : Spec.untouched s1 s2).
  { eapply AppProofs.untouched_trans;
      [apply AppProofs.quiet_display_text | apply AppProofs.quiet_display_concepts]. }
  destruct Hq as (_ & _ & _ & _ & Hm2 & Hf2). destruct Hs1 as [Hm1 Hf1].
  set (s3 := snd (render_mindmap E data s2)).
  set (s4 := snd (render_flowchart E data s3)).
  split; [| split].
  - intros Htruthy Hpresent.
    assert (Hs3 : exists h nodes edges,
               mindmapNetwork s3 = Some h /\
               In (Created E h Mindmap nodes edges visOptions) (vis s3)).
    { unfold s3. rewrite AppProofs.render_mindmap_run, Htruthy, Hm2, Hm1, Hpresent.
      cbn. eexists. eexists. eexists. split; [reflexivity | left; reflexivity]. }
    destruct Hs3 as (h & n & e & Hh & Hin). exists h, n, e, visOptions.
    unfold s4. rewrite AppProofs.render_flowchart_run. cbn [snd].
    split; [| split; [| split; reflexivity]].
    + destruct (truthy E (field data (units "flowchart")) && flowchartEl s3);
        cbn; exact Hh.
    + destruct (truthy E (field data (units "flowchart")) && flowchartEl s3);
        cbn; auto.
      destruct (flowchartNetwork s3); cbn; auto.
  - intros Htruthy Hpresent.
    assert (Hf3 : flowchartEl s3 = true).
    { unfold s3. rewrite AppProofs.render_mindmap_run. cbn [snd].
      destruct (truthy E (field data (units "mindmap")) && mindmapEl s2);
        cbn; congruence. }
    unfold s4. rewrite AppProofs.render_flowchart_run, Htruthy, Hf3.
    cbn. eexists. eexists. eexists. exists (make_hierarchical visOptions).
    split; [reflexivity |]. split; [left; reflexivity |].
    split; [reflexivity |]. eexists. split; reflexivity.
  - intros net0 s0. apply AppProofs.created_views_laid_out.
Qed.

(** *** Requests *)

(** The number of requests that a sequence of submissions sends. *)
Lemma requests_one (document : Document) (net : fetch_outcome E) (s : State) :
  List.length (requests (submitForm document net s)) =
  List.length (requests s) + More.sends document.
Proof.
  rewrite AppProofs.requests_submitForm. unfold More.sends.
  assert (Hstart : requests (setBusy true Process (setStatus [] s)) = requests s).
  { unfold setBusy, setStatus.
    destruct (statusEl s); cbn; destruct (processBtn s); reflexivity. }
  destruct (selected (or_element (document (units "files"))
                        (document (units "fileInput")))) as [selection |] eqn:Hsel.
  - rewrite (AppProofs.requests_attempt E document net _ selection Hsel).
    cbn [List.length]. rewrite Hstart. lia.
  - unfold attempt. rewrite Hsel. unfold bind, modify. cbn [snd].
    rewrite Nat.add_0_r. f_equal. rewrite <- Hstart.
    unfold setBusy at 1, setStatus at 1.
    match goal with
    | |- requests (match processBtn ?a with _ => _ end) = _ =>
        transitivity (requests a); [destruct (processBtn a); reflexivity |]
    end.
    match goal with
    | |- requests (match statusEl ?a with _ => _ end) = _ =>
        destruct (statusEl a); reflexivity
    end.
Qed.

(** X12. Over any sequence of submissions, whatever each answer is,
    [submitForm] sends exactly one request for each submission that has a
    file selected and none for the others: a failure is never retried and
    an answer never triggers a second request. *)
Theorem one_request_per_selection (l : list (Document * fetch_outcome E))
  (s : State) :
  List.length (requests (submissions l s)) =
  List.length (requests s) +
  list_sum (map (fun submission => More.sends (fst submission)) l).
Proof.
  revert s. induction l as [| [document net] rest IH]; intro s.
  - cbn. lia.
  - cbn [submissions map list_sum fold_right fst].
    rewrite IH, requests_one. unfold list_sum. lia.
Qed.

End Script.

(** *** The theorems on sample answers *)

(** A proxy's error page: the status line and the page's text. *)
Lemma plain_error_sample :
  statusEl (submitForm (Sample.document [Sample.notes_png] false)
              (Responded (Cases.bad_gateway Sample.engine))
              (Sample.page Sample.engine))
  = Some (units "HTTP 502: <html><h1>502 Bad Gateway</h1></html>").
Proof.
  exact (proj1 (plain_error_status Sample.engine
                  (Sample.document [Sample.notes_png] false)
                  (Cases.bad_gateway Sample.engine) (Sample.page Sample.engine)
                  [Sample.notes_png] [] eq_refl eq_refl eq_refl eq_refl)).
Defined.

(** A login page served with status 200. *)
Lemma not_json_sample :
  statusEl (submitForm (Sample.document [Sample.notes_png] false)
              (Responded (Cases.login_page Sample.engine))
              (Sample.page Sample.engine))
  = Some (units "Expected JSON response, got: <!doctype html><title>Sign in</title>").
Proof.
  exact (proj1 (not_json_status Sample.engine
                  (Sample.document [Sample.notes_png] false)
                  (Cases.login_page Sample.engine) (Sample.page Sample.engine)
                  [Sample.notes_png] [] eq_refl eq_refl eq_refl eq_refl)).
Defined.

(** Status 200 with an [error]: here, unlike under status 500, the text of
    the [error] is what shows; and an [error] that does not convert shows
    what the engine says of it. *)
Lemma application_error_sample :
  statusEl (submitForm (Sample.document [Sample.notes_png] false)
              (Responded (Cases.quota Sample.engine))
              (Sample.page Sample.engine))
  = Some (units "OCR quota exceeded") /\
  statusEl (submitForm (Sample.document [Sample.notes_png] false)
              (Responded (Cases.stubborn_error Sample.engine))
              (Sample.page Sample.engine))
  = Some (units "Cannot convert object to primitive value").
Proof.
  split.
  - exact (proj1 (application_error_status Sample.engine
                    (Sample.document [Sample.notes_png] false)
                    (Cases.quota Sample.engine) (Sample.page Sample.engine)
                    [Sample.notes_png]
                    (VObj [(units "error", VStr (units "OCR quota exceeded"))]) []
                    eq_refl eq_refl eq_refl eq_refl eq_refl eq_refl) eq_refl).
  - exact (proj1 (proj2 (application_error_status Sample.engine
                           (Sample.document [Sample.notes_png] false)
                           (Cases.stubborn_error Sample.engine)
                           (Sample.page Sample.engine) [Sample.notes_png]
                           (VObj [(units "error", Cases.stubborn Sample.engine)]) []
                           eq_refl eq_refl eq_refl eq_refl eq_refl eq_refl))
             eq_refl).
Defined.

(** The server cannot be reached. *)
Lemma transport_failure_sample :
  statusEl (submitForm (Sample.document [Sample.notes_png] false)
              (Rejected Sample.failed_to_fetch) (Sample.page Sample.engine))
  = Some (units "Failed to fetch") /\
  List.length (requests (submitForm (Sample.document [Sample.notes_png] false)
                           (Rejected Sample.failed_to_fetch)
                           (Sample.page Sample.engine))) = 1.
Proof.
  destruct (transport_failure_status Sample.engine
              (Sample.document [Sample.notes_png] false)
              Sample.failed_to_fetch (Sample.page Sample.engine)
              [Sample.notes_png] eq_refl) as (Hstatus & _ & _ & Hrequests).
  split; [exact Hstatus | exact Hrequests].
Defined.

(** A body that is the JSON text [null]. *)
Lemma refused_answer_sample :
  More.accepted (Cases.json Sample.engine 200 VNull) = false /\
  More.same_results (Sample.page Sample.engine)
    (submitForm (Sample.document [Sample.notes_png] false)
       (Responded (Cases.json Sample.engine 200 VNull))
       (Sample.page Sample.engine)).
Proof.
  split; [reflexivity |].
  exact (proj1 (refused_answer_shows_nothing Sample.engine
                  (Sample.document [Sample.notes_png] false)
                  (Cases.json Sample.engine 200 VNull)
                  (Sample.page Sample.engine) [Sample.notes_png]
                  eq_refl eq_refl)).
Defined.

(** A string and a scored phrase replace what the list held. *)
Lemma renderConcepts_labels_sample :
  conceptsEl
    (snd (@renderConcepts Sample.engine
            [VStr (units "graph");
             VObj [(units "phrase", VStr (units "tree"));
                   (units "score", VNum 2%Z)]]
            (set_conceptsEl (Some [units "stale"]) (Sample.page Sample.engine))))
  = Some [units "graph"; units "tree (2.00)"].
Proof.
  rewrite (renderConcepts_labels Sample.engine
             [VStr (units "graph");
              VObj [(units "phrase", VStr (units "tree"));
                    (units "score", VNum 2%Z)]]
             (set_conceptsEl (Some [units "stale"]) (Sample.page Sample.engine))
             [units "stale"] eq_refl eq_refl).
  reflexivity.
Defined.

(** A phrase that does not convert, as the second of three items. *)
Lemma renderConcepts_stops_sample :
  @renderConcepts Sample.engine
    [VStr (units "graph");
     VObj [(units "phrase", Cases.stubborn Sample.engine)];
     VStr (units "tree")]
    (Sample.page Sample.engine)
  = (Throw {| exn_name := TypeError;
              message := units "Cannot convert object to primitive value" |},
     set_conceptsEl (Some [units "graph"]) (Sample.page Sample.engine)).
Proof.
  exact (renderConcepts_stops_at_unlistable Sample.engine
           [VStr (units "graph")]
           (VObj [(units "phrase", Cases.stubborn Sample.engine)])
           [VStr (units "tree")] (Sample.page Sample.engine) eq_refl eq_refl).
Defined.

(** Three pages read by [gcv]. *)
Lemma accepted_answer_sample :
  statusEl (submitForm (Sample.document [Sample.notes_png] false)
              (Responded (Cases.json Sample.engine 200 Cases.finished))
              (Sample.page Sample.engine))
  = Some (units "Done (3 page(s), engine: gcv)").
Proof.
  exact (proj1 (accepted_answer_is_done Sample.engine
                  (Sample.document [Sample.notes_png] false)
                  (Cases.json Sample.engine 200 Cases.finished)
                  (Sample.page Sample.engine) [Sample.notes_png]
                  Cases.finished [] eq_refl eq_refl eq_refl eq_refl eq_refl
                  eq_refl)).
Defined.

(** The answer carries a mind map, but its second concept is [null]: one
    concept is listed and no view is drawn. *)
Lemma null_concept_sample :
  let s' := submitForm (Sample.document [Sample.notes_png] false)
              (Responded (Cases.json Sample.engine 200
                            (Cases.null_concept Sample.engine)))
              (Sample.page Sample.engine) in
  conceptsEl s' = Some [units "graph"] /\
  vis s' = [] /\
  statusEl s' = Some (units "Cannot read properties of null (reading 'phrase')").
Proof.
  destruct (unlistable_concept_stops_submission Sample.engine
              (Sample.document [Sample.notes_png] false)
              (Cases.json Sample.engine 200 (Cases.null_concept Sample.engine))
              (Sample.page Sample.engine) [Sample.notes_png]
              (Cases.null_concept Sample.engine)
              [VStr (units "graph")] VNull [VStr (units "tree")] []
              eq_refl eq_refl eq_refl eq_refl eq_refl eq_refl eq_refl eq_refl)
    as (Hconcepts & _ & _ & Hvis & _ & Hstatus).
  split; [exact Hconcepts |]. split; [exact Hvis | exact Hstatus].
Defined.

(** An answer that carries both graphs, on a page that has both
    containers. *)
Lemma views_drawn_sample :
  let s' := submitForm (Sample.document [Sample.notes_png] false)
              (Responded (Sample.both_graphs Sample.engine))
              (Sample.page Sample.engine) in
  (exists h nodes edges opts,
     mindmapNetwork s' = Some h /\
     In (Created Sample.engine h Mindmap nodes edges opts) (vis s') /\
     Spec.force_directed opts) /\
  (exists h nodes edges opts,
     flowchartNetwork s' = Some h /\
     In (Created Sample.engine h Flowchart nodes edges opts) (vis s') /\
     Spec.left_to_right opts).
Proof.
  destruct (views_drawn_and_laid_out Sample.engine
              (Sample.document [Sample.notes_png] false)
              (Sample.both_graphs Sample.engine) (Sample.page Sample.engine)
              [Sample.notes_png]
              (VObj [(units "text", VStr (units "notes"));
                     (units "mindmap", VObj []);
                     (units "flowchart", VObj [])])
              eq_refl eq_refl eq_refl eq_refl) as (Hmindmap & Hflowchart & _).
  split; [exact (Hmindmap eq_refl eq_refl) | exact (Hflowchart eq_refl eq_refl)].
Defined.

End AppMore.
(** ** The earlier revision, further *)
Module LegacyMore.

Import JS Vis App.

(** X13. In the earlier revision the body is parsed before the status is
    looked at. Files are selected, every control exists and the body of
    the answer is not JSON: whatever the status and the content type, the
    status region shows the message of the parser's SyntaxError
    ([Failed to process] if it has none) and never the HTTP status; the
    results stay as they were. *)
Theorem legacy_body_not_json (E : Engine) (document : Document)
  (res : Response E) (s : State E) (input : Element) (f : File)
  (fs : list File) (params : FormData) (shown : jsstring) :
  document (units "files") = Some input ->
  files input = Some (f :: fs) ->
  Legacy.parameters E document = Normal params ->
  parsed res = None ->
  statusEl s = Some shown ->
  let s' := Legacy.submitForm document (Responded res) s in
  statusEl s' =
    Some (match msg_json_syntax E (More.text_of res) with
          | [] => units "Failed to process"
          | c :: m => c :: m
          end) /\
  More.same_results s s'.
Proof.
  intros Hdoc Hfiles Hparams Hparsed Hshown.
  unfold Legacy.submitForm, Legacy.attempt, Legacy.element. rewrite Hdoc.
  unfold try_finally, try_catch, bind, modify, lift. cbn [fst snd].
  rewrite Hfiles, Hparams. unfold fetch. cbn [fst snd].
  unfold Legacy.respond, bind, res_json, read_json, More.text_of.
  unfold parsed in Hparsed.
  destruct (body res) as [b |].
  - cbn [bodyUsed set_bodyUsed]. rewrite Hparsed.
    unfold Legacy.report, bind, modify, message_or. cbn [fst snd message].
    unfold More.same_results, setBusy, setStatus.
    destruct s as [st pb tx co mm fc mn fn vs rq cs bu].
    cbn in Hshown. subst st. destruct pb; cbn; repeat split.
  - unfold Legacy.report, bind, modify, message_or. cbn [fst snd message].
    unfold More.same_results, setBusy, setStatus.
    destruct s as [st pb tx co mm fc mn fn vs rq cs bu].
    cbn in Hshown. subst st. destruct pb; cbn; repeat split.
Qed.

(** The error page of a proxy, status 502: the earlier revision shows what
    the parser says of its first character. *)
Lemma legacy_body_not_json_sample :
  statusEl (Legacy.submitForm (Sample.document [Sample.notes_png] false)
              (Responded (Cases.bad_gateway Sample.engine))
              (Sample.page Sample.engine))
  = Some (units "Unexpected token < in JSON at position 0").
Proof.
  exact (proj1 (legacy_body_not_json Sample.engine
                  (Sample.document [Sample.notes_png] false)
                  (Cases.bad_gateway Sample.engine) (Sample.page Sample.engine)
                  {| value := Some []; checked := false;
                     files := Some [Sample.notes_png] |}
                  Sample.notes_png []
                  [ (units "lang", TextEntry (units "fr"));
                    (units "top_k", TextEntry (units "15"));
                    (units "ocr_engine", TextEntry (units "gcv")) ]
                  [] eq_refl eq_refl eq_refl eq_refl eq_refl)).
Defined.

(** C8 does not hold of the earlier revision: on an answer that carries
    both graphs it draws the flowchart with the options of the mind map,
    physics enabled and no layout imposed, which are not the hierarchical
    ones. *)
Lemma legacy_flowchart_force_directed :
  let s' := Legacy.submitForm (Sample.document [Sample.notes_png] false)
              (Responded (Sample.both_graphs Sample.engine))
              (Sample.page Sample.engine) in
  More.accepted (Sample.both_graphs Sample.engine) = true /\
  vis s' =
    [ Created Sample.engine 1 Flowchart (VArr []) (VArr []) visOptions;
      Created Sample.engine 0 Mindmap (VArr []) (VArr []) visOptions ] /\
  Spec.force_directed visOptions /\
  ~ Spec.left_to_right visOptions.
Proof.
  split; [reflexivity |]. split; [reflexivity |].
  split; [split; reflexivity |].
  intros [Hphysics _]. discriminate Hphysics.
Qed.

End LegacyMore.

(** ** [frontend/auth.js], further *)
Module AuthMore.

Import JS Auth AuthUI.

(** *** The strength of a password *)

Lemma strength_criteria (pw : jsstring) : strength pw = Session.criteria pw.
Proof.
  unfold strength, Session.criteria.
  destruct (6 <=? List.length pw), (test_class is_upper pw),
    (test_class is_lower pw), (test_class is_digit pw),
    (test_class is_symbol pw); reflexivity.
Qed.

(** A code unit is of exactly one of the four classes. *)
Lemma one_class (c : N) :
  Nat.b2n (is_upper c) + Nat.b2n (is_lower c) + Nat.b2n (is_digit c) +
  Nat.b2n (is_symbol c) = 1.
Proof.
  unfold is_symbol.
  destruct (is_upper c) eqn:Hu, (is_lower c) eqn:Hl, (is_digit c) eqn:Hd;
    try reflexivity; exfalso;
    unfold is_upper, is_lower, is_digit in *;
    repeat match goal with
           | H : (_ && _)%bool = true |- _ => apply andb_true_iff in H as [? ?]
           | H : (_ <=? _)%N = true |- _ => apply N.leb_le in H
           end; lia.
Qed.

Lemma b2n_orb (a b : bool) : Nat.b2n (a || b) <= Nat.b2n a + Nat.b2n b.
Proof. destruct a, b; cbn; lia. Qed.

Lemma b2n_le (a b : bool) : (a = true -> b = true) -> Nat.b2n a <= Nat.b2n b.
Proof.
  destruct a, b; cbn; intro H; first [lia | discriminate (H eq_refl)].
Qed.

(** The classes met are no more than the code units. *)
Lemma classes_le_length (pw : jsstring) :
  Nat.b2n (test_class is_upper pw) + Nat.b2n (test_class is_lower pw) +
  Nat.b2n (test_class is_digit pw) + Nat.b2n (test_class is_symbol pw)
  <= List.length pw.
Proof.
  unfold test_class. induction pw as [| c rest IH]; [cbn; lia |].
  cbn [existsb List.length].
  pose proof (one_class c).
  pose proof (b2n_orb (is_upper c) (existsb is_upper rest)).
  pose proof (b2n_orb (is_lower c) (existsb is_lower rest)).
  pose proof (b2n_orb (is_digit c) (existsb is_digit rest)).
  pose proof (b2n_orb (is_symbol c) (existsb is_symbol rest)).
  lia.
Qed.

(** X14. [strength] gives 0 to the empty password and to no other: every
    code unit is an uppercase letter, a lowercase letter, a digit or a
    symbol. *)
Theorem strength_zero_iff_empty (pw : jsstring) :
  strength pw = 0 <-> pw = [].
Proof.
  split; [| intros ->; reflexivity].
  destruct pw as [| c rest]; [reflexivity |].
  rewrite strength_criteria. unfold Session.criteria, test_class.
  cbn [existsb]. pose proof (one_class c) as H.
  destruct (is_upper c), (is_lower c), (is_digit c), (is_symbol c);
    cbn in H; try discriminate H; cbn [orb Nat.b2n]; lia.
Qed.

(** X15. Typing more never lowers the score: the [strength] of a password
    is at most that of any text that contains it. *)
Theorem strength_grows (before pw after : jsstring) :
  strength pw <= strength (before ++ pw ++ after).
Proof.
  rewrite !strength_criteria. unfold Session.criteria, test_class.
  rewrite !existsb_app, !length_app.
  assert (Hlen : Nat.b2n (6 <=? List.length pw) <=
                 Nat.b2n (6 <=? List.length before +
                                (List.length pw + List.length after))).
  { apply b2n_le. rewrite !Nat.leb_le. lia. }
  assert (Hclass : forall p,
             Nat.b2n (existsb p pw) <=
             Nat.b2n (existsb p before || (existsb p pw || existsb p after))).
  { intro p. apply b2n_le. intros ->. rewrite orb_true_r. reflexivity. }
  pose proof (Hclass is_upper). pose proof (Hclass is_lower).
  pose proof (Hclass is_digit). pose proof (Hclass is_symbol).
  lia.
Qed.

(** X16. A password that scores 3 or more has at least three code units;
    the six that the form announces are one criterion among five, and
    nothing in the script requires them. *)
Theorem strength_three_needs_three (pw : jsstring) :
  3 <= strength pw -> 3 <= List.length pw.
Proof.
  rewrite strength_criteria. unfold Session.criteria. intro H.
  pose proof (classes_le_length pw) as Hclasses.
  destruct (6 <=? List.length pw) eqn:Hsix.
  - apply Nat.leb_le in Hsix. lia.
  - cbn [Nat.b2n] in H. lia.
Qed.

(** Three code units are enough. *)
Lemma strength_three_sample :
  3 <= strength (units "aB1") /\ 3 <= List.length (units "aB1") <= 3 /\
  signupBtn_disabled
    (validateSignup (Sample.typed "ada@example.org" "ada" "aB1") Sample.signed_in)
  = false.
Proof.
  assert (H : 3 <= strength (units "aB1")) by (cbn; lia).
  split; [exact H |]. split; [| reflexivity].
  split; [exact (strength_three_needs_three (units "aB1") H) | cbn; lia].
Defined.

(** *** Login validation *)

Lemma trim_start_blank (s : jsstring) :
  forallb is_space s = true -> trim_start s = [].
Proof.
  induction s as [| c rest IH]; [reflexivity |].
  cbn [forallb trim_start]. intro H. apply andb_true_iff in H as [-> Hrest].
  exact (IH Hrest).
Qed.

(** X17. After [validateLogin] the login button is enabled exactly when the
    trimmed identifier has at least three code units and the password is
    not empty; an identifier of white space only never enables it, and the
    password is not trimmed. *)
Theorem login_enabled_iff (f : Fields) (s : State) :
  (loginBtn_disabled (validateLogin f s) = false <->
   3 <= List.length (trim (loginIdentifier f)) /\ loginPassword f <> []) /\
  (forallb is_space (loginIdentifier f) = true ->
   loginBtn_disabled (validateLogin f s) = true).
Proof.
  unfold validateLogin. cbn [loginBtn_disabled set_loginBtn_disabled]. split.
  - rewrite negb_false_iff, andb_true_iff, !Nat.leb_le.
    destruct (loginPassword f); cbn [List.length]; split; intros [H1 H2];
      split; try assumption; try lia; try discriminate.
    congruence.
  - intro Hblank. unfold trim. rewrite (trim_start_blank _ Hblank).
    reflexivity.
Qed.

(** *** The busy state of a submit button *)

(** X18. [setBusy(btn, true, text)] followed by [setBusy(btn, false)] leaves
    the button enabled, whether or not it was before, and showing the text
    it had at the start, [Submit] if that was empty; the other button is
    not touched. Made busy twice before it is released, the button shows
    the text of the first spinner instead: the label it had is lost. *)
Theorem setBusy_restores_label (b : submit_button) (text again : option jsstring)
  (ui : UI) :
  let released := setBusy (Some b) false None (setBusy (Some b) true text ui) in
  let twice :=
    setBusy (Some b) false None
      (setBusy (Some b) true again (setBusy (Some b) true text ui)) in
  shows (face_of b released) =
    Text (text_or (Some (textContent (shows (face_of b ui)))) (units "Submit")) /\
  disabled_of b released = false /\
  (forall other, other <> b ->
     face_of other released = face_of other ui /\
     disabled_of other released = disabled_of other ui) /\
  shows (face_of b twice) = Text (text_or text (units "Please wait")).
Proof.
  cbv zeta. split; [destruct b; reflexivity |].
  split; [destruct b; reflexivity |]. split.
  - intros other Hother.
    destruct b, other; try congruence; split; reflexivity.
  - destruct b, text as [[| c t] |]; reflexivity.
Qed.

(** *** The two forms *)

Section Forms.

Variable E : Engine.
Variable JSON_stringify : val E -> jsstring.

Lemma fetchJSON_fails (url : jsstring) (opts : Init) (net : fetch_outcome E)
  (s : State) :
  Session.fails net = true ->
  fetchJSON url opts net s =
  (Throw (Session.failure net),
   set_requests ({| Auth.url := url; method := init_method opts;
                    req_body := init_body opts |} :: requests s) s).
Proof.
  intro H. destruct net as [e | res].
  - unfold fetchJSON, fetch, bind. reflexivity.
  - rewrite AuthProofs.fetchJSON_run. cbn in H.
    apply negb_true_iff in H. rewrite H. reflexivity.
Qed.

Lemma fetchJSON_answers (url : jsstring) (opts : Init) (res : Response E)
  (s : State) :
  ok res = true ->
  fetchJSON url opts (Responded res) s =
  (Normal (json_or_null E res),
   set_requests ({| Auth.url := url; method := init_method opts;
                    req_body := init_body opts |} :: requests s) s).
Proof. intro H. rewrite AuthProofs.fetchJSON_run, H. reflexivity. Qed.

Lemma alert_says (err : exn) (dflt : jsstring) :
  dflt <> [] -> message_or err dflt <> [].
Proof.
  intro H. unfold message_or. destruct (message err); [exact H | discriminate].
Qed.

(** [setLoggedIn] runs to its end for a user whose name converts. *)
Lemma setLoggedIn_run (user : val E) (s : State) :
  Session.named user = true ->
  setLoggedIn E user s = (Normal tt, Session.signed user s).
Proof.
  unfold Session.named, setLoggedIn, Session.signed, bind, modify, lift,
    to_string.
  destruct (truthy E user); [intros -> |]; reflexivity.
Qed.

(** It stops at the chip for a user whose name does not convert: the flag
    is set and nothing else is done. *)
Lemma setLoggedIn_stops (user : val E) (s : State) :
  Session.named user = false ->
  setLoggedIn E user s =
  (Throw {| exn_name := TypeError;
            message := msg_not_primitive E (field user (units "username")) |},
   set_loggedIn true s).
Proof.
  unfold Session.named, setLoggedIn, bind, modify, lift, to_string.
  destruct (truthy E user); [intros -> | discriminate]. reflexivity.
Qed.

Lemma nameless_is_somebody (user : val E) :
  Session.named user = false -> truthy E user = true.
Proof. unfold Session.named. destruct (truthy E user); [reflexivity | discriminate]. Qed.

(** X19. The login button is enabled and the login request fails (it is
    rejected, or answered with a status that is not ok): one request was
    sent; the error region shows the message of the failure with the class
    [alert error], never an empty text; the success region is empty; the
    session, the submission control and the overlay are as before; and the
    button is enabled again under the label it had. The failure is the
    rejection itself, or the [Error] made of the [error] or [message] of
    the body or of the status, or the engine's TypeError when that entry
    does not convert to a string. *)
Theorem login_failure (f : Fields) (remember : bool) (net : fetch_outcome E)
  (ui : UI) :
  loginBtn_disabled (base ui) = false ->
  Session.fails net = true ->
  let ui' := login_submit JSON_stringify f remember net ui in
  authError (base ui') =
    {| alert_textContent := message_or (Session.failure net) (units "Login failed");
       alert_className := units "alert error" |} /\
  alert_textContent (authError (base ui')) <> [] /\
  alert_textContent (authSuccess (base ui')) = [] /\
  loggedIn (base ui') = loggedIn (base ui) /\
  controls (base ui') = controls (base ui) /\
  overlay_display (base ui') = overlay_display (base ui) /\
  loginBtn_disabled (base ui') = false /\
  shows (loginBtn_face ui') =
    Text (text_or (Some (textContent (shows (loginBtn_face ui))))
            (units "Submit")) /\
  List.length (requests (base ui')) = S (List.length (requests (base ui))).
Proof.
  intros Henabled Hfails. cbv zeta.
  unfold login_submit. rewrite Henabled.
  unfold try_catch, bind, modify, lift_base. cbn [fst snd].
  rewrite (fetchJSON_fails _ _ net _ Hfails). cbn.
  repeat split. apply alert_says. discriminate.
Qed.


(** X21. The login button is enabled and the login request is answered
    with an ok status, but the body is not JSON or is [null]: reading
    [data.user] raises, so nobody is signed in, the error region shows the
    engine's message for reading [user] of [null] ([Login failed] if it has
    none), and the button is enabled again. *)
Theorem login_without_body (f : Fields) (remember : bool) (res : Response E)
  (ui : UI) :
  loginBtn_disabled (base ui) = false ->
  ok res = true ->
  match parsed res with
  | Some data => is_nullish data = true
  | None => True
  end ->
  let ui' := login_submit JSON_stringify f remember (Responded res) ui in
  alert_textContent (authError (base ui')) =
    match msg_nullish_read E (json_or_null E res) (units "user") with
    | [] => units "Login failed"
    | c :: m => c :: m
    end /\
  loggedIn (base ui') = loggedIn (base ui) /\
  controls (base ui') = controls (base ui) /\
  loginBtn_disabled (base ui') = false.
Proof.
  intros Henabled Hok Hbody. cbv zeta.
  unfold login_submit. rewrite Henabled.
  unfold try_catch, bind, modify, lift_base. cbn [fst snd].
  rewrite (fetchJSON_answers _ _ res _ Hok).
  assert (Hnull : is_nullish (json_or_null E res) = true).
  { rewrite AuthProofs.json_or_null_parsed.
    destruct (parsed res); [exact Hbody | reflexivity]. }
  unfold lift, get. rewrite Hnull. cbn. repeat split.
Qed.

(** X22. The sign-up button is enabled. When the registration request is
    answered with an ok status and a body that parses to something other
    than [null], whose [user] is falsy or has a [username] that converts
    to a string: somebody is signed in exactly when the [user] is truthy,
    the submission control is disabled exactly when nobody is, and in both
    cases the success region says that the account was created and that
    the visitor is signed in, and the button stays disabled behind its
    spinner. When the request fails instead, the error region shows the
    message of the failure ([Registration failed] if it has none), the
    session and the control are as before and the button is enabled
    again. *)
Theorem signup_answered (f : Fields) (net : fetch_outcome E) (ui : UI) :
  signupBtn_disabled (base ui) = false ->
  let ui' := signup_submit JSON_stringify f net ui in
  (forall res data,
     net = Responded res -> ok res = true -> parsed res = Some data ->
     is_nullish data = false ->
     Session.named (field data (units "user")) = true ->
     loggedIn (base ui') = truthy E (field data (units "user")) /\
     Session.gated (base ui') /\
     alert_textContent (authSuccess (base ui')) =
       units "Account created. You are now signed in." /\
     signupBtn_disabled (base ui') = true /\
     shows (signupBtn_face ui') = Spinner (units "Creating")) /\
  (Session.fails net = true ->
   alert_textContent (authError (base ui')) =
     message_or (Session.failure net) (units "Registration failed") /\
   loggedIn (base ui') = loggedIn (base ui) /\
   controls (base ui') = controls (base ui) /\
   signupBtn_disabled (base ui') = false).
Proof.
  intros Henabled. cbv zeta.
  unfold signup_submit. rewrite Henabled.
  unfold try_catch, bind, modify, lift_base. cbn [fst snd]. split.
  - intros res data -> Hok Hparsed Hdata Hnamed.
    rewrite (fetchJSON_answers _ _ res _ Hok).
    rewrite AuthProofs.json_or_null_parsed, Hparsed.
    unfold lift, get. rewrite Hdata. cbn [fst snd].
    rewrite (setLoggedIn_run _ _ Hnamed). cbn [fst snd].
    unfold Session.signed, Session.gated.
    destruct (truthy E (field data (units "user"))); cbn;
      repeat split; intros b; rewrite AuthProofs.findProcessBtn_disable_found;
      destruct (findProcessBtn (controls (base ui))); try discriminate;
      intros [= <-]; reflexivity.
  - intro Hfails. rewrite (fetchJSON_fails _ _ net _ Hfails). cbn.
    repeat split.
Qed.

(** *** The guard on the upload form and the start *)

Lemma authMe_run (res : Response E) (s : State) :
  authMe (Responded res) s =
  (Normal (Session.session res),
   set_requests ({| Auth.url := units "/auth/me"; method := None;
                    req_body := None |} :: requests s) s).
Proof.
  unfold authMe, fetch, bind, ret. cbn [fst snd].
  rewrite AuthProofs.json_or_null_parsed. unfold Session.session, and_then.
  destruct (parsed res) as [data |]; [| reflexivity].
  destruct (truthy E data) eqn:Hd; cbn [andb]; [reflexivity |].
  rewrite Hd. reflexivity.
Qed.

Lemma gated_same (s s' : State) :
  controls s' = controls s -> loggedIn s' = loggedIn s ->
  Session.gated s -> Session.gated s'.
Proof. unfold Session.gated. intros -> ->. exact (fun H => H). Qed.

Lemma gated_enableControlsIfPresent (s : State) :
  Session.gated (enableControlsIfPresent s).
Proof.
  intros b Hb. apply (AuthProofs.enableControlsIfPresent_gate s b Hb).
Qed.

Lemma gated_signed (user : val E) (s : State) :
  Session.gated (Session.signed user s).
Proof.
  unfold Session.signed.
  destruct (truthy E user);
    [apply (gated_same (enableControlsIfPresent
                          (set_logoutBtn_display (units "inline-flex")
                             (set_userChip_show true
                                (set_userChipName
                                   (units "Signed in: " ++
                                    printed E (field user (units "username")))
                                   (set_loggedIn true s))))));
     [reflexivity | reflexivity |] |];
    apply gated_enableControlsIfPresent.
Qed.

Lemma gated_showOverlay (s : State) :
  Session.gated s -> Session.gated (showOverlay s).
Proof. apply gated_same; reflexivity. Qed.

Lemma guard_run (res : Response E) (s : State) :
  guard_submit (Responded res) s =
  let probed :=
    set_requests ({| Auth.url := units "/auth/me"; method := None;
                     req_body := None |} :: requests s) s in
  if truthy E (Session.session res)
  then (Normal false, probed)
  else (Normal true, showOverlay (Session.signed (VNull : val E) probed)).
Proof.
  unfold guard_submit, REQUIRE_LOGIN, bind. cbn [negb].
  rewrite authMe_run.
  destruct (truthy E (Session.session res)); cbn [negb]; [reflexivity |].
  rewrite (setLoggedIn_run (VNull : val E) _ eq_refl). reflexivity.
Qed.

(** X23. The guard on the upload form probes the session. It calls
    [preventDefault] exactly when the probe finds no user, and then nobody
    is signed in, the overlay is visible and the submission control is
    disabled; when the probe finds a user it changes nothing but the list
    of requests sent. When the probe cannot reach the server the guard ends
    with the rejection: [preventDefault] is not called and the overlay is
    left as it was. *)
Theorem guard_prevents_without_session (res : Response E) (e : exn) (s : State) :
  let r := guard_submit (Responded res) s in
  let u := Session.session res in
  fst r = Normal (negb (truthy E u)) /\
  (truthy E u = true ->
   exists rq, snd r = set_requests (rq :: requests s) s) /\
  (truthy E u = false ->
   loggedIn (snd r) = false /\ isVisible (snd r) = true /\
   Session.gated (snd r)) /\
  fst (guard_submit (Rejected e : fetch_outcome E) s) = Throw e /\
  overlay_display (snd (guard_submit (Rejected e : fetch_outcome E) s))
  = overlay_display s.
Proof.
  cbv zeta. rewrite guard_run. cbv zeta.
  destruct (truthy E (Session.session res)) eqn:Hu; cbn [negb fst snd].
  - split; [reflexivity |]. split; [intros _; eexists; reflexivity |].
    split; [discriminate |]. split; reflexivity.
  - split; [reflexivity |]. split; [discriminate |].
    split; [| split; reflexivity].
    intros _. split; [reflexivity |]. split; [reflexivity |].
    apply gated_showOverlay, gated_signed.
Qed.

Lemma gated_validated (f : Fields) (s : State) :
  Session.gated s -> Session.gated (validateSignup f (validateLogin f s)).
Proof.
  apply gated_same; unfold validateSignup, validateLogin; cbn;
    destruct (pwBar s); reflexivity.
Qed.

(** The start, when the session probe is answered with a user that can be
    named, or with none. *)
Lemma init_run (f : Fields) (res : Response E) (ui : UI) :
  Session.named (Session.session res) = true ->
  init f (Responded res) ui =
  let u := Session.session res in
  let probed :=
    set_requests ({| Auth.url := units "/auth/me"; method := None;
                     req_body := None |}
                  :: requests (enableControlsIfPresent (base ui)))
      (enableControlsIfPresent (base ui)) in
  on_base
    (fun _ =>
       validateSignup f
         (validateLogin f
            ((if truthy E u then fun s => s else showOverlay)
               (Session.signed u probed))))
    (set_observing true ui).
Proof.
  intro Hnamed. unfold init, observeControls, REQUIRE_LOGIN.
  unfold bind, lift_base, modify. cbn [base on_base set_observing].
  rewrite authMe_run. cbn [fst snd].
  rewrite (setLoggedIn_run _ _ Hnamed). cbn [fst snd]. rewrite andb_true_r.
  destruct (truthy E (Session.session res)); reflexivity.
Qed.

(** When the probe is rejected, or answered with a user that can be named
    or with none, the start leaves the control gated and the observer
    connected. *)
Lemma start_gated (f : Fields) (net : fetch_outcome E) (ui : UI) :
  Session.probe_named net = true ->
  Session.gated (base (init f net ui)) /\ observing (init f net ui) = true.
Proof.
  destruct net as [e | res]; cbn [Session.probe_named]; intro Hnamed.
  - unfold init, observeControls, REQUIRE_LOGIN.
    unfold bind, lift_base, modify. cbn [base on_base set_observing].
    unfold authMe, fetch, bind. cbn. split; [| reflexivity].
    apply (gated_same (enableControlsIfPresent (base ui)));
      [reflexivity | reflexivity | apply gated_enableControlsIfPresent].
  - rewrite (init_run f res ui Hnamed). cbv zeta.
    cbn [base on_base observing set_observing]. split; [| reflexivity].
    apply gated_validated.
    destruct (truthy E (Session.session res));
      [| apply gated_showOverlay]; apply gated_signed.
Qed.

(** X24. When the session probe of the start is answered with no user, or
    with a user whose [username] converts to a string, the start leaves the
    page in one of two states: somebody is signed in and the overlay is
    hidden, or nobody is and the overlay is visible; the submission control
    is disabled exactly in the second, and the observer of late controls is
    connected. When the [username] does not convert, the start stops inside
    [setLoggedIn]: the session flag is set, but the overlay is as the page
    loaded it, the submission control is as [observeControls] left it, and
    the validations have not run. *)
Theorem init_answered (f : Fields) (res : Response E) (ui : UI) :
  let ui' := init f (Responded res) ui in
  let u := Session.session res in
  (Session.named u = true ->
   loggedIn (base ui') = truthy E u /\
   isVisible (base ui') = negb (loggedIn (base ui')) /\
   Session.gated (base ui') /\
   observing ui' = true) /\
  (Session.named u = false ->
   loggedIn (base ui') = true /\
   overlay_display (base ui') = overlay_display (base ui) /\
   controls (base ui') = controls (enableControlsIfPresent (base ui)) /\
   loginBtn_disabled (base ui') = loginBtn_disabled (base ui) /\
   signupBtn_disabled (base ui') = signupBtn_disabled (base ui)).
Proof.
  cbv zeta. split.
  - intro Hnamed.
    split; [| split; [| exact (start_gated f (Responded res) ui Hnamed)]];
      rewrite (init_run f res ui Hnamed); cbv zeta;
      cbn [base on_base observing set_observing];
      unfold validateSignup, validateLogin, Session.signed;
      destruct (truthy E (Session.session res)); cbn;
      destruct (pwBar (base ui)); reflexivity.
  - intro Hnameless. unfold init, observeControls, REQUIRE_LOGIN.
    unfold bind, lift_base, modify. cbn [base on_base set_observing].
    rewrite authMe_run. cbn [fst snd].
    rewrite (setLoggedIn_stops _ _ Hnameless). cbn. repeat split.
Qed.

(** X25. When the session probe of the start is rejected, the start stops
    there: the overlay is left as it was, so a page that loads with the
    overlay hidden shows no way to sign in; the two validations have not
    run; and the submission control is disabled exactly when nobody was
    signed in, as [observeControls] left it. *)
Theorem init_unreachable (f : Fields) (e : exn) (ui : UI) :
  let ui' := init f (Rejected e : fetch_outcome E) ui in
  overlay_display (base ui') = overlay_display (base ui) /\
  loggedIn (base ui') = loggedIn (base ui) /\
  loginBtn_disabled (base ui') = loginBtn_disabled (base ui) /\
  signupBtn_disabled (base ui') = signupBtn_disabled (base ui) /\
  Session.gated (base ui') /\
  observing ui' = true.
Proof.
  cbv zeta.
  pose proof (start_gated f (Rejected e) ui eq_refl) as Hgate.
  unfold init, observeControls in *.
  unfold bind, lift_base, modify, authMe, fetch in *. cbn in *.
  repeat split; apply Hgate.
Qed.

(** *** The gate over the life of the page *)

Lemma settled_gated (s s' : State) :
  Session.settled s s' -> Session.gated s -> Session.gated s'.
Proof.
  intros [[Hc Hl] | (d & Hc & Hl)] Hgated.
  - exact (gated_same s s' Hc Hl Hgated).
  - intros b. rewrite Hc, Hl, AuthProofs.findProcessBtn_disable_found.
    destruct (findProcessBtn (controls s)); [| discriminate].
    intros [= <-]. reflexivity.
Qed.

Lemma login_submit_observing (f : Fields) (remember : bool)
  (net : fetch_outcome E) (ui : UI) :
  observing (login_submit JSON_stringify f remember net ui) = observing ui.
Proof.
  unfold login_submit.
  destruct (loginBtn_disabled (base ui)); [reflexivity |].
  unfold try_catch, bind, modify, lift_base. cbn [fst snd].
  destruct (fetchJSON _ _ net _) as [[data | e] s1]; cbn [fst snd];
    [| reflexivity].
  unfold lift. destruct (get E data (units "user")) as [user | e];
    cbn [fst snd]; [| reflexivity].
  destruct (setLoggedIn E user _) as [[[] | e] s2]; reflexivity.
Qed.

Lemma signup_submit_observing (f : Fields) (net : fetch_outcome E) (ui : UI) :
  observing (signup_submit JSON_stringify f net ui) = observing ui.
Proof.
  unfold signup_submit.
  destruct (signupBtn_disabled (base ui)); [reflexivity |].
  unfold try_catch, bind, modify, lift_base. cbn [fst snd].
  destruct (fetchJSON _ _ net _) as [[data | e] s1]; cbn [fst snd];
    [| reflexivity].
  unfold lift. destruct (get E data (units "user")) as [user | e];
    cbn [fst snd]; [| reflexivity].
  destruct (setLoggedIn E user _) as [[[] | e] s2]; reflexivity.
Qed.

Lemma login_submit_settled (f : Fields) (remember : bool) (net : fetch_outcome E)
  (ui : UI) :
  Session.well_named (LoginSubmitted E f remember net) = true ->
  Session.settled (base ui) (base (login_submit JSON_stringify f remember net ui)).
Proof.
  intro Hnamed. unfold login_submit.
  destruct (loginBtn_disabled (base ui)); [left; split; reflexivity |].
  unfold try_catch, bind, modify, lift_base. cbn [fst snd].
  destruct net as [e | res].
  - unfold fetchJSON, fetch, bind. cbn [fst snd]. left; split; reflexivity.
  - rewrite AuthProofs.fetchJSON_run.
    destruct (ok res); cbn [fst snd]; [| left; split; reflexivity].
    unfold lift, get.
    destruct (is_nullish (json_or_null E res)); cbn [fst snd];
      [left; split; reflexivity |].
    cbn [Session.well_named] in Hnamed.
    rewrite (setLoggedIn_run _ _ Hnamed). cbn [fst snd base on_base].
    right. exists (truthy E (field (json_or_null E res) (units "user"))).
    unfold Session.signed.
    destruct (truthy E (field (json_or_null E res) (units "user")));
      split; reflexivity.
Qed.

Lemma signup_submit_settled (f : Fields) (net : fetch_outcome E) (ui : UI) :
  Session.well_named (SignupSubmitted E f net) = true ->
  Session.settled (base ui) (base (signup_submit JSON_stringify f net ui)).
Proof.
  intro Hnamed. unfold signup_submit.
  destruct (signupBtn_disabled (base ui)); [left; split; reflexivity |].
  unfold try_catch, bind, modify, lift_base. cbn [fst snd].
  destruct net as [e | res].
  - unfold fetchJSON, fetch, bind. cbn [fst snd]. left; split; reflexivity.
  - rewrite AuthProofs.fetchJSON_run.
    destruct (ok res); cbn [fst snd]; [| left; split; reflexivity].
    unfold lift, get.
    destruct (is_nullish (json_or_null E res)); cbn [fst snd];
      [left; split; reflexivity |].
    cbn [Session.well_named] in Hnamed.
    rewrite (setLoggedIn_run _ _ Hnamed). cbn [fst snd base on_base].
    right. exists (truthy E (field (json_or_null E res) (units "user"))).
    unfold Session.signed.
    destruct (truthy E (field (json_or_null E res) (units "user")));
      split; reflexivity.
Qed.

Lemma happen_observing (h : happening E) (ui : UI) :
  observing (happen JSON_stringify h ui) =
  if is_timeout h then false else observing ui.
Proof.
  destruct h as [f remember net | f net | net | net | target f | i f | found |];
    cbn [happen is_timeout]; try reflexivity.
  - apply login_submit_observing.
  - apply signup_submit_observing.
  - unfold click_tab. destruct (nth_error (tabs ui) i); reflexivity.
  - unfold mutation. cbn [observing on_base].
    destruct (observing ui) eqn:Hobs; cbn; rewrite ?Hobs; reflexivity.
Qed.

Lemma happen_keeps_gate (h : happening E) (ui : UI) :
  Session.steady h = true ->
  observing ui = true ->
  Session.gated (base ui) ->
  Session.gated (base (happen JSON_stringify h ui)) /\
  observing (happen JSON_stringify h ui) = true.
Proof.
  unfold Session.steady. intros Hh Hobs Hgated.
  apply andb_true_iff in Hh as [Hh Hnamed]. apply negb_true_iff in Hh.
  split; [| rewrite happen_observing, Hh; exact Hobs].
  destruct h as [f remember net | f net | net | net | target f | i f | found |];
    cbn [happen].
  - exact (settled_gated _ _ (login_submit_settled f remember net ui Hnamed)
             Hgated).
  - exact (settled_gated _ _ (signup_submit_settled f net ui Hnamed) Hgated).
  - cbn [base on_base].
    destruct (AuthProofs.logout_unfold E net (base ui)) as [rq ->].
    rewrite (setLoggedIn_run (VNull : val E) _ eq_refl). cbn [snd].
    unfold REQUIRE_LOGIN. apply gated_showOverlay, gated_signed.
  - cbn [base on_base].
    destruct net as [e | res].
    + apply (gated_same (base ui)); [reflexivity | reflexivity | exact Hgated].
    + rewrite guard_run. cbv zeta.
      destruct (truthy E (Session.session res)); cbn [snd].
      * apply (gated_same (base ui)); [reflexivity | reflexivity | exact Hgated].
      * apply gated_showOverlay, gated_signed.
  - cbn [base on_base].
    apply (gated_same (base ui)); [| | exact Hgated];
      unfold input, validateLogin, validateSignup;
      destruct target; cbn; try reflexivity; destruct (pwBar (base ui));
      reflexivity.
  - unfold click_tab. destruct (nth_error (tabs ui) i); [| assumption].
    cbn [base on_base].
    apply (gated_same (base ui)); [| | exact Hgated];
      unfold validateLogin, validateSignup; cbn;
      destruct (pwBar (base ui)); reflexivity.
  - unfold mutation. cbn [observing on_base]. rewrite Hobs.
    cbn [base on_base]. apply gated_enableControlsIfPresent.
  - discriminate Hh.
Qed.

Lemma history_keeps_gate (l : list (happening E)) :
  forall ui,
    forallb Session.steady l = true ->
    observing ui = true ->
    Session.gated (base ui) ->
    Session.gated (base (history JSON_stringify l ui)).
Proof.
  induction l as [| h rest IH]; intros ui Hl Hobs Hgated; [exact Hgated |].
  cbn [forallb] in Hl. apply andb_true_iff in Hl as [Hh Hrest].
  destruct (happen_keeps_gate h ui Hh Hobs Hgated) as [Hg Ho].
  cbn [history]. exact (IH _ Hrest Ho Hg).
Qed.

(** X26. From the start of the script on, and through any sequence of
    logins, registrations, logouts, guarded uploads, typing, tab clicks and
    changes of the page, each handler settling before the next one starts:
    as long as the observer of late controls has not timed out and every
    user that the server names has a [username] that converts to a string,
    the submission control, if the page has one, is disabled exactly when
    nobody is signed in. *)
Theorem gate_holds_while_observing (f : Fields) (net : fetch_outcome E)
  (l : list (happening E)) (ui : UI) :
  Session.probe_named net = true ->
  forallb Session.steady l = true ->
  Session.gated (base (history JSON_stringify l (init f net ui))).
Proof.
  intros Hprobe Hl.
  destruct (start_gated f net ui Hprobe) as [Hgated Hobserving].
  apply history_keeps_gate; assumption.
Qed.

Lemma history_observing (l : list (happening E)) :
  forall ui,
    existsb is_timeout l = true ->
    observing (history JSON_stringify l ui) = false.
Proof.
  induction l as [| h rest IH]; intros ui Hl; [discriminate Hl |].
  cbn [existsb history] in *.
  destruct (existsb is_timeout rest) eqn:Hrest.
  - apply IH. reflexivity.
  - rewrite orb_false_r in Hl. clear IH.
    assert (Hoff : observing (happen JSON_stringify h ui) = false).
    { rewrite happen_observing, Hl. reflexivity. }
    revert Hoff. generalize (happen JSON_stringify h ui).
    induction rest as [| h' rest IH]; intros ui' Hoff; [exact Hoff |].
    cbn [existsb] in Hrest. apply orb_false_iff in Hrest as [Hh' Hrest].
    cbn [history]. apply (IH Hrest).
    rewrite happen_observing, Hh'. exact Hoff.
Qed.

Lemma history_app (l1 l2 : list (happening E)) :
  forall ui,
    history JSON_stringify (l1 ++ l2) ui =
    history JSON_stringify l2 (history JSON_stringify l1 ui).
Proof.
  induction l1 as [| h rest IH]; intro ui; [reflexivity |].
  cbn [app history]. apply IH.
Qed.

(** X27. Once the observer has timed out it is never connected again:
    whatever happens afterwards, a change of the page is not looked at any
    more, and the controls are as the page made them, enabled or not,
    whoever is signed in. *)
Theorem late_controls_after_timeout (l : list (happening E)) (found : Controls)
  (ui : UI) :
  existsb is_timeout l = true ->
  let ui' := history JSON_stringify (l ++ [PageChanged E found]) ui in
  controls (base ui') = found /\
  loggedIn (base ui') = loggedIn (base (history JSON_stringify l ui)).
Proof.
  intro Hl. cbv zeta. rewrite history_app. cbn [history happen].
  unfold mutation. cbn [observing on_base].
  rewrite (history_observing l ui Hl). split; reflexivity.
Qed.

End Forms.

(** *** Clicks and keys *)

Lemma select_from_nth (i : nat) (l : list TabBtn) :
  forall k j b,
    nth_error (select_from k i l) j = Some b ->
    tab_active b = Nat.eqb (k + j) i /\
    aria_selected b = (if Nat.eqb (k + j) i then units "true" else units "false") /\
    option_map data_tab (nth_error l j) = Some (data_tab b).
Proof.
  induction l as [| t rest IH]; intros k j b H.
  - destruct j; discriminate H.
  - destruct j as [| j]; cbn [select_from nth_error] in H.
    + injection H as <-. rewrite Nat.add_0_r. repeat split.
    + replace (k + S j) with (S k + j) by lia. exact (IH (S k) j b H).
Qed.

Lemma select_from_length (i : nat) (l : list TabBtn) :
  forall k, List.length (select_from k i l) = List.length l.
Proof.
  induction l as [| t rest IH]; intro k; [reflexivity |].
  cbn [select_from List.length]. rewrite IH. reflexivity.
Qed.

Lemma names_apart (name : option jsstring) :
  names name "login" && names name "signup" = false.
Proof.
  unfold names. destruct name as [n |]; [| reflexivity].
  unfold str_eqb.
  destruct (list_eq_dec N.eq_dec n (units "login")) as [-> |]; reflexivity.
Qed.

(** X28. A click on a tab button makes that button the one active tab
    ([aria-selected] following), keeps the buttons and their names, shows
    the login form exactly when the button is named [login] and the sign-up
    form exactly when it is named [signup], never both, clears the two
    alerts, moves the focus to the first field of the form shown, and
    leaves the session and the submission control alone. *)
Theorem click_tab_selects (i : nat) (f : Fields) (ui : UI) (tab : TabBtn) :
  nth_error (tabs ui) i = Some tab ->
  let ui' := click_tab i f ui in
  (forall k b, nth_error (tabs ui') k = Some b ->
     tab_active b = Nat.eqb k i /\
     aria_selected b = (if Nat.eqb k i then units "true" else units "false") /\
     option_map data_tab (nth_error (tabs ui) k) = Some (data_tab b)) /\
  List.length (tabs ui') = List.length (tabs ui) /\
  loginForm_active (base ui') = names (data_tab tab) "login" /\
  signupForm_active ui' = names (data_tab tab) "signup" /\
  loginForm_active (base ui') && signupForm_active ui' = false /\
  alert_textContent (authError (base ui')) = [] /\
  alert_textContent (authSuccess (base ui')) = [] /\
  focused (base ui') =
    Some (if names (data_tab tab) "login" then units "#loginIdentifier"
          else units "#signupEmail") /\
  loggedIn (base ui') = loggedIn (base ui) /\
  controls (base ui') = controls (base ui).
Proof.
  intro Htab. cbv zeta. unfold click_tab. rewrite Htab.
  unfold validateSignup, validateLogin. cbn.
  split; [| split; [apply select_from_length |]].
  - destruct (pwBar (base ui)); cbn;
      intros k b H; exact (select_from_nth i (tabs ui) 0 k b H).
  - destruct (pwBar (base ui)); cbn; repeat split; apply names_apart.
Qed.

(** X29. After a click on a show-password button the field is of type
    [text] or [password] and the button reads [Hide] exactly when the
    password is visible, whatever type and label they had; from then on two
    clicks bring the same state back. *)
Theorem showpass_toggles (box : PasswordBox) :
  let once := click_showpass box in
  (input_type once = units "text" /\ showpass_label once = units "Hide" \/
   input_type once = units "password" /\ showpass_label once = units "Show") /\
  click_showpass (click_showpass once) = once.
Proof.
  cbv zeta. unfold click_showpass.
  destruct (str_eqb (input_type box) (units "password"));
    cbn [input_type showpass_label]; (split; [auto | reflexivity]).
Qed.

Lemma last_in (rest : list Focusable) :
  forall first d, In (List.last (first :: rest) d) (first :: rest).
Proof.
  induction rest as [| n rest IH]; intros first d.
  - left. reflexivity.
  - right. exact (IH n d).
Qed.

(** X30. While the overlay is hidden the [keydown] listener does nothing.
    While it is visible, [Escape] is always prevented and moves no focus;
    [Tab] on the last element that the selector of [trapFocus] finds and
    [Shift+Tab] on the first are always prevented, and move the focus to
    the other end unless that end is disabled, in which case [focus()] does
    nothing and the focus stays where it was; and whenever the listener
    moves the focus, it moves it to an element of the overlay that is not
    disabled. *)
Theorem keydown_keeps_focus_inside (k : key) (shiftKey : bool)
  (arr : list Focusable) (active : option node) (s : State) :
  let r := keydown k shiftKey arr active s in
  (isVisible s = false -> r = (active, false)) /\
  (isVisible s = true -> k = Escape -> r = (active, true)) /\
  (fst r = active \/
   exists target,
     fst r = Some (el target) /\ In target arr /\
     el_disabled target = false /\ snd r = true /\ k = Tab) /\
  (forall first rest,
     isVisible s = true -> arr = first :: rest ->
     let last := List.last arr first in
     keydown Tab false arr (Some (el last)) s =
       (Some (el (if el_disabled first then last else first)), true) /\
     keydown Tab true arr (Some (el first)) s =
       (Some (el (if el_disabled last then first else last)), true)).
Proof.
  cbv zeta. split; [| split; [| split]].
  - intro H. unfold keydown. rewrite H. reflexivity.
  - intros H ->. unfold keydown. rewrite H. reflexivity.
  - unfold keydown. destruct (negb (isVisible s)); [left; reflexivity |].
    destruct k; try (left; reflexivity).
    unfold trapFocus, focus. destruct arr as [| first rest]; [left; reflexivity |].
    destruct (shiftKey && is_active active (el first)).
    + destruct (el_disabled (List.last (first :: rest) first)) eqn:Hd;
        [left; reflexivity |].
      right. exists (List.last (first :: rest) first).
      repeat split; [apply last_in | exact Hd].
    + destruct (negb shiftKey &&
                is_active active (el (List.last (first :: rest) first)));
        [| left; reflexivity].
      destruct (el_disabled first) eqn:Hd; [left; reflexivity |].
      right. exists first. repeat split; [left; reflexivity | exact Hd].
  - intros first rest H ->. unfold keydown, trapFocus, focus. rewrite H.
    cbn [negb andb orb]. unfold is_active. rewrite !Nat.eqb_refl.
    cbn [negb andb orb].
    destruct (el_disabled first), (el_disabled (List.last (first :: rest) first));
      split; reflexivity.
Qed.

(** Four elements of which the last is disabled, as the submit button of a
    form that is not filled in: [Shift+Tab] on the first is prevented and
    leaves the focus on it, and [Tab] on the third, the last that can take
    the focus, is left to the browser. *)
Lemma keydown_disabled_end_sample :
  let arr := [ {| el := 1; el_disabled := false |};
               {| el := 2; el_disabled := false |};
               {| el := 3; el_disabled := false |};
               {| el := 4; el_disabled := true |} ] in
  keydown Tab true arr (Some 1) (showOverlay (base Visits.mounted)) = (Some 1, true) /\
  keydown Tab false arr (Some 3) (showOverlay (base Visits.mounted)) = (Some 3, false).
Proof. split; reflexivity. Qed.

(** *** The theorems on sample visits *)

(** A wrong password: the message of the server, and the button back under
    its label. *)
Lemma login_failure_sample :
  let ui' := login_submit Visits.stringify Visits.credentials true
               (Responded Visits.wrong_password) Visits.ready in
  alert_textContent (authError (base ui')) = units "Invalid credentials" /\
  shows (loginBtn_face ui') = Text (units "Login") /\
  loggedIn (base ui') = false.
Proof.
  destruct (login_failure Sample.engine Visits.stringify Visits.credentials true
              (Responded Visits.wrong_password) Visits.ready eq_refl eq_refl)
    as (Herror & _ & _ & Hsession & _ & _ & _ & Hface & _).
  cbv zeta. rewrite Herror, Hface, Hsession. repeat split.
Defined.


(** A page of HTML under status 200. *)
Lemma login_without_body_sample :
  alert_textContent
    (authError
       (base (login_submit Visits.stringify Visits.credentials true
                (Responded Visits.not_json) Visits.ready)))
  = units "Cannot read properties of null (reading 'user')".
Proof.
  exact (proj1 (login_without_body Sample.engine Visits.stringify
                  Visits.credentials true Visits.not_json Visits.ready
                  eq_refl eq_refl I)).
Defined.

(** A registration that the server accepts. *)
Lemma signup_answered_sample :
  let ui' := signup_submit Visits.stringify Visits.registering
               (Responded Visits.welcome) Visits.ready_to_register in
  loggedIn (base ui') = true /\
  alert_textContent (authSuccess (base ui')) =
    units "Account created. You are now signed in." /\
  shows (signupBtn_face ui') = Spinner (units "Creating").
Proof.
  destruct (signup_answered Sample.engine Visits.stringify Visits.registering
              (Responded Visits.welcome) Visits.ready_to_register eq_refl)
    as [Hanswered _].
  destruct (Hanswered Visits.welcome
              (VObj [(units "ok", VBool true);
                     (units "user",
                      VObj [(units "username", VStr (units "ada"))])])
              eq_refl eq_refl eq_refl eq_refl eq_refl)
    as (Hsession & _ & Hsuccess & _ & Hface).
  cbv zeta. rewrite Hsession, Hsuccess, Hface. repeat split.
Defined.

(** The start on a page that nobody is signed in to, and on one whose
    session names a user that has no printable name. *)
Lemma init_answered_sample :
  let ui' := init Visits.credentials (Responded Visits.no_user) Visits.mounted in
  let ui'' := init Visits.credentials (Responded Visits.nameless) Visits.mounted in
  (loggedIn (base ui') = false /\ isVisible (base ui') = true) /\
  (loggedIn (base ui'') = true /\ isVisible (base ui'') = false).
Proof.
  destruct (init_answered Sample.engine Visits.credentials Visits.no_user
              Visits.mounted) as [Hnamed _].
  destruct (Hnamed eq_refl) as (Hsession & Hoverlay & _).
  destruct (init_answered Sample.engine Visits.credentials Visits.nameless
              Visits.mounted) as [_ Hnameless].
  destruct (Hnameless eq_refl) as (Hflag & Hstays & _).
  cbv zeta. rewrite Hoverlay, Hsession, Hflag. unfold isVisible.
  rewrite Hstays. repeat split.
Defined.

(** A visit that ends signed out: the control that came late is
    disabled. *)
Lemma gate_holds_sample :
  Session.gated
    (base (history Visits.stringify Visits.visit
             (init Visits.credentials (Responded Visits.no_user) Visits.mounted)))
  /\
  findProcessBtn
    (controls
       (base (history Visits.stringify Visits.visit
                (init Visits.credentials (Responded Visits.no_user)
                   Visits.mounted))))
  = Some {| disabled := true |}.
Proof.
  split; [| reflexivity].
  exact (gate_holds_while_observing Sample.engine Visits.stringify
           Visits.credentials (Responded Visits.no_user) Visits.visit
           Visits.mounted eq_refl eq_refl).
Defined.

(** The same control coming after the timeout, nobody being signed in: it
    stays enabled. *)
Lemma late_controls_sample :
  let ui' :=
    history Visits.stringify
      ([ObserverTimedOut Sample.engine] ++ [PageChanged Sample.engine Visits.late])
      (init Visits.credentials (Responded Visits.no_user) Visits.mounted) in
  loggedIn (base ui') = false /\
  findProcessBtn (controls (base ui')) = Some {| disabled := false |}.
Proof.
  destruct (late_controls_after_timeout Sample.engine Visits.stringify
              [ObserverTimedOut Sample.engine] Visits.late
              (init Visits.credentials (Responded Visits.no_user) Visits.mounted)
              eq_refl) as [Hcontrols Hsession].
  cbv zeta. rewrite Hcontrols, Hsession. split; reflexivity.
Defined.

(** A click on the second tab of the overlay shows the sign-up form. *)
Lemma click_tab_sample :
  let ui' := click_tab 1 Visits.credentials Visits.mounted in
  map tab_active (tabs ui') = [false; true] /\
  loginForm_active (base ui') = false /\
  signupForm_active ui' = true /\
  focused (base ui') = Some (units "#signupEmail").
Proof.
  destruct (click_tab_selects 1 Visits.credentials Visits.mounted
              {| data_tab := Some (units "signup"); tab_active := false;
                 aria_selected := units "false" |} eq_refl)
    as (_ & _ & Hlogin & Hsignup & _ & _ & _ & Hfocus & _).
  cbv zeta. rewrite Hlogin, Hsignup, Hfocus. repeat split.
Defined.

End AuthMore.
